(** * BeautyNow mobile client: session, auth gateway, profile and search services

    A shallow embedding of the service modules under [app/services] and of
    the login and registration screens, followed by the properties of the
    session lifecycle that the specification states about them.

    Conventions of the embedding:
    - a JavaScript string is a [string] whose characters are read as the code
      units 0..255; the white space of [String.prototype.trim] and of the
      regular expression class [\s] inside that range is 9..13, 32 and 160;
    - a JavaScript value ([any]) is a [value]; numbers are carried as
      integers, the code only tests them for truthiness, prints them or
      passes them on;
    - an [async] function is a computation in the monad [M]: it threads the
      device's secure store and the log of issued HTTP requests, and ends in
      a value or in a thrown/rejected exception;
    - console output is not part of the model. *)

From Stdlib Require Import ZArith Ascii String List Bool Lia.
From stdpp Require Import gmap strings list fin_maps pretty.

Local Open Scope Z_scope.
Set Warnings "-register-all".

(** ** Strings *)

Module Str.

Definition is_ws (c : ascii) : bool :=
  let n := nat_of_ascii c in
  ((9 <=? n)%nat && (n <=? 13)%nat) || (n =? 32)%nat || (n =? 160)%nat.

Fixpoint trimStart (s : string) : string :=
  match s with
  | EmptyString => EmptyString
  | String c s' => if is_ws c then trimStart s' else s
  end.

(** [trimEnd] keeps a character when it is not white space or when something
    that is kept follows it. *)
Fixpoint trimEnd (s : string) : string :=
  match s with
  | EmptyString => EmptyString
  | String c s' =>
      match trimEnd s' with
      | EmptyString => if is_ws c then EmptyString else String c EmptyString
      | r => String c r
      end
  end.

(** [s.trim()] *)
Definition trim (s : string) : string := trimEnd (trimStart s).

Fixpoint all_ws (s : string) : bool :=
  match s with
  | EmptyString => true
  | String c s' => is_ws c && all_ws s'
  end.

Definition is_empty (s : string) : bool :=
  match s with EmptyString => true | _ => false end.

(** [s.startsWith(p)] *)
Fixpoint startsWith (p s : string) : bool :=
  match p, s with
  | EmptyString, _ => true
  | String a p', String b s' => if Ascii.eqb a b then startsWith p' s' else false
  | String _ _, EmptyString => false
  end.

(** [s.includes(p)] *)
Fixpoint includes (p s : string) : bool :=
  startsWith p s ||
  match s with
  | EmptyString => false
  | String _ s' => includes p s'
  end.

Fixpoint rev_acc (s acc : string) : string :=
  match s with
  | EmptyString => acc
  | String c s' => rev_acc s' (String c acc)
  end.

Definition rev (s : string) : string := rev_acc s EmptyString.

(** [s.endsWith(p)] *)
Definition endsWith (p s : string) : bool := startsWith (rev p) (rev s).

(** [s.split('/').pop()]: what follows the last slash, the whole string when
    there is none. *)
Fixpoint lastSegment (s : string) : string :=
  match s with
  | EmptyString => EmptyString
  | String c s' =>
      if includes "/" s then lastSegment s' else s
  end.

End Str.

(** ** Regular expressions, as far as the e-mail check needs them *)

Module Regex.

Inductive re : Type :=
  | Empty                       (* matches nothing *)
  | Eps                         (* matches the empty string *)
  | Class (p : ascii -> bool)   (* one character of a class *)
  | Seq (r1 r2 : re)
  | Alt (r1 r2 : re)
  | Star (r : re).

Definition Plus (r : re) : re := Seq r (Star r).
Definition Chr (c : ascii) : re := Class (Ascii.eqb c).

Fixpoint nullable (r : re) : bool :=
  match r with
  | Empty => false
  | Eps => true
  | Class _ => false
  | Seq r1 r2 => nullable r1 && nullable r2
  | Alt r1 r2 => nullable r1 || nullable r2
  | Star _ => true
  end.

Fixpoint deriv (c : ascii) (r : re) : re :=
  match r with
  | Empty => Empty
  | Eps => Empty
  | Class p => if p c then Eps else Empty
  | Seq r1 r2 =>
      if nullable r1 then Alt (Seq (deriv c r1) r2) (deriv c r2)
      else Seq (deriv c r1) r2
  | Alt r1 r2 => Alt (deriv c r1) (deriv c r2)
  | Star r1 => Seq (deriv c r1) (Star r1)
  end.

(** [/^r$/.test(s)] *)
Fixpoint test (r : re) (s : string) : bool :=
  match s with
  | EmptyString => nullable r
  | String c s' => test (deriv c r) s'
  end.

(** [[^\s@]] *)
Definition notSpaceNorAt (c : ascii) : bool :=
  negb (Str.is_ws c) && negb (Ascii.eqb c "@"%char).

(** [/^[^\s@]+@[^\s@]+\.[^\s@]+$/] *)
Definition emailRegex : re :=
  Seq (Plus (Class notSpaceNorAt))
   (Seq (Chr "@"%char)
    (Seq (Plus (Class notSpaceNorAt))
     (Seq (Chr "."%char) (Plus (Class notSpaceNorAt))))).

End Regex.

(** ** JavaScript values *)

Inductive value : Type :=
  | VUndefined
  | VNull
  | VBool (b : bool)
  | VNum (n : Z)
  | VStr (s : string)
  | VArr (l : list value)
  | VObj (o : list (string * value)).

(** What a computation ends in when it throws or its promise rejects. *)
Inductive exn : Type :=
  | Rejected (v : value)       (* [Promise.reject(v)] with a plain value *)
  | JsError (msg : string)     (* [new Error(msg)] *)
  | TypeError (msg : string)   (* raised by the runtime *)
  | SyntaxError (msg : string) (* [response.json()] on a body that is not JSON *).

Inductive result (A : Type) : Type :=
  | Ok (a : A)
  | Err (e : exn).
Arguments Ok {A} a.
Arguments Err {A} e.

Module Js.

(** [!!v] *)
Definition truthy (v : value) : bool :=
  match v with
  | VUndefined | VNull => false
  | VBool b => b
  | VNum n => negb (n =? 0)
  | VStr s => negb (Str.is_empty s)
  | VArr _ | VObj _ => true
  end.

Inductive jstype := TUndefined | TObject | TBoolean | TNumber | TString.

(** [typeof v] *)
Definition typeof (v : value) : jstype :=
  match v with
  | VUndefined => TUndefined
  | VNull | VArr _ | VObj _ => TObject
  | VBool _ => TBoolean
  | VNum _ => TNumber
  | VStr _ => TString
  end.

Definition is_string (v : value) : bool :=
  match v with VStr _ => true | _ => false end.

Definition is_nullish (v : value) : bool :=
  match v with VUndefined | VNull => true | _ => false end.

Fixpoint assoc (k : string) (o : list (string * value)) : option value :=
  match o with
  | [] => None
  | (k', v) :: o' => if String.eqb k k' then Some v else assoc k o'
  end.

(** Own property [k] of [v], if it has one.  Only objects carry the
    properties the code asks for. *)
Definition own (v : value) (k : string) : option value :=
  match v with
  | VObj o => assoc k o
  | _ => None
  end.

(** [v?.k] *)
Definition getOpt (v : value) (k : string) : value :=
  default VUndefined (own v k).

(** [v.k]: a [TypeError] on [null] and [undefined]. *)
Definition get (v : value) (k : string) : result value :=
  if is_nullish v
  then Err (TypeError ("Cannot read property '" +:+ k +:+ "' of " +:+
                       (match v with VNull => "null" | _ => "undefined" end)))
  else Ok (getOpt v k).

Fixpoint assoc_set (k : string) (x : value) (o : list (string * value))
  : list (string * value) :=
  match o with
  | [] => [(k, x)]
  | (k', v) :: o' =>
      if String.eqb k k' then (k', x) :: o' else (k', v) :: assoc_set k x o'
  end.

Fixpoint assoc_del (k : string) (o : list (string * value))
  : list (string * value) :=
  match o with
  | [] => []
  | (k', v) :: o' =>
      if String.eqb k k' then assoc_del k o' else (k', v) :: assoc_del k o'
  end.

(** [v.k = x] on an object. *)
Definition set (v : value) (k : string) (x : value) : value :=
  match v with
  | VObj o => VObj (assoc_set k x o)
  | _ => v
  end.

(** [delete v.k] *)
Definition del (v : value) (k : string) : value :=
  match v with
  | VObj o => VObj (assoc_del k o)
  | _ => v
  end.

(** [a || b] *)
Definition orElse (a b : value) : value := if truthy a then a else b.

(** [a && b] *)
Definition andAlso (a b : value) : value := if truthy a then b else a.

Definition joinWith (sep : string) (l : list string) : string :=
  match l with
  | [] => ""
  | x :: l' => fold_left (fun acc y => acc +:+ sep +:+ y) l' x
  end.

(** [String(v)], the conversion a template literal applies. *)
Fixpoint toString (v : value) : string :=
  match v with
  | VUndefined => "undefined"
  | VNull => "null"
  | VBool true => "true"
  | VBool false => "false"
  | VNum n => pretty n
  | VStr s => s
  | VArr l =>
      joinWith ","
        (map (fun x => if is_nullish x then "" else toString x) l)
  | VObj _ => "[object Object]"
  end.

(** A [string | null] (or an optional string argument) as a value. *)
Definition ofOption (o : option string) : value :=
  match o with
  | Some s => VStr s
  | None => VNull
  end.

Definition isObject (v : value) : bool :=
  match typeof v with TObject => true | _ => false end.

(** [a === b] between a value and a string. *)
Definition strictEqStr (a : value) (s : string) : bool :=
  match a with
  | VStr s' => String.eqb s' s
  | _ => false
  end.

End Js.

(** ** The world an [async] function runs in *)

Inductive FormValue : Type :=
  | FText (s : string)                 (* a text field *)
  | FJsonText (v : value)              (* the text [JSON.stringify(v)] *)
  | FFile (uri name type : string)     (* a file part [{uri, name, type}] *).

Inductive Body : Type :=
  | NoBody
  | JsonBody (v : value)                    (* [JSON.stringify(v)] *)
  | FormBody (fields : list (string * FormValue)) (* a [FormData] *).

Record Request : Type := mkRequest {
  rq_url : string;
  rq_method : string;
  rq_headers : list (string * string);
  rq_body : Body
}.

(** A [Response]: [json] is the parsed body, [None] when the body is not
    JSON and [response.json()] rejects. *)
Record Response : Type := mkResponse {
  status : Z;
  statusText : string;
  json : option value
}.

(** [response.ok] *)
Definition ok (r : Response) : bool := (200 <=? status r) && (status r <=? 299).

(** The backend, seen from the client: what it answers to a request, given
    the requests issued before; [None] is a request that never gets an
    answer ([fetch] rejects). *)
Definition Backend : Type := list Request -> Request -> option Response.

Record World : Type := mkWorld {
  secure : gmap string string;   (* the contents of expo-secure-store *)
  sent : list Request;           (* the requests issued so far, oldest first *)
  server : Backend
}.

Definition M (A : Type) : Type := World -> result A * World.

Definition ret {A} (a : A) : M A := fun w => (Ok a, w).

Definition throw {A} (e : exn) : M A := fun w => (Err e, w).

Definition bind {A B} (m : M A) (k : A -> M B) : M B :=
  fun w =>
    match m w with
    | (Ok a, w') => k a w'
    | (Err e, w') => (Err e, w')
    end.

(** [try { m } catch (error) { h error }] *)
Definition tryCatch {A} (m : M A) (h : exn -> M A) : M A :=
  fun w =>
    match m w with
    | (Ok a, w') => (Ok a, w')
    | (Err e, w') => h e w'
    end.

Definition lift {A} (r : result A) : M A := fun w => (r, w).

Declare Scope js_scope.
Delimit Scope js_scope with js.
Notation "x <- m ;; k" := (bind m (fun x => k))
  (at level 100, m at next level, right associativity) : js_scope.
Notation "m ;;; k" := (bind m (fun _ => k))
  (at level 100, right associativity) : js_scope.
Local Open Scope js_scope.

Fixpoint mapM {A B} (f : A -> M B) (l : list A) : M (list B) :=
  match l with
  | [] => ret []
  | x :: l' => y <- f x ;; ys <- mapM f l' ;; ret (y :: ys)
  end.

(** [l.map(f)] on a value: only arrays have the method. *)
Definition arrayMap (v : value) (f : value -> M value) : M (list value) :=
  match v with
  | VArr l => mapM f l
  | _ => throw (TypeError "map is not a function")
  end.

(** *** expo-secure-store

    The key-value contract of the device's secure storage: a value is a
    string, [setItemAsync] refuses anything else. *)
Module SecureStore.

Definition getItemAsync (key : string) : M value :=
  fun w => (Ok (match secure w !! key with
                | Some s => VStr s
                | None => VNull
                end), w).

Definition setItemAsync (key : string) (v : value) : M unit :=
  fun w =>
    match v with
    | VStr s => (Ok tt, mkWorld (<[key := s]> (secure w)) (sent w) (server w))
    | _ => (Err (JsError "Invalid value provided to SecureStore. Values must be strings"), w)
    end.

Definition deleteItemAsync (key : string) : M unit :=
  fun w => (Ok tt, mkWorld (delete key (secure w)) (sent w) (server w)).

End SecureStore.

(** [fetch(url, {method, headers, body})] *)
Definition fetch (rq : Request) : M Response :=
  fun w =>
    let w' := mkWorld (secure w) (sent w ++ [rq]) (server w) in
    match server w (sent w) rq with
    | Some r => (Ok r, w')
    | None => (Err (TypeError "Network request failed"), w')
    end.

(** ** services/apiClient.ts *)
Module ApiClient.

Definition API_URL : string := "http://192.168.1.16:3000".

Definition headers : list (string * string) :=
  [("Content-Type", "application/json")].

(** [response.json()] *)
Definition responseJson (r : Response) : M value :=
  match json r with
  | Some v => ret v
  | None => throw (SyntaxError "JSON Parse error")
  end.

Definition handleResponse (response : Response) : M value :=
  data <- responseJson response ;;
  if negb (ok response) then
    let error :=
      Js.orElse (Js.andAlso data (Js.getOpt data "message"))
                (VStr (statusText response)) in
    throw (Rejected error)
  else ret data.

End ApiClient.

(** The file part appended to a [FormData]: the name is what follows the last
    slash of the URI (or [fallback]), the type is chosen from the extension
    among [types], [image/jpeg] otherwise. *)
Definition fileName (uri fallback : string) : string :=
  let n := Str.lastSegment uri in
  if Str.is_empty n then fallback else n.

Fixpoint fileType (name : string) (types : list (string * string)) : string :=
  match types with
  | [] => "image/jpeg"
  | (ext, ty) :: rest => if Str.endsWith ext name then ty else fileType name rest
  end.

Definition filePart (uri fallback : string) (types : list (string * string))
  : FormValue :=
  let name := fileName uri fallback in
  FFile uri name (fileType name types).

(** ** services/authService.ts *)
Module AuthService.
Import ApiClient.

Definition TOKEN_KEY : string := "userToken".

Definition register (email password role : string)
    (businessLicense : option string) : M value :=
  if String.eqb role "salon" && Js.truthy (Js.ofOption businessLicense) then
    let license := default "" businessLicense in
    let formData :=
      [("email", FText email); ("password", FText password);
       ("role", FText role);
       ("businessLicense",
        filePart license "license.jpg"
          [(".png", "image/png"); (".pdf", "application/pdf")])] in
    response <- fetch (mkRequest (API_URL +:+ "/auth/register") "POST"
                         [("Accept", "application/json")]
                         (FormBody formData)) ;;
    handleResponse response
  else
    response <- fetch (mkRequest (API_URL +:+ "/auth/register") "POST"
                         headers
                         (JsonBody (VObj [("email", VStr email);
                                          ("password", VStr password);
                                          ("role", VStr role)]))) ;;
    handleResponse response.

Definition verifyOTP (email otp role : string) : M value :=
  response <- fetch (mkRequest (API_URL +:+ "/auth/verify-otp") "POST"
                       headers
                       (JsonBody (VObj [("email", VStr email);
                                        ("otp", VStr otp);
                                        ("role", VStr role)]))) ;;
  data <- handleResponse response ;;
  token <- lift (Js.get data "token") ;;
  (if Js.truthy token
   then SecureStore.setItemAsync TOKEN_KEY token
   else ret tt) ;;;
  ret data.

Definition login (email password role : string) : M value :=
  response <- fetch (mkRequest (API_URL +:+ "/auth/login") "POST"
                       headers
                       (JsonBody (VObj [("email", VStr email);
                                        ("password", VStr password);
                                        ("role", VStr role)]))) ;;
  data <- handleResponse response ;;
  token <- lift (Js.get data "token") ;;
  (if Js.truthy token
   then SecureStore.setItemAsync TOKEN_KEY token
   else ret tt) ;;;
  ret data.

Definition logout : M unit :=
  SecureStore.deleteItemAsync TOKEN_KEY.

Definition isAuthenticated : M bool :=
  token <- SecureStore.getItemAsync TOKEN_KEY ;;
  ret (Js.truthy token).

Definition getToken : M value :=
  SecureStore.getItemAsync TOKEN_KEY.

Definition getUserType : M value :=
  tryCatch (SecureStore.getItemAsync "userType")
           (fun _ => ret VNull).

Definition setUserType (type : string) : M bool :=
  tryCatch (SecureStore.setItemAsync "userType" (VStr type) ;;; ret true)
           (fun _ => ret false).

End AuthService.

(** [if (x) formData.append(name, x)] for an optional text argument. *)
Definition appendIf (name : string) (x : option string)
  : list (string * FormValue) :=
  match x with
  | Some s => if Str.is_empty s then [] else [(name, FText s)]
  | None => []
  end.

(** [if (image) formData.append(name, {uri, name, type})] *)
Definition appendFileIf (name : string) (image : option string)
    (fallback : string) (types : list (string * string))
  : list (string * FormValue) :=
  match image with
  | Some uri =>
      if Str.is_empty uri then [] else [(name, filePart uri fallback types)]
  | None => []
  end.

(** [image.uri || image.url || image.path || ''] on an [image] that is not
    [null]. *)
Definition uriUrlPath (image : value) : value :=
  Js.orElse
    (Js.orElse (Js.orElse (Js.getOpt image "uri") (Js.getOpt image "url"))
               (Js.getOpt image "path"))
    (VStr "").

(** ** services/userProfileService.ts *)
Module UserProfileService.
Import ApiClient.

Record ProfileData : Type := mkProfileData {
  pd_fullName : option string;
  pd_phone : option string;
  pd_address : option string
}.

Definition createUserProfile (fullName : string)
    (phone address faceImage : option string) : M value :=
  token <- AuthService.getToken ;;
  if negb (Js.truthy token) then throw (JsError "Not authenticated") else
  let formData :=
    [("fullName", FText fullName)]
    ++ appendIf "phone" phone
    ++ appendIf "address" address
    ++ appendFileIf "faceImage" faceImage "face_image.jpg"
         [(".png", "image/png")] in
  response <- fetch (mkRequest (API_URL +:+ "/user-profile") "POST"
                       [("Accept", "application/json");
                        ("Authorization", "Bearer " +:+ Js.toString token)]
                       (FormBody formData)) ;;
  handleResponse response.

Definition getUserProfile : M value :=
  token <- AuthService.getToken ;;
  if negb (Js.truthy token) then throw (JsError "Not authenticated") else
  response <- fetch (mkRequest (API_URL +:+ "/user-profile") "GET"
                       (headers ++
                        [("Authorization", "Bearer " +:+ Js.toString token)])
                       NoBody) ;;
  data <- handleResponse response ;;
  let faceImage := Js.getOpt data "faceImage" in
  if Js.truthy data && Js.truthy faceImage && Js.isObject faceImage
  then ret (Js.set data "faceImage" (uriUrlPath faceImage))
  else ret data.

Definition updateUserProfile (profileData : ProfileData)
    (faceImage : option string) : M value :=
  token <- AuthService.getToken ;;
  if negb (Js.truthy token) then throw (JsError "Not authenticated") else
  let formData :=
    appendIf "fullName" (pd_fullName profileData)
    ++ appendIf "phone" (pd_phone profileData)
    ++ appendIf "address" (pd_address profileData)
    ++ appendFileIf "faceImage" faceImage "face_image.jpg"
         [(".png", "image/png")] in
  response <- fetch (mkRequest (API_URL +:+ "/user-profile") "PUT"
                       [("Accept", "application/json");
                        ("Authorization", "Bearer " +:+ Js.toString token)]
                       (FormBody formData)) ;;
  handleResponse response.

Definition deleteUserProfile : M value :=
  token <- AuthService.getToken ;;
  if negb (Js.truthy token) then throw (JsError "Not authenticated") else
  response <- fetch (mkRequest (API_URL +:+ "/user-profile") "DELETE"
                       (headers ++
                        [("Authorization", "Bearer " +:+ Js.toString token)])
                       NoBody) ;;
  handleResponse response.

Definition getImageUri (image : value) : value :=
  if negb (Js.truthy image) then VStr "" else
  if Js.is_string image then image else
  if Js.isObject image then
    if Js.truthy (Js.getOpt image "uri") then Js.getOpt image "uri"
    else if Js.truthy (Js.getOpt image "url") then Js.getOpt image "url"
    else if Js.truthy (Js.getOpt image "source") then
      let source := Js.getOpt image "source" in
      if Js.is_string source then source
      else Js.orElse (Js.getOpt source "uri") (VStr "")
    else if Js.truthy (Js.getOpt image "path") then Js.getOpt image "path"
    else VStr ""
  else VStr "".

End UserProfileService.

(** ** services/salonProfileService.ts *)
Module SalonProfileService.
Import ApiClient.

Record ProfileData : Type := mkProfileData {
  pd_name : option string;
  pd_address : option string;
  pd_phone : option string;
  pd_description : option string
}.

(** [portfolioFiles.forEach((file, index) => formData.append('portfolio', ...))] *)
Definition appendPortfolio (portfolioFiles : option (list string))
  : list (string * FormValue) :=
  match portfolioFiles with
  | Some files =>
      imap (fun index file =>
              ("portfolio",
               filePart file ("portfolio_" +:+ pretty index +:+ ".jpg")
                 [(".png", "image/png"); (".mp4", "video/mp4")]))
           files
  | None => []
  end.

Definition createSalonProfile (name address phone : string)
    (description : option string) (portfolioFiles : option (list string))
  : M value :=
  token <- AuthService.getToken ;;
  if negb (Js.truthy token) then throw (JsError "Not authenticated") else
  let formData :=
    [("name", FText name); ("address", FText address); ("phone", FText phone)]
    ++ appendIf "description" description
    ++ appendPortfolio portfolioFiles in
  response <- fetch (mkRequest (API_URL +:+ "/salon-profile") "POST"
                       [("Accept", "application/json");
                        ("Authorization", "Bearer " +:+ Js.toString token)]
                       (FormBody formData)) ;;
  handleResponse response.

(** The callback of [data.portfolio.map] in [getSalonProfile]. *)
Definition portfolioItem (item : value) : M value :=
  match Js.typeof item with
  | Js.TString => ret item
  | Js.TObject =>
      _ <- lift (Js.get item "uri") ;;
      ret (uriUrlPath item)
  | _ => ret (VStr "")
  end.

Definition getSalonProfile : M value :=
  token <- AuthService.getToken ;;
  if negb (Js.truthy token) then throw (JsError "Not authenticated") else
  response <- fetch (mkRequest (API_URL +:+ "/salon-profile") "GET"
                       (headers ++
                        [("Authorization", "Bearer " +:+ Js.toString token)])
                       NoBody) ;;
  data <- handleResponse response ;;
  let portfolio := Js.getOpt data "portfolio" in
  if Js.truthy data && Js.truthy portfolio then
    items <- arrayMap portfolio portfolioItem ;;
    ret (Js.set data "portfolio" (VArr (List.filter Js.truthy items)))
  else ret data.

Definition updateSalonProfile (profileData : ProfileData)
    (portfolioFiles : option (list string)) : M value :=
  token <- AuthService.getToken ;;
  if negb (Js.truthy token) then throw (JsError "Not authenticated") else
  let formData :=
    appendIf "name" (pd_name profileData)
    ++ appendIf "address" (pd_address profileData)
    ++ appendIf "phone" (pd_phone profileData)
    ++ appendIf "description" (pd_description profileData)
    ++ appendPortfolio portfolioFiles in
  response <- fetch (mkRequest (API_URL +:+ "/salon-profile") "PUT"
                       [("Accept", "application/json");
                        ("Authorization", "Bearer " +:+ Js.toString token)]
                       (FormBody formData)) ;;
  handleResponse response.

Definition deleteSalonProfile : M value :=
  token <- AuthService.getToken ;;
  if negb (Js.truthy token) then throw (JsError "Not authenticated") else
  response <- fetch (mkRequest (API_URL +:+ "/salon-profile") "DELETE"
                       (headers ++
                        [("Authorization", "Bearer " +:+ Js.toString token)])
                       NoBody) ;;
  handleResponse response.

End SalonProfileService.

(** ** The salon-service module (create, list, read, update and delete the
    services a salon offers) *)
Module SalonServiceService.
Import ApiClient.

Record ServiceData : Type := mkServiceData {
  sd_name : option string;
  sd_description : option string;
  sd_price : option Z;
  sd_duration : option Z;
  sd_category : option (list string)
}.

(** [JSON.stringify(category)] of a [string[]], as a form field. *)
Definition categoryField (category : list string) : FormValue :=
  FJsonText (VArr (map VStr category)).

(** [if (n) formData.append(name, n.toString())] for an optional number. *)
Definition appendNumIf (name : string) (n : option Z)
  : list (string * FormValue) :=
  match n with
  | Some z => if z =? 0 then [] else [(name, FText (pretty z))]
  | None => []
  end.

(** [service.illustrationImage] replaced by a plain URI when it is an
    object; shared by the list and the single read. *)
Definition normalizeIllustration (service : value) : M value :=
  image <- lift (Js.get service "illustrationImage") ;;
  if Js.truthy image && Js.isObject image
  then ret (Js.set service "illustrationImage" (uriUrlPath image))
  else ret service.

Definition createSalonService (name : string) (category : list string)
    (price duration : Z) (description illustrationImage : option string)
  : M value :=
  token <- AuthService.getToken ;;
  if negb (Js.truthy token) then throw (JsError "Not authenticated") else
  let formData :=
    [("name", FText name); ("category", categoryField category);
     ("price", FText (pretty price)); ("duration", FText (pretty duration))]
    ++ appendIf "description" description
    ++ appendFileIf "illustrationImage" illustrationImage "service.jpg"
         [(".png", "image/png")] in
  response <- fetch (mkRequest (API_URL +:+ "/salon-profile/services") "POST"
                       [("Accept", "application/json");
                        ("Authorization", "Bearer " +:+ Js.toString token)]
                       (FormBody formData)) ;;
  handleResponse response.

Definition getSalonServices : M value :=
  token <- AuthService.getToken ;;
  if negb (Js.truthy token) then throw (JsError "Not authenticated") else
  response <- fetch (mkRequest (API_URL +:+ "/salon-profile/services") "GET"
                       (headers ++
                        [("Authorization", "Bearer " +:+ Js.toString token)])
                       NoBody) ;;
  data <- handleResponse response ;;
  match data with
  | VArr _ => l <- arrayMap data normalizeIllustration ;; ret (VArr l)
  | _ => ret data
  end.

Definition getSalonService (serviceId : string) : M value :=
  token <- AuthService.getToken ;;
  if negb (Js.truthy token) then throw (JsError "Not authenticated") else
  response <- fetch (mkRequest
                       (API_URL +:+ "/salon-profile/services/" +:+ serviceId)
                       "GET"
                       (headers ++
                        [("Authorization", "Bearer " +:+ Js.toString token)])
                       NoBody) ;;
  data <- handleResponse response ;;
  if Js.truthy data then normalizeIllustration data else ret data.

Definition updateSalonService (serviceId : string) (serviceData : ServiceData)
    (illustrationImage : option string) : M value :=
  token <- AuthService.getToken ;;
  if negb (Js.truthy token) then throw (JsError "Not authenticated") else
  let formData :=
    appendIf "name" (sd_name serviceData)
    ++ appendIf "description" (sd_description serviceData)
    ++ appendNumIf "price" (sd_price serviceData)
    ++ appendNumIf "duration" (sd_duration serviceData)
    ++ match sd_category serviceData with
       | Some category => [("category", categoryField category)]
       | None => []
       end
    ++ appendFileIf "illustrationImage" illustrationImage "service.jpg"
         [(".png", "image/png")] in
  response <- fetch (mkRequest
                       (API_URL +:+ "/salon-profile/services/" +:+ serviceId)
                       "PUT"
                       [("Accept", "application/json");
                        ("Authorization", "Bearer " +:+ Js.toString token)]
                       (FormBody formData)) ;;
  handleResponse response.

Definition deleteSalonService (serviceId : string) : M value :=
  token <- AuthService.getToken ;;
  if negb (Js.truthy token) then throw (JsError "Not authenticated") else
  response <- fetch (mkRequest
                       (API_URL +:+ "/salon-profile/services/" +:+ serviceId)
                       "DELETE"
                       (headers ++
                        [("Authorization", "Bearer " +:+ Js.toString token)])
                       NoBody) ;;
  handleResponse response.

End SalonServiceService.

(** ** services/filterService.ts *)
Module FilterService.
Import ApiClient.

Record ServiceFilterParams : Type := mkServiceFilterParams {
  category : option string;
  minPrice : option Z;
  maxPrice : option Z;
  location : option string
}.

(** The object [JSON.stringify(filterParams)] serialises: absent members are
    left out. *)
Definition paramsObject (p : ServiceFilterParams) : value :=
  VObj (match category p with Some c => [("category", VStr c)] | None => [] end
        ++ match minPrice p with Some n => [("minPrice", VNum n)] | None => [] end
        ++ match maxPrice p with Some n => [("maxPrice", VNum n)] | None => [] end
        ++ match location p with Some l => [("location", VStr l)] | None => [] end).

(** [{...headers, ...(token ? { 'Authorization': `Bearer ${token}` } : {})}] *)
Definition authHeaders (token : value) : list (string * string) :=
  headers ++
  (if Js.truthy token
   then [("Authorization", "Bearer " +:+ Js.toString token)]
   else []).

(** The callback of [data.services.map], the same in [filterServices] and
    [searchServices]. *)
Definition processService (service : value) : M value :=
  image <- lift (Js.get service "illustrationImage") ;;
  let service :=
    if Js.truthy image
    then Js.set service "illustrationImage" (UserProfileService.getImageUri image)
    else service in
  let Salon := Js.getOpt service "Salon" in
  if Js.truthy Salon then
    let SalonProfile := Js.getOpt Salon "SalonProfile" in
    let rawPortfolio := Js.getOpt SalonProfile "portfolio" in
    portfolio <-
      (if Js.is_nullish rawPortfolio then ret (VArr [])
       else l <- arrayMap rawPortfolio
                   (fun img => ret (UserProfileService.getImageUri img)) ;;
            ret (VArr l)) ;;
    let salon :=
      VObj [("id", Js.getOpt Salon "id");
            ("name", Js.orElse (Js.getOpt SalonProfile "name") (VStr ""));
            ("address", Js.orElse (Js.getOpt SalonProfile "address") (VStr ""));
            ("phone", Js.getOpt SalonProfile "phone");
            ("description", Js.getOpt SalonProfile "description");
            ("portfolio", portfolio);
            ("rating", Js.getOpt Salon "rating")] in
    ret (Js.del (Js.set service "salon" salon) "Salon")
  else ret service.

(** What both functions do with the parsed body. *)
Definition processServices (data : value) : M value :=
  let services := Js.getOpt data "services" in
  if Js.truthy data && Js.truthy services then
    l <- arrayMap services processService ;;
    ret (VArr l)
  else ret (VArr []).

Definition filterServices (filterParams : ServiceFilterParams) : M value :=
  tryCatch
    (token <- AuthService.getToken ;;
     response <- fetch (mkRequest (API_URL +:+ "/services/filter") "POST"
                          (authHeaders token)
                          (JsonBody (paramsObject filterParams))) ;;
     data <- handleResponse response ;;
     processServices data)
    (fun error => throw error).

Definition searchServices (keyword : string) : M value :=
  if Str.is_empty keyword || String.eqb (Str.trim keyword) "" then ret (VArr [])
  else
    tryCatch
      (token <- AuthService.getToken ;;
       response <- fetch (mkRequest (API_URL +:+ "/services/search") "POST"
                            (authHeaders token)
                            (JsonBody (VObj [("keyword", VStr (Str.trim keyword))]))) ;;
       data <- handleResponse response ;;
       processServices data)
      (fun error => throw error).

End FilterService.

(** ** Screens

    An event handler of a screen reads the component state of the render it
    was created in, issues state updates and may call the services.  It ends
    in the updated component state, the world it leaves, and the exception
    it did not catch, if any. *)

Record Outcome (S : Type) : Type := mkOutcome {
  ui : S;
  world : World;
  uncaught : option exn
}.
Arguments mkOutcome {S} ui world uncaught.
Arguments ui {S} o.
Arguments world {S} o.
Arguments uncaught {S} o.

(** [error?.message] of a caught exception. *)
Definition exnMessage (error : exn) : value :=
  match error with
  | Rejected v => Js.getOpt v "message"
  | JsError msg | TypeError msg | SyntaxError msg => VStr msg
  end.

(** [typeof error === 'string' ? error : error?.message || fallback] *)
Definition errorMessageOf (error : exn) (fallback : string) : value :=
  match error with
  | Rejected (VStr e) => VStr e
  | _ => Js.orElse (exnMessage error) (VStr fallback)
  end.

(** Strings and arrays have an [includes] method; calling it on anything
    else is a [TypeError]. *)
Definition hasIncludes (errorMessage : value) : bool :=
  match errorMessage with
  | VStr _ | VArr _ => true
  | _ => false
  end.

(** [errorMessage.includes(needle)] where the method exists. *)
Definition includes (errorMessage : value) (needle : string) : bool :=
  match errorMessage with
  | VStr s => Str.includes needle s
  | VArr l => existsb (fun x => Js.strictEqStr x needle) l
  | _ => false
  end.

(** *** (auth)/login.tsx *)
Module LoginScreen.

Record State : Type := mkState {
  email : string;
  password : string;
  role : string;
  isLoading : bool;
  emailError : string;
  passwordError : string;
  generalError : value;
  route : option string      (* the last [router.replace] *)
}.

Definition initial : State :=
  mkState "" "" "consumer" false "" "" (VStr "") None.

Definition setEmailError (e : string) (s : State) : State :=
  mkState (email s) (password s) (role s) (isLoading s) e (passwordError s)
          (generalError s) (route s).
Definition setPasswordError (e : string) (s : State) : State :=
  mkState (email s) (password s) (role s) (isLoading s) (emailError s) e
          (generalError s) (route s).
Definition setGeneralError (e : value) (s : State) : State :=
  mkState (email s) (password s) (role s) (isLoading s) (emailError s)
          (passwordError s) e (route s).
Definition setIsLoading (b : bool) (s : State) : State :=
  mkState (email s) (password s) (role s) b (emailError s)
          (passwordError s) (generalError s) (route s).
Definition routerReplace (r : string) (s : State) : State :=
  mkState (email s) (password s) (role s) (isLoading s) (emailError s)
          (passwordError s) (generalError s) (Some r).

(** [validateEmail]: the verdict, and the state update it issues. *)
Definition validateEmail (email : string) (s : State) : bool * State :=
  if Str.is_empty email then (false, setEmailError "Email is required" s)
  else if negb (Regex.test Regex.emailRegex email)
  then (false, setEmailError "Please enter a valid email address" s)
  else (true, s).

Definition validatePassword (password : string) (s : State) : bool * State :=
  if Str.is_empty password
  then (false, setPasswordError "Password is required" s)
  else (true, s).

(** The [try] block of [handleLogin]; it ends in the route to replace the
    screen with. *)
Definition tryLogin (email password role : string) : M string :=
  response <- AuthService.login email password role ;;
  if Js.truthy response && Js.truthy (Js.getOpt response "token") then
    _ <- AuthService.setUserType role ;;
    let actualRole := Js.orElse (Js.getOpt response "role") (VStr role) in
    if negb (Js.strictEqStr actualRole role) then
      throw (JsError ("This account is registered as a " +:+
                      Js.toString actualRole +:+
                      ". Please select the correct user type."))
    else if String.eqb role "consumer" then ret "/(consumerTabs)"
    else if String.eqb role "salon" then ret "/salonTabs"
    else throw (JsError "Unknown user type")
  else throw (JsError "Login failed. Please check your credentials.").

(** The [catch] block of [handleLogin]. *)
Definition catchLogin (error : exn) (s : State) : result State :=
  let errorMessage := errorMessageOf error "An error occurred" in
  let has := includes errorMessage in
  if negb (hasIncludes errorMessage)
  then Err (TypeError "errorMessage.includes is not a function")
  else if has "user not found" || has "no user found"
  then Ok (setEmailError "No account found with this email" s)
  else if has "incorrect password" || has "wrong password"
  then Ok (setPasswordError "Incorrect password" s)
  else if has "not verified"
  then Ok (setGeneralError
             (VStr "Account not verified. Please check your email for verification instructions.") s)
  else if has "wrong user type" || has "registered as"
  then Ok (setGeneralError errorMessage s)
  else if has "network" || has "connection"
  then Ok (setGeneralError
             (VStr "Network error. Please check your internet connection.") s)
  else Ok (setGeneralError
             (VStr "Login failed. Please check your credentials and try again.") s).

Definition handleLogin (s0 : State) (w : World) : Outcome State :=
  let s := setGeneralError (VStr "") (setPasswordError "" (setEmailError "" s0)) in
  let (isEmailValid, s) := validateEmail (email s0) s in
  let (isPasswordValid, s) := validatePassword (password s0) s in
  if negb isEmailValid || negb isPasswordValid then mkOutcome s w None
  else
    let s := setIsLoading true s in
    match tryLogin (email s0) (password s0) (role s0) w with
    | (Ok r, w') => mkOutcome (setIsLoading false (routerReplace r s)) w' None
    | (Err error, w') =>
        match catchLogin error s with
        | Ok s' => mkOutcome (setIsLoading false s') w' None
        | Err e => mkOutcome (setIsLoading false s) w' (Some e)
        end
    end.

End LoginScreen.

(** *** (auth)/register.tsx *)
Module RegisterScreen.

Inductive AlertAction := ShowOtpInput | ReplaceWithLogin.

(** [Alert.alert(title, message, buttons)] *)
Record Alert : Type := mkAlert {
  title : string;
  message : string;
  buttons : list (string * AlertAction)
}.

Record State : Type := mkState {
  email : string;
  password : string;
  confirmPassword : string;
  role : string;
  isLoading : bool;
  otp : string;
  showOtpInput : bool;
  businessLicense : option string;
  isSalon : bool;
  emailError : string;
  passwordError : string;
  confirmPasswordError : string;
  licenseError : string;
  otpError : string;
  generalError : value;
  alerts : list Alert;        (* the alerts shown so far, oldest first *)
  route : option string       (* the last [router.replace] *)
}.

Definition initial : State :=
  mkState "" "" "" "consumer" false "" false None false
          "" "" "" "" "" (VStr "") [] None.

Definition setEmail x s :=
  mkState x (password s) (confirmPassword s) (role s) (isLoading s) (otp s)
    (showOtpInput s) (businessLicense s) (isSalon s) (emailError s)
    (passwordError s) (confirmPasswordError s) (licenseError s) (otpError s)
    (generalError s) (alerts s) (route s).
Definition setPassword x s :=
  mkState (email s) x (confirmPassword s) (role s) (isLoading s) (otp s)
    (showOtpInput s) (businessLicense s) (isSalon s) (emailError s)
    (passwordError s) (confirmPasswordError s) (licenseError s) (otpError s)
    (generalError s) (alerts s) (route s).
Definition setConfirmPassword x s :=
  mkState (email s) (password s) x (role s) (isLoading s) (otp s)
    (showOtpInput s) (businessLicense s) (isSalon s) (emailError s)
    (passwordError s) (confirmPasswordError s) (licenseError s) (otpError s)
    (generalError s) (alerts s) (route s).
Definition setRole x s :=
  mkState (email s) (password s) (confirmPassword s) x (isLoading s) (otp s)
    (showOtpInput s) (businessLicense s) (isSalon s) (emailError s)
    (passwordError s) (confirmPasswordError s) (licenseError s) (otpError s)
    (generalError s) (alerts s) (route s).
Definition setIsLoading x s :=
  mkState (email s) (password s) (confirmPassword s) (role s) x (otp s)
    (showOtpInput s) (businessLicense s) (isSalon s) (emailError s)
    (passwordError s) (confirmPasswordError s) (licenseError s) (otpError s)
    (generalError s) (alerts s) (route s).
Definition setOtp x s :=
  mkState (email s) (password s) (confirmPassword s) (role s) (isLoading s) x
    (showOtpInput s) (businessLicense s) (isSalon s) (emailError s)
    (passwordError s) (confirmPasswordError s) (licenseError s) (otpError s)
    (generalError s) (alerts s) (route s).
Definition setShowOtpInput x s :=
  mkState (email s) (password s) (confirmPassword s) (role s) (isLoading s)
    (otp s) x (businessLicense s) (isSalon s) (emailError s) (passwordError s)
    (confirmPasswordError s) (licenseError s) (otpError s) (generalError s)
    (alerts s) (route s).
Definition setBusinessLicense x s :=
  mkState (email s) (password s) (confirmPassword s) (role s) (isLoading s)
    (otp s) (showOtpInput s) x (isSalon s) (emailError s) (passwordError s)
    (confirmPasswordError s) (licenseError s) (otpError s) (generalError s)
    (alerts s) (route s).
Definition setIsSalon x s :=
  mkState (email s) (password s) (confirmPassword s) (role s) (isLoading s)
    (otp s) (showOtpInput s) (businessLicense s) x (emailError s)
    (passwordError s) (confirmPasswordError s) (licenseError s) (otpError s)
    (generalError s) (alerts s) (route s).
Definition setEmailError x s :=
  mkState (email s) (password s) (confirmPassword s) (role s) (isLoading s)
    (otp s) (showOtpInput s) (businessLicense s) (isSalon s) x
    (passwordError s) (confirmPasswordError s) (licenseError s) (otpError s)
    (generalError s) (alerts s) (route s).
Definition setPasswordError x s :=
  mkState (email s) (password s) (confirmPassword s) (role s) (isLoading s)
    (otp s) (showOtpInput s) (businessLicense s) (isSalon s) (emailError s) x
    (confirmPasswordError s) (licenseError s) (otpError s) (generalError s)
    (alerts s) (route s).
Definition setConfirmPasswordError x s :=
  mkState (email s) (password s) (confirmPassword s) (role s) (isLoading s)
    (otp s) (showOtpInput s) (businessLicense s) (isSalon s) (emailError s)
    (passwordError s) x (licenseError s) (otpError s) (generalError s)
    (alerts s) (route s).
Definition setLicenseError x s :=
  mkState (email s) (password s) (confirmPassword s) (role s) (isLoading s)
    (otp s) (showOtpInput s) (businessLicense s) (isSalon s) (emailError s)
    (passwordError s) (confirmPasswordError s) x (otpError s) (generalError s)
    (alerts s) (route s).
Definition setOtpError x s :=
  mkState (email s) (password s) (confirmPassword s) (role s) (isLoading s)
    (otp s) (showOtpInput s) (businessLicense s) (isSalon s) (emailError s)
    (passwordError s) (confirmPasswordError s) (licenseError s) x
    (generalError s) (alerts s) (route s).
Definition setGeneralError x s :=
  mkState (email s) (password s) (confirmPassword s) (role s) (isLoading s)
    (otp s) (showOtpInput s) (businessLicense s) (isSalon s) (emailError s)
    (passwordError s) (confirmPasswordError s) (licenseError s) (otpError s) x
    (alerts s) (route s).
Definition alert x s :=
  mkState (email s) (password s) (confirmPassword s) (role s) (isLoading s)
    (otp s) (showOtpInput s) (businessLicense s) (isSalon s) (emailError s)
    (passwordError s) (confirmPasswordError s) (licenseError s) (otpError s)
    (generalError s) (alerts s ++ [x]) (route s).
Definition routerReplace x s :=
  mkState (email s) (password s) (confirmPassword s) (role s) (isLoading s)
    (otp s) (showOtpInput s) (businessLicense s) (isSalon s) (emailError s)
    (passwordError s) (confirmPasswordError s) (licenseError s) (otpError s)
    (generalError s) (alerts s) (Some x).

(** The effect that follows a change of [role]. *)
Definition roleEffect (s : State) : State :=
  let s' := setIsSalon (String.eqb (role s) "salon") s in
  if negb (String.eqb (role s) "salon")
  then setLicenseError "" (setBusinessLicense None s')
  else s'.

Definition validateEmail (email : string) (s : State) : bool * State :=
  if Str.is_empty email then (false, setEmailError "Email is required" s)
  else if negb (Regex.test Regex.emailRegex email)
  then (false, setEmailError "Please enter a valid email address" s)
  else (true, s).

Definition validatePassword (password : string) (s : State) : bool * State :=
  if Str.is_empty password
  then (false, setPasswordError "Password is required" s)
  else if (String.length password <? 6)%nat
  then (false, setPasswordError "Password must be at least 6 characters long" s)
  else (true, s).

Definition validateConfirmPassword (pwd confirmPwd : string) (s : State)
  : bool * State :=
  if negb (Str.is_empty pwd) && negb (Str.is_empty confirmPwd)
     && negb (String.eqb pwd confirmPwd)
  then (false, setConfirmPasswordError "Passwords do not match" s)
  else (true, setConfirmPasswordError "" s).

Definition validateLicense (isSalon : bool) (businessLicense : option string)
    (s : State) : bool * State :=
  if isSalon && negb (Js.truthy (Js.ofOption businessLicense))
  then (false, setLicenseError
                 "Business license is required for salon registration" s)
  else (true, s).

Definition handleEmailChange (text : string) (s : State) : State :=
  setGeneralError (VStr "") (setEmailError "" (setEmail text s)).

Definition handlePasswordChange (text : string) (s : State) : State :=
  snd (validateConfirmPassword text (confirmPassword s)
         (setPasswordError "" (setPassword text s))).

Definition handleConfirmPasswordChange (text : string) (s : State) : State :=
  snd (validateConfirmPassword (password s) text (setConfirmPassword text s)).

Definition handleOtpChange (text : string) (s : State) : State :=
  setOtpError "" (setOtp text s).

(** [pickImage], given what the permission dialog and the image library
    answer ([None]: the user cancelled). *)
Definition pickImage (granted : bool) (picked : option string) (s : State)
  : State :=
  if negb granted
  then setLicenseError "Permission to access photos is required" s
  else match picked with
       | Some uri => setLicenseError "" (setBusinessLicense (Some uri) s)
       | None => s
       end.

Definition newline : string := String (ascii_of_nat 10) EmptyString.

(** The [try] block of [handleRegister]; it ends in the alert to show. *)
Definition tryRegister (email password role : string)
    (businessLicense : option string) : M Alert :=
  response <- AuthService.register email password role businessLicense ;;
  otpSent <- lift (Js.get response "otpSent") ;;
  if negb (Js.truthy otpSent) then
    throw (JsError "Verification code could not be sent. Please try again.")
  else if String.eqb role "salon" then
    ret (mkAlert "Registration Submitted"
           ("Your registration has been submitted successfully!" +:+ newline
            +:+ newline +:+
            Js.toString (VArr [VObj [("text", VStr "Verify Email")]]))
           [])
  else
    ret (mkAlert "Registration Successful"
           "Check your email for the verification code."
           [("OK", ShowOtpInput)]).

(** The [catch] block of [handleRegister]. *)
Definition catchRegister (error : exn) (s : State) : result State :=
  let errorMessage := errorMessageOf error "Registration failed" in
  let has := includes errorMessage in
  if negb (hasIncludes errorMessage)
  then Err (TypeError "errorMessage.includes is not a function")
  else if has "already exists" || has "already in use"
  then Ok (setEmailError "An account with this email already exists" s)
  else if has "network" || has "connection"
  then Ok (setGeneralError
             (VStr "Network error. Please check your internet connection") s)
  else if has "license"
  then Ok (setLicenseError
             "There was a problem with your business license. Please try uploading again" s)
  else if has "verification" || has "OTP" || has "code"
  then Ok (setGeneralError errorMessage s)
  else Ok (setGeneralError errorMessage s).

Definition handleRegister (s0 : State) (w : World) : Outcome State :=
  let s := setGeneralError (VStr "")
            (setLicenseError ""
              (setConfirmPasswordError ""
                (setPasswordError "" (setEmailError "" s0)))) in
  let (isEmailValid, s) := validateEmail (email s0) s in
  let (isPasswordValid, s) := validatePassword (password s0) s in
  let (isConfirmPasswordValid, s) :=
    validateConfirmPassword (password s0) (confirmPassword s0) s in
  let (isLicenseValid, s) :=
    validateLicense (isSalon s0) (businessLicense s0) s in
  if negb isEmailValid || negb isPasswordValid
     || negb isConfirmPasswordValid || negb isLicenseValid
  then mkOutcome s w None
  else
    let s := setIsLoading true s in
    match tryRegister (email s0) (password s0) (role s0) (businessLicense s0) w with
    | (Ok a, w') => mkOutcome (setIsLoading false (alert a s)) w' None
    | (Err error, w') =>
        match catchRegister error s with
        | Ok s' => mkOutcome (setIsLoading false s') w' None
        | Err e => mkOutcome (setIsLoading false s) w' (Some e)
        end
    end.

(** The [try] block of [handleVerifyOTP]. *)
Definition tryVerifyOTP (email otp role : string) : M Alert :=
  AuthService.verifyOTP email otp role ;;;
  if String.eqb role "salon" then
    ret (mkAlert "Email Verified"
           "Your account has been verified successfully!"
           [("OK", ReplaceWithLogin)])
  else
    ret (mkAlert "Verification Successful"
           "Your account has been verified successfully!"
           [("Continue", ReplaceWithLogin)]).

(** The [catch] block of [handleVerifyOTP]. *)
Definition catchVerifyOTP (error : exn) (s : State) : result State :=
  let errorMessage := errorMessageOf error "Verification failed" in
  let has := includes errorMessage in
  if negb (hasIncludes errorMessage)
  then Err (TypeError "errorMessage.includes is not a function")
  else if has "invalid" || has "incorrect" || has "wrong"
  then Ok (setOtpError "Invalid verification code. Please try again" s)
  else if has "expired"
  then Ok (setOtpError
             "Verification code has expired. Please request a new one" s)
  else Ok (setGeneralError errorMessage s).

Definition handleVerifyOTP (s0 : State) (w : World) : Outcome State :=
  let s := setGeneralError (VStr "") (setOtpError "" s0) in
  if Str.is_empty (otp s0) || negb (String.length (otp s0) =? 6)%nat
  then mkOutcome
         (setOtpError "Please enter a valid 6-digit verification code" s)
         w None
  else
    let s := setIsLoading true s in
    match tryVerifyOTP (email s0) (otp s0) (role s0) w with
    | (Ok a, w') => mkOutcome (setIsLoading false (alert a s)) w' None
    | (Err error, w') =>
        match catchVerifyOTP error s with
        | Ok s' => mkOutcome (setIsLoading false s') w' None
        | Err e => mkOutcome (setIsLoading false s) w' (Some e)
        end
    end.

(** What the user can do on the screen. *)
Inductive Event : Type :=
  | ChangeEmail (text : string)
  | ChangePassword (text : string)
  | ChangeConfirmPassword (text : string)
  | ChangeOtp (text : string)
  | BlurEmail
  | BlurPassword
  | BlurConfirmPassword
  | SelectRole (itemValue : string)
  | PickImage (granted : bool) (picked : option string)
  | RemoveLicense
  | PressRegister
  | PressVerify
  | PressAlertButton (a : AlertAction)
  | PressLoginLink.

(** One event, with the effect of a role change run before the next one. *)
Definition step (e : Event) (sw : State * World) : State * World :=
  let (s, w) := sw in
  match e with
  | ChangeEmail text => (handleEmailChange text s, w)
  | ChangePassword text => (handlePasswordChange text s, w)
  | ChangeConfirmPassword text => (handleConfirmPasswordChange text s, w)
  | ChangeOtp text => (handleOtpChange text s, w)
  | BlurEmail => (snd (validateEmail (email s) s), w)
  | BlurPassword => (snd (validatePassword (password s) s), w)
  | BlurConfirmPassword =>
      (snd (validateConfirmPassword (password s) (confirmPassword s) s), w)
  | SelectRole itemValue =>
      if String.eqb itemValue (role s) then (s, w)
      else (roleEffect (setRole itemValue s), w)
  | PickImage granted picked => (pickImage granted picked s, w)
  | RemoveLicense => (setBusinessLicense None s, w)
  | PressRegister => let o := handleRegister s w in (ui o, world o)
  | PressVerify => let o := handleVerifyOTP s w in (ui o, world o)
  | PressAlertButton ShowOtpInput => (setShowOtpInput true s, w)
  | PressAlertButton ReplaceWithLogin => (routerReplace "/(auth)/login" s, w)
  | PressLoginLink => (routerReplace "/(auth)/login" s, w)
  end.

Definition run (es : list Event) (sw : State * World) : State * World :=
  fold_left (fun sw e => step e sw) es sw.

End RegisterScreen.

(** ** The calls a screen can make into the service modules *)
Module Client.

(** The operations of the profile services. *)
Inductive ProfileCall : Type :=
  | CreateUserProfile (fullName : string) (phone address faceImage : option string)
  | GetUserProfile
  | UpdateUserProfile (profileData : UserProfileService.ProfileData)
                      (faceImage : option string)
  | DeleteUserProfile
  | CreateSalonProfile (name address phone : string)
                       (description : option string)
                       (portfolioFiles : option (list string))
  | GetSalonProfile
  | UpdateSalonProfile (profileData : SalonProfileService.ProfileData)
                       (portfolioFiles : option (list string))
  | DeleteSalonProfile
  | CreateSalonService (name : string) (category : list string)
                       (price duration : Z)
                       (description illustrationImage : option string)
  | GetSalonServices
  | GetSalonService (serviceId : string)
  | UpdateSalonService (serviceId : string)
                       (serviceData : SalonServiceService.ServiceData)
                       (illustrationImage : option string)
  | DeleteSalonService (serviceId : string).

Definition profileCall (c : ProfileCall) : M value :=
  match c with
  | CreateUserProfile fullName phone address faceImage =>
      UserProfileService.createUserProfile fullName phone address faceImage
  | GetUserProfile => UserProfileService.getUserProfile
  | UpdateUserProfile profileData faceImage =>
      UserProfileService.updateUserProfile profileData faceImage
  | DeleteUserProfile => UserProfileService.deleteUserProfile
  | CreateSalonProfile name address phone description portfolioFiles =>
      SalonProfileService.createSalonProfile name address phone description
        portfolioFiles
  | GetSalonProfile => SalonProfileService.getSalonProfile
  | UpdateSalonProfile profileData portfolioFiles =>
      SalonProfileService.updateSalonProfile profileData portfolioFiles
  | DeleteSalonProfile => SalonProfileService.deleteSalonProfile
  | CreateSalonService name category price duration description image =>
      SalonServiceService.createSalonService name category price duration
        description image
  | GetSalonServices => SalonServiceService.getSalonServices
  | GetSalonService serviceId => SalonServiceService.getSalonService serviceId
  | UpdateSalonService serviceId serviceData image =>
      SalonServiceService.updateSalonService serviceId serviceData image
  | DeleteSalonService serviceId =>
      SalonServiceService.deleteSalonService serviceId
  end.

(** Every exported operation of the service modules. *)
Inductive Call : Type :=
  | Register (email password role : string) (businessLicense : option string)
  | VerifyOTP (email otp role : string)
  | Login (email password role : string)
  | Logout
  | IsAuthenticated
  | GetToken
  | GetUserType
  | SetUserType (type : string)
  | Profile (c : ProfileCall)
  | FilterServices (filterParams : FilterService.ServiceFilterParams)
  | SearchServices (keyword : string).

(** The world a call leaves, whatever it returns or throws. *)
Definition exec (c : Call) (w : World) : World :=
  match c with
  | Register email password role businessLicense =>
      snd (AuthService.register email password role businessLicense w)
  | VerifyOTP email otp role => snd (AuthService.verifyOTP email otp role w)
  | Login email password role => snd (AuthService.login email password role w)
  | Logout => snd (AuthService.logout w)
  | IsAuthenticated => snd (AuthService.isAuthenticated w)
  | GetToken => snd (AuthService.getToken w)
  | GetUserType => snd (AuthService.getUserType w)
  | SetUserType type => snd (AuthService.setUserType type w)
  | Profile c => snd (profileCall c w)
  | FilterServices filterParams => snd (FilterService.filterServices filterParams w)
  | SearchServices keyword => snd (FilterService.searchServices keyword w)
  end.

Definition execAll (cs : list Call) (w : World) : World :=
  fold_left (fun w c => exec c w) cs w.

(** The calls that save or clear the token. *)
Definition touchesToken (c : Call) : bool :=
  match c with
  | VerifyOTP _ _ _ | Login _ _ _ | Logout => true
  | _ => false
  end.

(** The calls that save the role tag; nothing clears it. *)
Definition touchesUserType (c : Call) : bool :=
  match c with
  | SetUserType _ => true
  | _ => false
  end.

End Client.

(** ** The debugging fetch of services/userProfileService.ts *)
Module UserProfileFetch.

(** An [Error] that carries a [status] (and the parsed [data]) besides its
    message, as the object of its properties. *)
Definition httpError (message : string) (status : Z) (data : option value)
  : exn :=
  Rejected (VObj ([("message", VStr message); ("status", VNum status)]
                  ++ match data with
                     | Some d => [("data", d)]
                     | None => []
                     end)).

Definition enhancedFetch (rq : Request) : M value :=
  tryCatch
    (response <- fetch rq ;;
     tryCatch
       (data <- ApiClient.responseJson response ;;
        if negb (ok response) then
          message <- lift (Js.get data "message") ;;
          throw (httpError
                   (Js.toString
                      (Js.orElse message (VStr (statusText response))))
                   (status response) (Some data))
        else ret data)
       (fun jsonError =>
          if negb (ok response) then
            throw (httpError ("HTTP error " +:+ pretty (status response))
                     (status response) None)
          else throw (JsError "Invalid JSON response")))
    (fun error => throw error).

End UserProfileFetch.

(** ** The root layout: where the app opens *)
Module RootLayout.

Record AuthState : Type := mkAuthState {
  isAuthenticated : option bool;   (* [null] until the check has run *)
  userType : value
}.

Definition initialAuthState : AuthState := mkAuthState None VNull.

Definition checkAuth : M AuthState :=
  authenticated <- AuthService.isAuthenticated ;;
  userType <- (if authenticated then AuthService.getUserType else ret VNull) ;;
  ret (mkAuthState (Some authenticated) userType).

(** The [Redirect] the layout renders; nothing while the check is pending. *)
Definition redirect (authState : AuthState) : option string :=
  match isAuthenticated authState with
  | None => None
  | Some authenticated =>
      Some (if authenticated then
              if Js.strictEqStr (userType authState) "user"
              then "/(user)/index"
              else if Js.strictEqStr (userType authState) "salon"
              then "/salonTabs"
              else "/(auth)/login"
            else "/(auth)/login")
  end.

(** A cold start: the check, then the redirect. *)
Definition launch (w : World) : option string * World :=
  match checkAuth w with
  | (Ok authState, w') => (redirect authState, w')
  | (Err _, w') => (redirect initialAuthState, w')
  end.

End RootLayout.

(** ** The dashboards and profile screens: leaving the session *)
Module Dashboard.

(** [handleLogout]: the route replaced with, if any, and whether the
    [catch] block ran. *)
Definition handleLogout (w : World) : option string * bool * World :=
  match AuthService.logout w with
  | (Ok _, w') => (Some "/(auth)/login", false, w')
  | (Err _, w') => (None, true, w')
  end.

End Dashboard.

(** ** salonTabs/services.tsx *)
Module ServicesScreen.

(** [toggleCategory]: the new selection and the category error it leaves. *)
Definition toggleCategory (category : string) (categories : list string)
  : list string * string :=
  (if existsb (String.eqb category) categories
   then List.filter (fun c => negb (String.eqb c category)) categories
   else categories ++ [category],
   "").

End ServicesScreen.

(** ** salonTabs/profile.tsx *)
Module SalonProfileScreen.

Definition isDigit (c : ascii) : bool :=
  let n := nat_of_ascii c in (48 <=? n)%nat && (n <=? 57)%nat.

(** [r{n}] *)
Fixpoint Repeat (n : nat) (r : Regex.re) : Regex.re :=
  match n with
  | O => Regex.Eps
  | S n' => Regex.Seq r (Repeat n' r)
  end.

(** [r{0,n}] *)
Fixpoint UpTo (n : nat) (r : Regex.re) : Regex.re :=
  match n with
  | O => Regex.Eps
  | S n' => Regex.Alt Regex.Eps (Regex.Seq r (UpTo n' r))
  end.

(** [/^\+?[0-9]{10,15}$/] *)
Definition phoneRegex : Regex.re :=
  Regex.Seq (Regex.Alt Regex.Eps (Regex.Chr "+"%char))
    (Regex.Seq (Repeat 10 (Regex.Class isDigit))
               (UpTo 5 (Regex.Class isDigit))).

Record FormErrors : Type := mkFormErrors {
  nameError : string;
  addressError : string;
  phoneError : string
}.

(** [validateForm] on the form fields: the verdict and the errors it sets. *)
Definition validateForm (name address phone : string) : bool * FormErrors :=
  let nameError :=
    if Str.is_empty (Str.trim name) then "Salon name is required" else "" in
  let addressError :=
    if Str.is_empty (Str.trim address) then "Address is required" else "" in
  let phoneError :=
    if Str.is_empty (Str.trim phone) then "Phone number is required"
    else if negb (Regex.test phoneRegex (Str.trim phone))
    then "Please enter a valid phone number" else "" in
  (negb (Str.is_empty (Str.trim name))
   && negb (Str.is_empty (Str.trim address))
   && (negb (Str.is_empty (Str.trim phone))
       && Regex.test phoneRegex (Str.trim phone)),
   mkFormErrors nameError addressError phoneError).

(** [pickImage], given what the permission dialog and the image library
    answer: the new portfolio and the alert shown, if any. *)
Definition pickImage (granted : bool) (picked : option string)
    (portfolioImages : list string) : list string * option string :=
  if (5 <=? length portfolioImages)%nat
  then (portfolioImages, Some "Portfolio Limit")
  else if negb granted then (portfolioImages, Some "Permission Denied")
  else match picked with
       | Some uri => (portfolioImages ++ [uri], None)
       | None => (portfolioImages, None)
       end.

(** [removeImage] *)
Definition removeImage (index : nat) (portfolioImages : list string)
  : list string :=
  map snd (List.filter (fun p => negb (fst p =? index)%nat)
             (imap (fun i x => (i, x)) portfolioImages)).

End SalonProfileScreen.

(** ** (user)/profile.tsx *)
Module ConsumerProfileScreen.

(** [validateForm] on the form fields: the verdict, the name error and the
    phone error. *)
Definition validateForm (fullName phone : string) : bool * string * string :=
  let nameError :=
    if Str.is_empty (Str.trim fullName) then "Full name is required" else "" in
  let badPhone :=
    negb (Str.is_empty (Str.trim phone))
    && negb (Regex.test SalonProfileScreen.phoneRegex (Str.trim phone)) in
  (negb (Str.is_empty (Str.trim fullName)) && negb badPhone,
   nameError,
   if badPhone then "Please enter a valid phone number" else "").

End ConsumerProfileScreen.

(** * Vocabulary of the properties *)

(** A computation that leaves the world as it found it: nothing stored,
    nothing sent. *)
Definition stateless {A} (m : M A) : Prop := forall w, snd (m w) = w.

(** The header [name] of a request. *)
Definition header (name : string) (rq : Request) : option string :=
  snd <$> List.find (fun h => String.eqb (fst h) name) (rq_headers rq).

(** What every profile operation does once it has read the token. *)
Definition guardedByToken (m : M value) : Prop :=
  forall w,
    match secure w !! AuthService.TOKEN_KEY with
    | None => m w = (Err (JsError "Not authenticated"), w)
    | Some t =>
        if Str.is_empty t
        then m w = (Err (JsError "Not authenticated"), w)
        else exists rq,
               snd (m w) = mkWorld (secure w) (sent w ++ [rq]) (server w)
               /\ header "Authorization" rq = Some ("Bearer " +:+ t)
    end.

(** The token a service reads from the store. *)
Definition storedToken (w : World) : value :=
  match secure w !! AuthService.TOKEN_KEY with
  | Some s => VStr s
  | None => VNull
  end.

(** A computation that never writes the secure store. *)
Definition keepsStore {A} (m : M A) : Prop :=
  forall w, secure (snd (m w)) = secure w.

(** What [login] and [verifyOTP] do with the request they build. *)
Definition exchangeForToken (rq : Request) : M value :=
  response <- fetch rq ;;
  data <- ApiClient.handleResponse response ;;
  token <- lift (Js.get data "token") ;;
  (if Js.truthy token
   then SecureStore.setItemAsync AuthService.TOKEN_KEY token
   else ret tt) ;;;
  ret data.

Definition loginRequest (email password role : string) : Request :=
  mkRequest (ApiClient.API_URL +:+ "/auth/login") "POST" ApiClient.headers
    (JsonBody (VObj [("email", VStr email); ("password", VStr password);
                     ("role", VStr role)])).

Definition verifyRequest (email otp role : string) : Request :=
  mkRequest (ApiClient.API_URL +:+ "/auth/verify-otp") "POST" ApiClient.headers
    (JsonBody (VObj [("email", VStr email); ("otp", VStr otp);
                     ("role", VStr role)])).

(** The world once [rq] has been sent. *)
Definition afterRequest (rq : Request) (w : World) : World :=
  mkWorld (secure w) (sent w ++ [rq]) (server w).

(** Sample worlds and servers for the concrete cases below. *)
Module Sample.

Definition offline : Backend := fun _ _ => None.

Definition answering (r : Response) : Backend := fun _ _ => Some r.

(** A device that has never stored anything. *)
Definition fresh (b : Backend) : World := mkWorld ∅ [] b.

(** A device holding a session. *)
Definition session (token type : string) (b : Backend) : World :=
  mkWorld (<["userToken" := token]> (<["userType" := type]> ∅)) [] b.

Definition okJson (data : value) : Response := mkResponse 200 "OK" (Some data).

Definition badRequest (data : value) : Response :=
  mkResponse 400 "Bad Request" (Some data).

End Sample.

(** A property that is absent or holds a string. *)
Definition stringOrAbsent (v : option value) : bool :=
  match v with
  | None | Some (VStr _) => true
  | Some _ => false
  end.

Module LoginCase.

(** A consumer's login form, filled in. *)
Definition form : LoginScreen.State :=
  LoginScreen.mkState "a@b.co" "secret" "consumer" false "" "" (VStr "") None.

(** The backend knows the account as a salon. *)
Definition salonAccount : Backend :=
  Sample.answering
    (Sample.okJson (VObj [("token", VStr "tok"); ("role", VStr "salon")])).

Definition outcome : Outcome LoginScreen.State :=
  LoginScreen.handleLogin form (Sample.fresh salonAccount).

End LoginCase.

(** [isSalon] follows [role] between events. *)
Definition roleInSync (s : RegisterScreen.State) : Prop :=
  RegisterScreen.isSalon s = String.eqb (RegisterScreen.role s) "salon".

(** The flat [salon] member built from a raw [Salon] object. *)
Definition flatSalonOf (Salon salon : value) : Prop :=
  let SalonProfile := Js.getOpt Salon "SalonProfile" in
  Js.own salon "name"
    = Some (Js.orElse (Js.getOpt SalonProfile "name") (VStr ""))
  /\ Js.own salon "address"
     = Some (Js.orElse (Js.getOpt SalonProfile "address") (VStr ""))
  /\ (forall n, Js.own SalonProfile "name" = Some (VStr n) ->
        Js.own salon "name" = Some (VStr n))
  /\ (Js.own SalonProfile "name" = None ->
        Js.own salon "name" = Some (VStr ""))
  /\ (forall a, Js.own SalonProfile "address" = Some (VStr a) ->
        Js.own salon "address" = Some (VStr a))
  /\ (Js.own SalonProfile "address" = None ->
        Js.own salon "address" = Some (VStr ""))
  /\ Js.own salon "rating" = Some (Js.getOpt Salon "rating").

(** How a returned record relates to the record received: the members other
    than the image and the salon are the same, and a truthy raw [Salon] has
    been replaced by the flat [salon]. *)
Definition normalised (service record : value) : Prop :=
  (forall k, k <> "illustrationImage" -> k <> "Salon" -> k <> "salon" ->
     Js.own record k = Js.own service k)
  /\ (Js.truthy (Js.getOpt service "Salon") = true ->
      Js.own record "Salon" = None
      /\ exists salon,
           Js.own record "salon" = Some salon
           /\ flatSalonOf (Js.getOpt service "Salon") salon)
  /\ (Js.truthy (Js.getOpt service "Salon") = false ->
      Js.own record "Salon" = Js.own service "Salon"
      /\ Js.own record "salon" = Js.own service "salon").

(** A record the callback does not throw on: it is not [null], and the
    portfolio of its salon profile, if there is one, is an array. *)
Definition wellFormed (service : value) : bool :=
  negb (Js.is_nullish service)
  && (if Js.truthy (Js.getOpt service "Salon") then
        match Js.getOpt (Js.getOpt (Js.getOpt service "Salon") "SalonProfile")
                "portfolio" with
        | VUndefined | VNull | VArr _ => true
        | _ => false
        end
      else true).

Definition filterRequest (filterParams : FilterService.ServiceFilterParams)
    (token : value) : Request :=
  mkRequest (ApiClient.API_URL +:+ "/services/filter") "POST"
    (FilterService.authHeaders token)
    (JsonBody (FilterService.paramsObject filterParams)).

Module Cases.

(** Two haircut services as the backend returns them: the first with a full
    salon profile, the second whose salon has no profile yet. *)
Definition haircut1 : value :=
  VObj [("id", VStr "s1"); ("name", VStr "Classic cut");
        ("category", VArr [VStr "Haircut"]); ("price", VNum 20);
        ("illustrationImage", VObj [("url", VStr "http://img/cut.png")]);
        ("Salon",
         VObj [("id", VStr "salon1"); ("rating", VNum 5);
               ("SalonProfile",
                VObj [("name", VStr "Bella"); ("address", VStr "1 Main St");
                      ("portfolio", VArr [VObj [("uri", VStr "http://img/p1.jpg")]])])])].

Definition haircut2 : value :=
  VObj [("id", VStr "s2"); ("name", VStr "Fade");
        ("category", VArr [VStr "Haircut"]); ("price", VNum 25);
        ("Salon", VObj [("id", VStr "salon2"); ("rating", VNum 4)])].

Definition haircuts : value := VObj [("services", VArr [haircut1; haircut2])].

Definition byHaircut : FilterService.ServiceFilterParams :=
  FilterService.mkServiceFilterParams (Some "Haircut") None None None.

Definition catalogue : World := Sample.fresh (Sample.answering (Sample.okJson haircuts)).

(** A backend that answers every request with a token. *)
Definition tokenServer : Backend :=
  Sample.answering (Sample.okJson (VObj [("token", VStr "tok")])).

(** A backend whose successful answers carry no token. *)
Definition pendingServer : Backend :=
  Sample.answering (Sample.okJson (VObj [("message", VStr "pending approval")])).

Definition readOnlyCalls : list Client.Call :=
  [Client.IsAuthenticated; Client.Profile Client.GetUserProfile;
   Client.SearchServices "hair"; Client.FilterServices byHaircut;
   Client.GetToken; Client.GetUserType].

Definition conflict : Response :=
  Sample.badRequest (VObj [("message", VStr "Email already exists")]).

End Cases.

(** ** Regular expressions, read as sets of strings *)

(** [matches r s]: the string [s] is in the language of [r]. *)
Inductive matches : Regex.re -> string -> Prop :=
  | MEps : matches Regex.Eps ""
  | MClass p c : p c = true -> matches (Regex.Class p) (String c "")
  | MSeq r1 r2 s1 s2 :
      matches r1 s1 -> matches r2 s2 -> matches (Regex.Seq r1 r2) (s1 +:+ s2)
  | MAltL r1 r2 s : matches r1 s -> matches (Regex.Alt r1 r2) s
  | MAltR r1 r2 s : matches r2 s -> matches (Regex.Alt r1 r2) s
  | MStarNil r : matches (Regex.Star r) ""
  | MStarApp r s1 s2 :
      matches r s1 -> matches (Regex.Star r) s2 ->
      matches (Regex.Star r) (s1 +:+ s2).

(** Every character of [s] is in the class [p]. *)
Fixpoint allChars (p : ascii -> bool) (s : string) : bool :=
  match s with
  | EmptyString => true
  | String c s' => p c && allChars p s'
  end.

(** A non-empty run of characters that are neither white space nor [@]:
    what [[^\s@]+] matches. *)
Definition emailPart (s : string) : Prop :=
  s <> "" /\ allChars Regex.notSpaceNorAt s = true.

(** The shape [local@domain.tld]. *)
Definition emailShaped (s : string) : Prop :=
  exists a b c,
    s = a +:+ "@" +:+ b +:+ "." +:+ c
    /\ emailPart a /\ emailPart b /\ emailPart c.

(** The registration form passes the four checks of [handleRegister]. *)
Definition registrationValid (s : RegisterScreen.State) : Prop :=
  emailShaped (RegisterScreen.email s)
  /\ (6 <= String.length (RegisterScreen.password s))%nat
  /\ (RegisterScreen.confirmPassword s = ""
      \/ RegisterScreen.confirmPassword s = RegisterScreen.password s)
  /\ (RegisterScreen.isSalon s = true ->
      exists license,
        RegisterScreen.businessLicense s = Some license /\ license <> "").

Definition isFormBody (b : Body) : bool :=
  match b with FormBody _ => true | _ => false end.

(** A login form filled in by a consumer, in front of a backend that answers
    with a token. *)
Definition consumerLogin : Outcome LoginScreen.State :=
  LoginScreen.handleLogin LoginCase.form (Sample.fresh Cases.tokenServer).

(** The registration form while the request is under way: the errors have
    been reset and the spinner is on. *)
Definition registerSubmitting (s : RegisterScreen.State) : RegisterScreen.State :=
  RegisterScreen.setIsLoading true
    (RegisterScreen.setConfirmPasswordError ""
       (RegisterScreen.setGeneralError (VStr "")
          (RegisterScreen.setLicenseError ""
             (RegisterScreen.setConfirmPasswordError ""
                (RegisterScreen.setPasswordError ""
                   (RegisterScreen.setEmailError "" s)))))).

(** A valid consumer registration form. *)
Definition validForm : RegisterScreen.State :=
  fst (RegisterScreen.run
         [RegisterScreen.ChangeEmail "a@b.co";
          RegisterScreen.ChangePassword "secret1"]
         (RegisterScreen.initial, Sample.fresh Sample.offline)).

(** The [Authorization] header a stored token gives rise to in the filter
    and search requests. *)
Definition bearerOf (w : World) : option string :=
  match secure w !! AuthService.TOKEN_KEY with
  | Some t => if Str.is_empty t then None else Some ("Bearer " +:+ t)
  | None => None
  end.

Definition searchRequest (keyword : string) (token : value) : Request :=
  mkRequest (ApiClient.API_URL +:+ "/services/search") "POST"
    (FilterService.authHeaders token)
    (JsonBody (VObj [("keyword", VStr (Str.trim keyword))])).

(** How the images of a returned record relate to the record received: the
    illustration is a plain URI, and the portfolio of the flat [salon] is the
    portfolio of the salon profile with every entry turned into a URI, the
    empty array when the profile has none. *)
Definition imagesNormalised (service record : value) : Prop :=
  let image := Js.getOpt service "illustrationImage" in
  let portfolio :=
    Js.getOpt (Js.getOpt (Js.getOpt service "Salon") "SalonProfile")
      "portfolio" in
  (Js.truthy image = true ->
   Js.own record "illustrationImage"
   = Some (UserProfileService.getImageUri image))
  /\ (Js.truthy image = false ->
      Js.own record "illustrationImage" = Js.own service "illustrationImage")
  /\ (Js.truthy (Js.getOpt service "Salon") = true ->
      exists salon,
        Js.own record "salon" = Some salon
        /\ (forall l, portfolio = VArr l ->
              Js.own salon "portfolio"
              = Some (VArr (map UserProfileService.getImageUri l)))
        /\ (Js.is_nullish portfolio = true ->
              Js.own salon "portfolio" = Some (VArr []))).

(** A record of [getSalonServices] against the record received: an
    illustration that is an object has become a plain URI, everything else
    is as received. *)
Definition illustrationFlattened (service record : value) : Prop :=
  let image := Js.getOpt service "illustrationImage" in
  (forall k, k <> "illustrationImage" -> Js.own record k = Js.own service k)
  /\ (Js.truthy image && Js.isObject image = true ->
      Js.own record "illustrationImage" = Some (uriUrlPath image))
  /\ (Js.truthy image && Js.isObject image = false -> record = service).

(** A salon profile as the backend returns it, with an empty portfolio
    entry. *)
Definition salonProfileBody : value :=
  VObj [("name", VStr "Bella");
        ("portfolio", VArr [VStr "http://img/a.jpg"; VStr ""; VStr "http://img/b.jpg"])].

Definition salonSession (data : value) : World :=
  Sample.session "tok" "salon" (Sample.answering (Sample.okJson data)).

Definition serviceList : value :=
  VArr [VObj [("id", VStr "s1");
              ("illustrationImage", VObj [("url", VStr "http://img/cut.png")])];
        VObj [("id", VStr "s2"); ("illustrationImage", VStr "http://img/fade.png")]].

(** A phone number as the profile forms accept it: an optional [+] followed
    by ten to fifteen digits. *)
Definition phoneShaped (s : string) : Prop :=
  exists sign digits,
    s = sign +:+ digits
    /\ (sign = "" \/ sign = "+")
    /\ allChars SalonProfileScreen.isDigit digits = true
    /\ (10 <= String.length digits <= 15)%nat.

(** * Properties *)

(** ** Strings *)

Lemma trimEnd_all_ws s : Str.all_ws s = true -> Str.trimEnd s = "".
Proof.
  induction s as [|c s IH]; simpl; [done|].
  intros [Hc Hs]%andb_prop. rewrite (IH Hs), Hc. done.
Qed.

Lemma trimEnd_empty s : Str.trimEnd s = "" -> Str.all_ws s = true.
Proof.
  induction s as [|c s IH]; simpl; [done|].
  destruct (Str.trimEnd s) eqn:E; [|discriminate].
  destruct (Str.is_ws c); [|discriminate].
  intros _. by rewrite IH.
Qed.

Lemma trimStart_all_ws s : Str.all_ws (Str.trimStart s) = Str.all_ws s.
Proof.
  induction s as [|c s IH]; simpl; [done|].
  destruct (Str.is_ws c) eqn:E; simpl; [done|]. by rewrite E.
Qed.

(** [trim] leaves nothing exactly of the strings made of white space. *)
Lemma trim_empty_iff s : Str.trim s = "" <-> Str.all_ws s = true.
Proof.
  unfold Str.trim. split.
  - intros H%trimEnd_empty. by rewrite trimStart_all_ws in H.
  - intros H. apply trimEnd_all_ws. by rewrite trimStart_all_ws.
Qed.

Lemma is_empty_true s : Str.is_empty s = true <-> s = "".
Proof. destruct s; simpl; split; congruence. Qed.

Lemma eqb_empty s : String.eqb s "" = Str.is_empty s.
Proof. by destruct s. Qed.

(** ** Computations that leave the world alone *)

Create HintDb stateless.

Lemma stateless_ret {A} (a : A) : stateless (ret a).
Proof. by intros w. Qed.

Lemma stateless_throw {A} e : stateless (@throw A e).
Proof. by intros w. Qed.

Lemma stateless_lift {A} (r : result A) : stateless (lift r).
Proof. by intros w. Qed.

Lemma stateless_bind {A B} (m : M A) (k : A -> M B) :
  stateless m -> (forall a, stateless (k a)) -> stateless (bind m k).
Proof.
  intros Hm Hk w. unfold bind. specialize (Hm w).
  destruct (m w) as [[a|e] w']; simpl in *; subst; [apply Hk | done].
Qed.

Lemma stateless_tryCatch {A} (m : M A) h :
  stateless m -> (forall e, stateless (h e)) -> stateless (tryCatch m h).
Proof.
  intros Hm Hh w. unfold tryCatch. specialize (Hm w).
  destruct (m w) as [[a|e] w']; simpl in *; subst; [done | apply Hh].
Qed.

Lemma stateless_if {A} (b : bool) (m1 m2 : M A) :
  stateless m1 -> stateless m2 -> stateless (if b then m1 else m2).
Proof. by destruct b. Qed.

Lemma stateless_mapM {A B} (f : A -> M B) l :
  (forall a, stateless (f a)) -> stateless (mapM f l).
Proof.
  intros Hf. induction l as [|x l IH]; simpl.
  - apply stateless_ret.
  - apply stateless_bind; [apply Hf|]. intros y.
    apply stateless_bind; [apply IH|]. intros ys. apply stateless_ret.
Qed.

Lemma stateless_arrayMap v f :
  (forall a, stateless (f a)) -> stateless (arrayMap v f).
Proof.
  intros Hf. destruct v; simpl; try apply stateless_throw.
  by apply stateless_mapM.
Qed.

Lemma stateless_getItemAsync key : stateless (SecureStore.getItemAsync key).
Proof. by intros w. Qed.

#[export] Hint Resolve stateless_ret stateless_throw stateless_lift
  stateless_getItemAsync : stateless.
#[export] Hint Extern 2 (stateless (bind _ _)) =>
  apply stateless_bind; [|intros ?] : stateless.
#[export] Hint Extern 2 (stateless (tryCatch _ _)) =>
  apply stateless_tryCatch; [|intros ?] : stateless.
#[export] Hint Extern 2 (stateless (arrayMap _ _)) =>
  apply stateless_arrayMap; intros ? : stateless.
#[export] Hint Extern 3 (stateless (if ?b then _ else _)) =>
  apply stateless_if : stateless.
#[export] Hint Extern 3 (stateless (match ?x with _ => _ end)) =>
  destruct x : stateless.

Lemma stateless_handleResponse r : stateless (ApiClient.handleResponse r).
Proof.
  unfold ApiClient.handleResponse, ApiClient.responseJson.
  auto 10 with stateless.
Qed.
#[export] Hint Resolve stateless_handleResponse : stateless.

Lemma stateless_processService service :
  stateless (FilterService.processService service).
Proof. unfold FilterService.processService. auto 10 with stateless. Qed.
#[export] Hint Resolve stateless_processService : stateless.

Lemma stateless_processServices data :
  stateless (FilterService.processServices data).
Proof. unfold FilterService.processServices. auto 10 with stateless. Qed.
#[export] Hint Resolve stateless_processServices : stateless.

(** The world after a request has been issued. *)
Lemma fetch_world rq w :
  snd (fetch rq w) = mkWorld (secure w) (sent w ++ [rq]) (server w).
Proof. unfold fetch. by destruct (server w (sent w) rq). Qed.

(** A request followed by work that leaves the world alone. *)
Lemma fetch_then_stateless {A} rq (k : Response -> M A) w :
  (forall r, stateless (k r)) ->
  snd (bind (fetch rq) k w) = mkWorld (secure w) (sent w ++ [rq]) (server w).
Proof.
  intros Hk. unfold bind. pose proof (fetch_world rq w) as Hf.
  destruct (fetch rq w) as [[r|e] w']; simpl in *; subst; [apply Hk | done].
Qed.

(** ** Search *)

Lemma searchServices_guard keyword :
  Str.is_empty keyword || String.eqb (Str.trim keyword) "" = Str.all_ws keyword.
Proof.
  rewrite eqb_empty.
  destruct (Str.all_ws keyword) eqn:E.
  - apply trim_empty_iff in E. rewrite E. simpl. by rewrite orb_true_r.
  - destruct keyword as [|c k]; [done|]. simpl Str.is_empty.
    destruct (Str.is_empty (Str.trim (String c k))) eqn:E'; [|done].
    apply is_empty_true, trim_empty_iff in E'. congruence.
Qed.

(** C4. A keyword that is empty or made of white space only gives the empty
    array and leaves the world as it was: nothing is sent.  Any other
    keyword adds exactly one request to the log, a POST to the search
    endpoint carrying the trimmed keyword. *)
Theorem searchServices_blank_or_one_request keyword w :
  if Str.all_ws keyword
  then FilterService.searchServices keyword w = (Ok (VArr []), w)
  else exists rq,
         sent (snd (FilterService.searchServices keyword w)) = sent w ++ [rq]
         /\ rq_url rq = ApiClient.API_URL +:+ "/services/search"
         /\ rq_method rq = "POST"
         /\ rq_body rq = JsonBody (VObj [("keyword", VStr (Str.trim keyword))]).
Proof.
  unfold FilterService.searchServices. rewrite searchServices_guard.
  destruct (Str.all_ws keyword); [done|].
  eexists. split.
  - unfold tryCatch, bind at 1, AuthService.getToken, SecureStore.getItemAsync.
    match goal with
    | |- context [bind (fetch ?rq) ?k ?w0] =>
        pose proof (fetch_then_stateless rq k w0) as H
    end.
    destruct (bind _ _ w) as [[a|e] w'] eqn:E; simpl in *.
    all: rewrite H; [reflexivity|]; intros r; auto 10 with stateless.
  - repeat split; reflexivity.
Qed.

Example searchServices_empty w :
  FilterService.searchServices "" w = (Ok (VArr []), w).
Proof. reflexivity. Qed.

Example searchServices_spaces w :
  FilterService.searchServices "   " w = (Ok (VArr []), w).
Proof. reflexivity. Qed.

(** ** Profile services *)

Lemma stateless_portfolioItem item :
  stateless (SalonProfileService.portfolioItem item).
Proof. unfold SalonProfileService.portfolioItem. auto 10 with stateless. Qed.
#[export] Hint Resolve stateless_portfolioItem : stateless.

Lemma stateless_normalizeIllustration service :
  stateless (SalonServiceService.normalizeIllustration service).
Proof.
  unfold SalonServiceService.normalizeIllustration. auto 10 with stateless.
Qed.
#[export] Hint Resolve stateless_normalizeIllustration : stateless.

Lemma getToken_bind {A} (k : value -> M A) w :
  bind AuthService.getToken k w = k (storedToken w) w.
Proof. reflexivity. Qed.

Ltac guarded_by_token :=
  intros w; rewrite !getToken_bind; unfold storedToken;
  destruct (secure w !! AuthService.TOKEN_KEY) as [t|]; simpl; [|reflexivity];
  destruct (Str.is_empty t); simpl; [reflexivity|];
  eexists; split;
  [ apply fetch_then_stateless; intros r; auto 10 with stateless
  | reflexivity ].

Lemma guarded_createUserProfile fullName phone address faceImage :
  guardedByToken
    (UserProfileService.createUserProfile fullName phone address faceImage).
Proof. unfold UserProfileService.createUserProfile. guarded_by_token. Qed.

Lemma guarded_getUserProfile :
  guardedByToken UserProfileService.getUserProfile.
Proof. unfold UserProfileService.getUserProfile. guarded_by_token. Qed.

Lemma guarded_updateUserProfile profileData faceImage :
  guardedByToken (UserProfileService.updateUserProfile profileData faceImage).
Proof. unfold UserProfileService.updateUserProfile. guarded_by_token. Qed.

Lemma guarded_deleteUserProfile :
  guardedByToken UserProfileService.deleteUserProfile.
Proof. unfold UserProfileService.deleteUserProfile. guarded_by_token. Qed.

Lemma guarded_createSalonProfile name address phone description files :
  guardedByToken
    (SalonProfileService.createSalonProfile name address phone description files).
Proof. unfold SalonProfileService.createSalonProfile. guarded_by_token. Qed.

Lemma guarded_getSalonProfile :
  guardedByToken SalonProfileService.getSalonProfile.
Proof. unfold SalonProfileService.getSalonProfile. guarded_by_token. Qed.

Lemma guarded_updateSalonProfile profileData files :
  guardedByToken (SalonProfileService.updateSalonProfile profileData files).
Proof. unfold SalonProfileService.updateSalonProfile. guarded_by_token. Qed.

Lemma guarded_deleteSalonProfile :
  guardedByToken SalonProfileService.deleteSalonProfile.
Proof. unfold SalonProfileService.deleteSalonProfile. guarded_by_token. Qed.

Lemma guarded_createSalonService name category price duration description image :
  guardedByToken
    (SalonServiceService.createSalonService name category price duration
       description image).
Proof. unfold SalonServiceService.createSalonService. guarded_by_token. Qed.

Lemma guarded_getSalonServices :
  guardedByToken SalonServiceService.getSalonServices.
Proof. unfold SalonServiceService.getSalonServices. guarded_by_token. Qed.

Lemma guarded_getSalonService serviceId :
  guardedByToken (SalonServiceService.getSalonService serviceId).
Proof. unfold SalonServiceService.getSalonService. guarded_by_token. Qed.

Lemma guarded_updateSalonService serviceId serviceData image :
  guardedByToken
    (SalonServiceService.updateSalonService serviceId serviceData image).
Proof. unfold SalonServiceService.updateSalonService. guarded_by_token. Qed.

Lemma guarded_deleteSalonService serviceId :
  guardedByToken (SalonServiceService.deleteSalonService serviceId).
Proof. unfold SalonServiceService.deleteSalonService. guarded_by_token. Qed.

Lemma guarded_profileCall c : guardedByToken (Client.profileCall c).
Proof.
  destruct c; simpl;
    auto using guarded_createUserProfile, guarded_getUserProfile,
      guarded_updateUserProfile, guarded_deleteUserProfile,
      guarded_createSalonProfile, guarded_getSalonProfile,
      guarded_updateSalonProfile, guarded_deleteSalonProfile,
      guarded_createSalonService, guarded_getSalonServices,
      guarded_getSalonService, guarded_updateSalonService,
      guarded_deleteSalonService.
Qed.

(** ** Responses *)

(** A response with a JSON body: success returns the body; failure rejects
    with the [message] of the body when that is truthy, with the status
    text otherwise. *)
Lemma handleResponse_json response data w :
  json response = Some data ->
  ApiClient.handleResponse response w =
    if ok response then (Ok data, w)
    else (Err (Rejected
                 (match Js.own data "message" with
                  | Some m => if Js.truthy m then m
                              else VStr (statusText response)
                  | None => VStr (statusText response)
                  end)), w).
Proof.
  intros Hj. unfold ApiClient.handleResponse, ApiClient.responseJson, bind.
  rewrite Hj. simpl. destruct (ok response); simpl; [done|].
  unfold throw, Js.orElse, Js.andAlso, Js.getOpt.
  destruct (Js.truthy data) eqn:Hd.
  - destruct (Js.own data "message") as [m|]; simpl; [|done].
    by destruct (Js.truthy m).
  - rewrite Hd. by destruct data.
Qed.

(** A body that is not JSON: the parse error, whatever the status. *)
Lemma handleResponse_not_json response w :
  json response = None ->
  ApiClient.handleResponse response w = (Err (SyntaxError "JSON Parse error"), w).
Proof.
  intros Hj. unfold ApiClient.handleResponse, ApiClient.responseJson, bind.
  by rewrite Hj.
Qed.

(** C8, as the code has it.  For a response whose body is JSON:
    a 2xx status returns the parsed body; any other status rejects with the
    body's [message] when that is truthy (present and not empty), and with
    the response's [statusText] when [message] is absent or falsy. *)
Theorem handleResponse_body_or_rejection response data w :
  json response = Some data ->
  (ok response = true ->
   ApiClient.handleResponse response w = (Ok data, w))
  /\ (ok response = false ->
      forall m, Js.own data "message" = Some m -> Js.truthy m = true ->
      ApiClient.handleResponse response w = (Err (Rejected m), w))
  /\ (ok response = false ->
      (Js.own data "message" = None
       \/ exists m, Js.own data "message" = Some m /\ Js.truthy m = false) ->
      ApiClient.handleResponse response w
      = (Err (Rejected (VStr (statusText response))), w)).
Proof.
  intros Hj. rewrite (handleResponse_json _ data) by done.
  repeat split.
  - by intros ->.
  - intros -> m -> ->. done.
  - intros -> [-> | (m & -> & ->)]; done.
Qed.

(** C8, as the claim states it, fails: a [message] that is present but empty
    is not what the rejection carries. *)
Lemma handleResponse_empty_message :
  let response := Sample.badRequest (VObj [("message", VStr "")]) in
  let w := Sample.fresh Sample.offline in
  ok response = false
  /\ Js.own (VObj [("message", VStr "")]) "message" = Some (VStr "")
  /\ ApiClient.handleResponse response w
     = (Err (Rejected (VStr "Bad Request")), w)
  /\ ApiClient.handleResponse response w <> (Err (Rejected (VStr "")), w).
Proof. repeat split. discriminate. Qed.

(** ** What the calls do to the secure store *)

Create HintDb keeps.

Lemma stateless_keepsStore {A} (m : M A) : stateless m -> keepsStore m.
Proof. intros H w. by rewrite H. Qed.

Lemma keepsStore_bind {A B} (m : M A) (k : A -> M B) :
  keepsStore m -> (forall a, keepsStore (k a)) -> keepsStore (bind m k).
Proof.
  intros Hm Hk w. unfold bind. specialize (Hm w).
  destruct (m w) as [[a|e] w']; simpl in *; [by rewrite Hk | done].
Qed.

Lemma keepsStore_tryCatch {A} (m : M A) h :
  keepsStore m -> (forall e, keepsStore (h e)) -> keepsStore (tryCatch m h).
Proof.
  intros Hm Hh w. unfold tryCatch. specialize (Hm w).
  destruct (m w) as [[a|e] w']; simpl in *; [done | by rewrite Hh].
Qed.

Lemma keepsStore_if {A} (b : bool) (m1 m2 : M A) :
  keepsStore m1 -> keepsStore m2 -> keepsStore (if b then m1 else m2).
Proof. by destruct b. Qed.

Lemma keepsStore_fetch rq : keepsStore (fetch rq).
Proof. intros w. by rewrite fetch_world. Qed.

#[export] Hint Resolve keepsStore_fetch : keeps.
#[export] Hint Extern 1 (keepsStore _) =>
  apply stateless_keepsStore; solve [auto 10 with stateless] : keeps.
#[export] Hint Extern 2 (keepsStore (bind _ _)) =>
  apply keepsStore_bind; [|intros ?] : keeps.
#[export] Hint Extern 2 (keepsStore (tryCatch _ _)) =>
  apply keepsStore_tryCatch; [|intros ?] : keeps.
#[export] Hint Extern 3 (keepsStore (if ?b then _ else _)) =>
  apply keepsStore_if : keeps.

Lemma keepsStore_register email password role businessLicense :
  keepsStore (AuthService.register email password role businessLicense).
Proof. unfold AuthService.register. auto 10 with keeps. Qed.

Lemma keepsStore_profileCall c : keepsStore (Client.profileCall c).
Proof.
  intros w. pose proof (guarded_profileCall c w) as H.
  destruct (secure w !! AuthService.TOKEN_KEY) as [t|].
  - destruct (Str.is_empty t); [by rewrite H|].
    destruct H as (rq & -> & _). done.
  - by rewrite H.
Qed.

Lemma keepsStore_filterServices filterParams :
  keepsStore (FilterService.filterServices filterParams).
Proof.
  unfold FilterService.filterServices, AuthService.getToken.
  auto 10 with keeps.
Qed.

Lemma keepsStore_searchServices keyword :
  keepsStore (FilterService.searchServices keyword).
Proof.
  unfold FilterService.searchServices, AuthService.getToken.
  auto 10 with keeps.
Qed.

(** [setUserType] always succeeds and writes the role tag. *)
Lemma setUserType_spec type w :
  AuthService.setUserType type w =
    (Ok true, mkWorld (<["userType" := type]> (secure w)) (sent w) (server w)).
Proof. reflexivity. Qed.

Lemma getUserType_spec w :
  AuthService.getUserType w =
    (Ok (match secure w !! "userType" with
         | Some s => VStr s
         | None => VNull
         end), w).
Proof. reflexivity. Qed.

Lemma getToken_spec w : AuthService.getToken w = (Ok (storedToken w), w).
Proof. reflexivity. Qed.

(** ** Token exchange: [login] and [verifyOTP] *)

Lemma login_exchange email password role :
  AuthService.login email password role
  = exchangeForToken (loginRequest email password role).
Proof. reflexivity. Qed.

Lemma verifyOTP_exchange email otp role :
  AuthService.verifyOTP email otp role
  = exchangeForToken (verifyRequest email otp role).
Proof. reflexivity. Qed.

(** The whole behaviour of the exchange, case by case. *)
Lemma exchangeForToken_cases rq w :
  exchangeForToken rq w =
    match server w (sent w) rq with
    | None => (Err (TypeError "Network request failed"), afterRequest rq w)
    | Some response =>
        match ApiClient.handleResponse response (afterRequest rq w) with
        | (Err e, _) => (Err e, afterRequest rq w)
        | (Ok data, _) =>
            match Js.get data "token" with
            | Err e => (Err e, afterRequest rq w)
            | Ok token =>
                if Js.truthy token then
                  match token with
                  | VStr t =>
                      (Ok data,
                       mkWorld (<[AuthService.TOKEN_KEY := t]> (secure w))
                               (sent w ++ [rq]) (server w))
                  | _ =>
                      (Err (JsError "Invalid value provided to SecureStore. Values must be strings"),
                       afterRequest rq w)
                  end
                else (Ok data, afterRequest rq w)
            end
        end
    end.
Proof.
  unfold exchangeForToken, bind at 1, fetch.
  destruct (server w (sent w) rq) as [response|]; [|done].
  fold (afterRequest rq w). unfold bind at 1.
  pose proof (stateless_handleResponse response (afterRequest rq w)) as Hs.
  destruct (ApiClient.handleResponse response (afterRequest rq w))
    as [[data|e] w1]; simpl in Hs; subst w1; [|done].
  unfold bind, lift. destruct (Js.get data "token") as [token|e]; [|done].
  destruct (Js.truthy token) eqn:Ht; [|done].
  destruct token; try done.
Qed.

Lemma exchangeForToken_sent rq w :
  sent (snd (exchangeForToken rq w)) = sent w ++ [rq].
Proof.
  rewrite exchangeForToken_cases.
  repeat case_match; done.
Qed.

(** The store is written only with a non-empty string token of a
    successful body. *)
Lemma exchangeForToken_store rq w :
  secure (snd (exchangeForToken rq w)) = secure w
  \/ exists data t,
       fst (exchangeForToken rq w) = Ok data
       /\ Js.own data "token" = Some (VStr t)
       /\ Js.truthy (VStr t) = true
       /\ secure (snd (exchangeForToken rq w))
          = <[AuthService.TOKEN_KEY := t]> (secure w).
Proof.
  rewrite exchangeForToken_cases.
  destruct (server w (sent w) rq) as [response|]; [|by left].
  destruct (ApiClient.handleResponse _ _) as [[data|e] w1]; [|by left].
  destruct (Js.get data "token") as [token|e] eqn:Hg; [|by left].
  destruct (Js.truthy token) eqn:Ht; [|by left].
  destruct token; try by left.
  right. exists data, s. repeat split; try done.
  unfold Js.get in Hg. destruct (Js.is_nullish data); [done|].
  injection Hg as Hg. unfold Js.getOpt in Hg.
  destruct (Js.own data "token") as [v|]; simpl in Hg; congruence.
Qed.

(** A successful body whose [token] reads as falsy: the body is returned and
    the store is as before. *)
Lemma exchangeForToken_no_token rq w response data token :
  server w (sent w) rq = Some response ->
  ok response = true ->
  json response = Some data ->
  Js.get data "token" = Ok token ->
  Js.truthy token = false ->
  exchangeForToken rq w = (Ok data, afterRequest rq w).
Proof.
  intros Hs Hok Hj Hg Ht. rewrite exchangeForToken_cases, Hs.
  rewrite (handleResponse_json _ data) by done. by rewrite Hok, Hg, Ht.
Qed.

(** A successful body with a non-empty string [token]: the token is saved
    under [userToken] and the body returned. *)
Lemma exchangeForToken_saves rq w response data t :
  server w (sent w) rq = Some response ->
  ok response = true ->
  json response = Some data ->
  Js.own data "token" = Some (VStr t) ->
  Str.is_empty t = false ->
  exchangeForToken rq w
  = (Ok data,
     snd (SecureStore.setItemAsync AuthService.TOKEN_KEY (VStr t)
            (afterRequest rq w))).
Proof.
  intros Hs Hok Hj Ho Ht. rewrite exchangeForToken_cases, Hs.
  rewrite (handleResponse_json _ data) by done. rewrite Hok.
  unfold Js.get, Js.getOpt. rewrite Ho.
  destruct data; try discriminate. simpl. by rewrite Ht.
Qed.

(** A successful body that is [null] (or [undefined]): the read of
    [data.token] throws, nothing is returned and the store is as before. *)
Lemma exchangeForToken_nullish rq w response data :
  server w (sent w) rq = Some response ->
  ok response = true ->
  json response = Some data ->
  Js.is_nullish data = true ->
  exists message,
    exchangeForToken rq w = (Err (TypeError message), afterRequest rq w).
Proof.
  intros Hs Hok Hj Hn. rewrite exchangeForToken_cases, Hs.
  rewrite (handleResponse_json _ data) by done. rewrite Hok.
  unfold Js.get. rewrite Hn. eauto.
Qed.

(** C9. [login] and [verifyOTP] change the secure store only by writing a
    truthy [token] of the body under [userToken].  When the server answers
    the request with a successful JSON body: a body other than [null] whose
    [token] is missing or falsy is returned, the store exactly as before;
    on the body [null] the read of [data.token] raises a [TypeError], so
    the body is not returned, the store still exactly as before. *)
Theorem token_written_only_when_truthy
    (email secret role : string) (m : M value) (w : World) :
  m = AuthService.login email secret role
  \/ m = AuthService.verifyOTP email secret role ->
  (secure (snd (m w)) = secure w
   \/ exists data t,
        fst (m w) = Ok data
        /\ Js.own data "token" = Some (VStr t)
        /\ Js.truthy (VStr t) = true
        /\ secure (snd (m w)) = <[AuthService.TOKEN_KEY := t]> (secure w))
  /\ (forall rq response data,
        sent (snd (m w)) = sent w ++ [rq] ->
        server w (sent w) rq = Some response ->
        ok response = true ->
        json response = Some data ->
        (Js.is_nullish data = false ->
         Js.truthy (Js.getOpt data "token") = false ->
         m w = (Ok data, mkWorld (secure w) (sent w ++ [rq]) (server w)))
        /\ (Js.is_nullish data = true ->
            exists message,
              m w = (Err (TypeError message),
                     mkWorld (secure w) (sent w ++ [rq]) (server w)))).
Proof.
  intros Hm.
  assert (exists rq0, m = exchangeForToken rq0) as [rq0 ->].
  { destruct Hm as [-> | ->]; eexists;
      [apply login_exchange | apply verifyOTP_exchange]. }
  split; [apply exchangeForToken_store|].
  intros rq response data Hsent Hs Hok Hj.
  rewrite exchangeForToken_sent in Hsent.
  apply app_inj_tail in Hsent as [_ <-].
  split.
  - intros Hn Ht.
    apply (exchangeForToken_no_token _ _ response data
             (Js.getOpt data "token")); try done.
    unfold Js.get. by rewrite Hn.
  - intros Hn. by apply (exchangeForToken_nullish _ _ response data).
Qed.

(** C9, as the claim states it, fails: a successful body that is [null] has
    no token, yet neither call returns it: the read of [data.token] on
    [null] throws, after the request has been sent. *)
Lemma null_body_is_not_returned :
  let w := Sample.fresh (Sample.answering (Sample.okJson VNull)) in
  ok (Sample.okJson VNull) = true
  /\ json (Sample.okJson VNull) = Some VNull
  /\ Js.truthy (Js.getOpt VNull "token") = false
  /\ AuthService.login "a@b.co" "secret" "salon" w
     = (Err (TypeError "Cannot read property 'token' of null"),
        afterRequest (loginRequest "a@b.co" "secret" "salon") w)
  /\ AuthService.verifyOTP "a@b.co" "123456" "salon" w
     = (Err (TypeError "Cannot read property 'token' of null"),
        afterRequest (verifyRequest "a@b.co" "123456" "salon") w)
  /\ ~ (forall email password role w response data,
          server w (sent w) (loginRequest email password role)
          = Some response ->
          ok response = true ->
          json response = Some data ->
          Js.truthy (Js.getOpt data "token") = false ->
          fst (AuthService.login email password role w) = Ok data).
Proof.
  intros w.
  assert (AuthService.login "a@b.co" "secret" "salon" w
          = (Err (TypeError "Cannot read property 'token' of null"),
             afterRequest (loginRequest "a@b.co" "secret" "salon") w))
    as Hlogin.
  { rewrite login_exchange, exchangeForToken_cases. reflexivity. }
  split; [reflexivity|]. split; [reflexivity|]. split; [reflexivity|].
  split; [exact Hlogin|]. split.
  - rewrite verifyOTP_exchange, exchangeForToken_cases. reflexivity.
  - intros H.
    specialize (H "a@b.co" "secret" "salon" w (Sample.okJson VNull) VNull
                  eq_refl eq_refl eq_refl eq_refl).
    rewrite Hlogin in H. discriminate.
Qed.

(** ** Frames of the service calls *)

Lemma exec_keeps_token c w :
  Client.touchesToken c = false ->
  secure (Client.exec c w) !! AuthService.TOKEN_KEY
  = secure w !! AuthService.TOKEN_KEY.
Proof.
  destruct c; simpl; try discriminate; intros _.
  - by rewrite keepsStore_register.
  - done.
  - done.
  - done.
  - by rewrite lookup_insert_ne.
  - by rewrite keepsStore_profileCall.
  - by rewrite keepsStore_filterServices.
  - by rewrite keepsStore_searchServices.
Qed.

Lemma exec_keeps_userType c w :
  Client.touchesUserType c = false ->
  secure (Client.exec c w) !! "userType" = secure w !! "userType".
Proof.
  destruct c; simpl; try discriminate; intros _.
  - by rewrite keepsStore_register.
  - rewrite verifyOTP_exchange.
    destruct (exchangeForToken_store (verifyRequest email otp role) w)
      as [-> | (data & t & _ & _ & _ & ->)]; [done|].
    by rewrite lookup_insert_ne.
  - rewrite login_exchange.
    destruct (exchangeForToken_store (loginRequest email password role) w)
      as [-> | (data & t & _ & _ & _ & ->)]; [done|].
    by rewrite lookup_insert_ne.
  - by rewrite lookup_delete_ne.
  - done.
  - done.
  - done.
  - by rewrite keepsStore_profileCall.
  - by rewrite keepsStore_filterServices.
  - by rewrite keepsStore_searchServices.
Qed.

Lemma execAll_keeps_token cs w :
  forallb (fun c => negb (Client.touchesToken c)) cs = true ->
  secure (Client.execAll cs w) !! AuthService.TOKEN_KEY
  = secure w !! AuthService.TOKEN_KEY.
Proof.
  revert w. induction cs as [|c cs IH]; intros w; simpl; [done|].
  intros [Hc Hcs]%andb_prop. apply negb_true_iff in Hc.
  unfold Client.execAll in *. simpl. rewrite IH by done.
  by apply exec_keeps_token.
Qed.

Lemma execAll_keeps_userType cs w :
  forallb (fun c => negb (Client.touchesUserType c)) cs = true ->
  secure (Client.execAll cs w) !! "userType" = secure w !! "userType".
Proof.
  revert w. induction cs as [|c cs IH]; intros w; simpl; [done|].
  intros [Hc Hcs]%andb_prop. apply negb_true_iff in Hc.
  unfold Client.execAll in *. simpl. rewrite IH by done.
  by apply exec_keeps_userType.
Qed.

(** The empty string is never stored as a token. *)
Lemma exec_token_nonempty c w :
  secure w !! AuthService.TOKEN_KEY <> Some "" ->
  secure (Client.exec c w) !! AuthService.TOKEN_KEY <> Some "".
Proof.
  intros Hw.
  destruct (Client.touchesToken c) eqn:Hc;
    [|by rewrite exec_keeps_token].
  destruct c; simpl in *; try discriminate.
  - rewrite verifyOTP_exchange.
    destruct (exchangeForToken_store (verifyRequest email otp role) w)
      as [-> | (data & t & _ & _ & Ht & ->)]; [done|].
    rewrite lookup_insert_eq. intros [= ->]. done.
  - rewrite login_exchange.
    destruct (exchangeForToken_store (loginRequest email password role) w)
      as [-> | (data & t & _ & _ & Ht & ->)]; [done|].
    rewrite lookup_insert_eq. intros [= ->]. done.
  - by rewrite lookup_delete_eq.
Qed.

Lemma execAll_token_nonempty cs w :
  secure w !! AuthService.TOKEN_KEY <> Some "" ->
  secure (Client.execAll cs w) !! AuthService.TOKEN_KEY <> Some "".
Proof.
  revert w. induction cs as [|c cs IH]; intros w Hw; [done|].
  unfold Client.execAll in *. simpl. by apply IH, exec_token_nonempty.
Qed.
(** C5. Whatever calls were made before, starting from a store whose token
    is not the empty string: each of the thirteen profile operations, when
    the store holds no token, throws "Not authenticated" and leaves the
    world as it was (nothing is sent); when the store holds a token, it
    issues exactly one request, and that request carries the header
    [Authorization: Bearer <token>]. *)
Theorem profileCall_unauthenticated_or_bearer
    (cs : list Client.Call) (c : Client.ProfileCall) (w0 : World) :
  secure w0 !! AuthService.TOKEN_KEY <> Some "" ->
  let w := Client.execAll cs w0 in
  match secure w !! AuthService.TOKEN_KEY with
  | None => Client.profileCall c w = (Err (JsError "Not authenticated"), w)
  | Some t =>
      exists rq,
        snd (Client.profileCall c w)
          = mkWorld (secure w) (sent w ++ [rq]) (server w)
        /\ header "Authorization" rq = Some ("Bearer " +:+ t)
  end.
Proof.

  intros Hw0 w. pose proof (execAll_token_nonempty cs w0 Hw0) as Hne.
  fold w in Hne. pose proof (guarded_profileCall c w) as H.
  destruct (secure w !! AuthService.TOKEN_KEY) as [t|]; [|done].
  destruct t as [|a t]; [done|]. exact H.
Qed.

(** The save as [login] performs it: a token obtained by a successful login
    is what [getToken] returns afterwards, until a call clears or replaces
    it. *)
Lemma login_token_is_loaded_back email password role w response data t cs :
  server w (sent w) (loginRequest email password role) = Some response ->
  ok response = true ->
  json response = Some data ->
  Js.own data "token" = Some (VStr t) ->
  Str.is_empty t = false ->
  forallb (fun c => negb (Client.touchesToken c)) cs = true ->
  fst (AuthService.getToken
         (Client.execAll cs (snd (AuthService.login email password role w))))
  = Ok (VStr t).
Proof.
  intros Hs Hok Hj Ho Ht Hcs. rewrite login_exchange.
  rewrite (exchangeForToken_saves _ _ response data t) by done.
  rewrite getToken_spec. unfold storedToken.
  rewrite execAll_keeps_token by done. simpl. by rewrite lookup_insert_eq.
Qed.

(** C7. Once a token has been saved under [userToken] (what [login] and
    [verifyOTP] do) every later [getToken] returns exactly that token, and
    once a role tag has been saved with [setUserType] every later
    [getUserType] returns exactly that tag, across any calls into the
    services that neither clear nor save that key again. *)
Theorem saved_session_values_are_loaded_back
    (token type : string) (cs : list Client.Call) (w : World) :
  (forallb (fun c => negb (Client.touchesToken c)) cs = true ->
   fst (AuthService.getToken
          (Client.execAll cs
             (snd (SecureStore.setItemAsync AuthService.TOKEN_KEY
                     (VStr token) w))))
   = Ok (VStr token))
  /\ (forallb (fun c => negb (Client.touchesUserType c)) cs = true ->
      fst (AuthService.getUserType
             (Client.execAll cs (snd (AuthService.setUserType type w))))
      = Ok (VStr type)).
Proof.
  split; [intros Ht | intros Hu].
  - rewrite getToken_spec. unfold storedToken.
    rewrite execAll_keeps_token by done. simpl.
    by rewrite lookup_insert_eq.
  - rewrite getUserType_spec, execAll_keeps_userType by done.
    rewrite setUserType_spec. simpl. by rewrite lookup_insert_eq.
Qed.

(** ** Logout *)

(** C3, as the code has it.  [logout] always succeeds, removes the token
    under [userToken], leaves every other stored value (the role tag under
    [userType] among them) as it was, and sends nothing. *)
Theorem logout_clears_the_token_only (w : World) :
  fst (AuthService.logout w) = Ok tt
  /\ secure (snd (AuthService.logout w)) !! "userToken" = None
  /\ (forall key, key <> "userToken" ->
        secure (snd (AuthService.logout w)) !! key = secure w !! key)
  /\ sent (snd (AuthService.logout w)) = sent w.
Proof.
  repeat split; simpl.
  - apply lookup_delete_eq.
  - intros key Hk. by apply lookup_delete_ne.
Qed.

(** C3, as the claim states it, fails: a stored role tag survives [logout]. *)
Lemma logout_leaves_userType :
  secure (Sample.session "tok" "salon" Sample.offline) !! "userType"
    = Some "salon"
  /\ secure (snd (AuthService.logout
                    (Sample.session "tok" "salon" Sample.offline)))
       !! "userType" = Some "salon"
  /\ ~ (forall w,
          secure (snd (AuthService.logout w)) !! "userToken" = None
          /\ secure (snd (AuthService.logout w)) !! "userType" = None).
Proof.
  assert (secure (snd (AuthService.logout
                         (Sample.session "tok" "salon" Sample.offline)))
            !! "userType" = Some "salon") as H.
  { simpl. rewrite lookup_delete_ne by done.
    rewrite lookup_insert_ne by done. by rewrite lookup_insert_eq. }
  split; [|split; [exact H|]].
  - simpl. rewrite lookup_insert_ne by done. by rewrite lookup_insert_eq.
  - intros Hall.
    destruct (Hall (Sample.session "tok" "salon" Sample.offline)) as [_ Hn].
    congruence.
Qed.

(** ** Image references *)

Lemma stringOrAbsent_getOpt v k :
  stringOrAbsent (Js.own v k) = true ->
  Js.truthy (Js.getOpt v k) = true ->
  Js.is_string (Js.getOpt v k) = true.
Proof.
  unfold Js.getOpt. destruct (Js.own v k) as [[]|]; simpl; done.
Qed.

(** C10, as the code has it.  [getImageUri] is a total function.  A string
    comes back unchanged.  [null], [undefined], booleans, numbers and arrays
    give the empty string.  For an object the result is the first truthy
    one of [uri] and [url]; failing those, when [source] is truthy, [source]
    itself if it is a string and otherwise [source.uri] or the empty string;
    failing that, [path] when truthy, and the empty string when nothing is.
    The result is a string whenever each of [uri], [url], [path] and
    [source.uri] is absent or a string. *)
Theorem getImageUri_cases (image : value) :
  (forall s, image = VStr s -> UserProfileService.getImageUri image = VStr s)
  /\ (Js.isObject image = false -> Js.is_string image = false ->
      UserProfileService.getImageUri image = VStr "")
  /\ (image = VNull -> UserProfileService.getImageUri image = VStr "")
  /\ (forall l, image = VArr l -> UserProfileService.getImageUri image = VStr "")
  /\ (forall o, image = VObj o ->
      let uri := Js.getOpt image "uri" in
      let url := Js.getOpt image "url" in
      let source := Js.getOpt image "source" in
      let path := Js.getOpt image "path" in
      UserProfileService.getImageUri image =
        if Js.truthy uri then uri
        else if Js.truthy url then url
        else if Js.truthy source then
          (if Js.is_string source then source
           else if Js.truthy (Js.getOpt source "uri")
                then Js.getOpt source "uri" else VStr "")
        else if Js.truthy path then path
        else VStr "")
  /\ (stringOrAbsent (Js.own image "uri") = true ->
      stringOrAbsent (Js.own image "url") = true ->
      stringOrAbsent (Js.own image "path") = true ->
      stringOrAbsent (Js.own (Js.getOpt image "source") "uri") = true ->
      Js.is_string (UserProfileService.getImageUri image) = true).
Proof.
  repeat split.
  - intros s ->. unfold UserProfileService.getImageUri. by destruct s.
  - intros Ho Hs. unfold UserProfileService.getImageUri.
    rewrite Ho, Hs. by destruct (Js.truthy image).
  - by intros ->.
  - by intros l ->.
  - by intros o ->.
  - intros Huri Hurl Hpath Hsrc. unfold UserProfileService.getImageUri.
    destruct (Js.truthy image); simpl; [|done].
    destruct (Js.is_string image) eqn:Hs; [done|].
    destruct (Js.isObject image); [|done].
    destruct (Js.truthy (Js.getOpt image "uri")) eqn:H1;
      [by apply stringOrAbsent_getOpt|].
    destruct (Js.truthy (Js.getOpt image "url")) eqn:H2;
      [by apply stringOrAbsent_getOpt|].
    destruct (Js.truthy (Js.getOpt image "source")) eqn:H3.
    + destruct (Js.is_string (Js.getOpt image "source")) eqn:H4; [done|].
      unfold Js.orElse.
      destruct (Js.truthy (Js.getOpt (Js.getOpt image "source") "uri")) eqn:H5;
        [by apply stringOrAbsent_getOpt | done].
    + destruct (Js.truthy (Js.getOpt image "path")) eqn:H6;
        [by apply stringOrAbsent_getOpt | done].
Qed.

(** C10, as the claim states it, fails: the result need not be a string,
    and a property that is present but empty is not the one returned. *)
Lemma getImageUri_number_and_empty_uri :
  UserProfileService.getImageUri (VObj [("uri", VNum 42)]) = VNum 42
  /\ Js.is_string (UserProfileService.getImageUri (VObj [("uri", VNum 42)]))
     = false
  /\ ~ (forall image,
          Js.is_string (UserProfileService.getImageUri image) = true)
  /\ Js.own (VObj [("uri", VStr ""); ("url", VStr "http://x/y.png")]) "uri"
     = Some (VStr "")
  /\ UserProfileService.getImageUri
       (VObj [("uri", VStr ""); ("url", VStr "http://x/y.png")])
     = VStr "http://x/y.png".
Proof.
  repeat split. intros H. specialize (H (VObj [("uri", VNum 42)])). done.
Qed.

(** A truthy [source] without a [uri] ends the search: [path] is not used. *)
Example getImageUri_source_hides_path :
  UserProfileService.getImageUri
    (VObj [("source", VObj []); ("path", VStr "/tmp/a.jpg")])
  = VStr "".
Proof. reflexivity. Qed.

(** ** Login *)

(** C1, on the code.  A consumer login answered with a token and the role
    "salon" ends in the role-mismatch message and without navigation, but
    the store, empty before, now holds the token and the requested role, and
    the device counts as authenticated; the service function [login] itself
    returns the body without any error. *)
Theorem handleLogin_mismatch_leaves_session_stored :
  secure (Sample.fresh LoginCase.salonAccount) = ∅
  /\ LoginScreen.generalError (ui LoginCase.outcome)
     = VStr "This account is registered as a salon. Please select the correct user type."
  /\ LoginScreen.route (ui LoginCase.outcome) = None
  /\ uncaught LoginCase.outcome = None
  /\ secure (world LoginCase.outcome) !! "userToken" = Some "tok"
  /\ secure (world LoginCase.outcome) !! "userType" = Some "consumer"
  /\ fst (AuthService.isAuthenticated (world LoginCase.outcome)) = Ok true
  /\ fst (AuthService.login "a@b.co" "secret" "consumer"
            (Sample.fresh LoginCase.salonAccount))
     = Ok (VObj [("token", VStr "tok"); ("role", VStr "salon")]).
Proof. repeat split; vm_compute; reflexivity. Qed.

(** The [try] block once the backend has answered with a token: by the time
    the roles are compared both session values have been written. *)
Lemma tryLogin_with_token email password role w response data t :
  server w (sent w) (loginRequest email password role) = Some response ->
  ok response = true ->
  json response = Some data ->
  Js.own data "token" = Some (VStr t) ->
  Str.is_empty t = false ->
  let actualRole := Js.orElse (Js.getOpt data "role") (VStr role) in
  let w' := mkWorld (<["userType" := role]> (<["userToken" := t]> (secure w)))
                    (sent w ++ [loginRequest email password role])
                    (server w) in
  LoginScreen.tryLogin email password role w =
    if negb (Js.strictEqStr actualRole role) then
      (Err (JsError ("This account is registered as a " +:+
                     Js.toString actualRole +:+
                     ". Please select the correct user type.")), w')
    else if String.eqb role "consumer" then (Ok "/(consumerTabs)", w')
    else if String.eqb role "salon" then (Ok "/salonTabs", w')
    else (Err (JsError "Unknown user type"), w').
Proof.
  intros Hs Hok Hj Ho Ht. unfold LoginScreen.tryLogin, bind at 1.
  rewrite login_exchange.
  rewrite (exchangeForToken_saves _ _ response data t) by done.
  simpl. unfold Js.getOpt at 1. rewrite Ho. simpl. rewrite Ht. simpl.
  assert (Js.truthy data = true) as -> by (by destruct data).
  simpl. unfold bind. rewrite setUserType_spec. simpl.
  repeat case_match; done.
Qed.

Lemma catchLogin_JsError msg s :
  Str.is_empty msg = false ->
  exists s', LoginScreen.catchLogin (JsError msg) s = Ok s'
             /\ LoginScreen.route s' = LoginScreen.route s.
Proof.
  intros Hm. unfold LoginScreen.catchLogin, errorMessageOf, exnMessage.
  unfold Js.orElse. simpl. rewrite Hm. simpl.
  repeat case_match; eexists; split; reflexivity || done.
Qed.

(** The defect behind C1 in general: whenever the answer carries a token and
    a role other than the requested one, [handleLogin] shows an error and
    does not navigate, yet leaves the token and the requested role in the
    store. *)
Lemma handleLogin_wrong_role s w response data t :
  Str.is_empty (LoginScreen.email s) = false ->
  Regex.test Regex.emailRegex (LoginScreen.email s) = true ->
  Str.is_empty (LoginScreen.password s) = false ->
  server w (sent w)
    (loginRequest (LoginScreen.email s) (LoginScreen.password s)
                  (LoginScreen.role s)) = Some response ->
  ok response = true ->
  json response = Some data ->
  Js.own data "token" = Some (VStr t) ->
  Str.is_empty t = false ->
  Js.strictEqStr (Js.orElse (Js.getOpt data "role") (VStr (LoginScreen.role s)))
                 (LoginScreen.role s) = false ->
  let o := LoginScreen.handleLogin s w in
  secure (world o)
    = <["userType" := LoginScreen.role s]> (<["userToken" := t]> (secure w))
  /\ LoginScreen.route (ui o) = LoginScreen.route s
  /\ uncaught o = None.
Proof.
  intros He Hre Hp Hs Hok Hj Ho Ht Hneq. unfold LoginScreen.handleLogin.
  unfold LoginScreen.validateEmail, LoginScreen.validatePassword.
  rewrite He, Hre, Hp. simpl.
  rewrite (tryLogin_with_token _ _ _ _ response data t) by done.
  rewrite Hneq. simpl.
  match goal with
  | |- context [LoginScreen.catchLogin (JsError ?msg) ?s1] =>
      destruct (catchLogin_JsError msg s1) as (s' & -> & Hr); [done|]
  end.
  simpl. by rewrite Hr.
Qed.

(** The part of C1 that holds: when the roles agree, the token is in the
    store and the screen is replaced by the tabs of that role. *)
Lemma handleLogin_matching_role s w response data t :
  Str.is_empty (LoginScreen.email s) = false ->
  Regex.test Regex.emailRegex (LoginScreen.email s) = true ->
  Str.is_empty (LoginScreen.password s) = false ->
  server w (sent w)
    (loginRequest (LoginScreen.email s) (LoginScreen.password s)
                  (LoginScreen.role s)) = Some response ->
  ok response = true ->
  json response = Some data ->
  Js.own data "token" = Some (VStr t) ->
  Str.is_empty t = false ->
  Js.strictEqStr (Js.orElse (Js.getOpt data "role") (VStr (LoginScreen.role s)))
                 (LoginScreen.role s) = true ->
  LoginScreen.role s = "consumer" \/ LoginScreen.role s = "salon" ->
  let o := LoginScreen.handleLogin s w in
  secure (world o) !! "userToken" = Some t
  /\ secure (world o) !! "userType" = Some (LoginScreen.role s)
  /\ LoginScreen.route (ui o)
     = Some (if String.eqb (LoginScreen.role s) "consumer"
             then "/(consumerTabs)" else "/salonTabs")
  /\ uncaught o = None.
Proof.
  intros He Hre Hp Hs Hok Hj Ho Ht Heq Hrole. unfold LoginScreen.handleLogin.
  unfold LoginScreen.validateEmail, LoginScreen.validatePassword.
  rewrite He, Hre, Hp. simpl.
  rewrite (tryLogin_with_token _ _ _ _ response data t) by done.
  rewrite Heq. simpl.
  destruct Hrole as [-> | ->]; simpl;
    (split; [by rewrite lookup_insert_ne, lookup_insert_eq|]);
    (split; [by rewrite lookup_insert_eq|]); done.
Qed.

(** ** Registration *)

Lemma handleRegister_role s w :
  RegisterScreen.role (ui (RegisterScreen.handleRegister s w))
    = RegisterScreen.role s
  /\ RegisterScreen.isSalon (ui (RegisterScreen.handleRegister s w))
     = RegisterScreen.isSalon s.
Proof.
  unfold RegisterScreen.handleRegister, RegisterScreen.validateEmail,
    RegisterScreen.validatePassword, RegisterScreen.validateConfirmPassword,
    RegisterScreen.validateLicense, RegisterScreen.catchRegister.
  repeat case_match; simplify_eq; done.
Qed.

Lemma handleVerifyOTP_role s w :
  RegisterScreen.role (ui (RegisterScreen.handleVerifyOTP s w))
    = RegisterScreen.role s
  /\ RegisterScreen.isSalon (ui (RegisterScreen.handleVerifyOTP s w))
     = RegisterScreen.isSalon s.
Proof.
  unfold RegisterScreen.handleVerifyOTP, RegisterScreen.catchVerifyOTP.
  repeat case_match; simplify_eq; done.
Qed.

Lemma step_roleInSync e s w :
  roleInSync s -> roleInSync (fst (RegisterScreen.step e (s, w))).
Proof.
  unfold roleInSync. intros H. destruct e; simpl; try done.
  - unfold RegisterScreen.handlePasswordChange,
      RegisterScreen.validateConfirmPassword. by case_match.
  - unfold RegisterScreen.handleConfirmPasswordChange,
      RegisterScreen.validateConfirmPassword. by case_match.
  - unfold RegisterScreen.validateEmail. by repeat case_match.
  - unfold RegisterScreen.validatePassword. by repeat case_match.
  - unfold RegisterScreen.validateConfirmPassword. by case_match.
  - case_match; [done|]. unfold RegisterScreen.roleEffect. simpl.
    by case_match.
  - unfold RegisterScreen.pickImage. by repeat case_match.
  - by destruct (handleRegister_role s w) as [-> ->].
  - by destruct (handleVerifyOTP_role s w) as [-> ->].
  - by destruct a.
Qed.

Lemma run_roleInSync es s w :
  roleInSync s -> roleInSync (fst (RegisterScreen.run es (s, w))).
Proof.
  revert s w. induction es as [|e es IH]; intros s w H; [done|].
  change (RegisterScreen.run (e :: es) (s, w))
    with (RegisterScreen.run es (RegisterScreen.step e (s, w))).
  pose proof (step_roleInSync e s w H) as H'.
  destruct (RegisterScreen.step e (s, w)) as [s1 w1]. by apply IH.
Qed.

(** Without a licence the handler stops at validation, in any state where
    [isSalon] is set. *)
Lemma handleRegister_stops_without_license s w :
  RegisterScreen.isSalon s = true ->
  Js.truthy (Js.ofOption (RegisterScreen.businessLicense s)) = false ->
  let o := RegisterScreen.handleRegister s w in
  world o = w
  /\ uncaught o = None
  /\ RegisterScreen.licenseError (ui o)
     = "Business license is required for salon registration"
  /\ RegisterScreen.alerts (ui o) = RegisterScreen.alerts s
  /\ RegisterScreen.route (ui o) = RegisterScreen.route s
  /\ RegisterScreen.isLoading (ui o) = RegisterScreen.isLoading s.
Proof.
  intros Hs Hl.
  unfold RegisterScreen.handleRegister, RegisterScreen.validateEmail,
    RegisterScreen.validatePassword, RegisterScreen.validateConfirmPassword,
    RegisterScreen.validateLicense.
  rewrite Hs, Hl. simpl.
  repeat case_match; simplify_eq; simpl;
    rewrite ?orb_true_r in *; simplify_eq; done.
Qed.

(** C2. On the registration screen, in any state the user can reach, with
    the role "salon" selected and no licence file attached, pressing
    Register fails validation: the licence error is set, no alert is shown,
    nothing is loading, and the world is exactly as before, so no request
    has been sent and nothing has been stored. *)
Theorem handleRegister_salon_without_license
    (es : list RegisterScreen.Event) (w0 : World) :
  let s := fst (RegisterScreen.run es (RegisterScreen.initial, w0)) in
  let w := snd (RegisterScreen.run es (RegisterScreen.initial, w0)) in
  RegisterScreen.role s = "salon" ->
  RegisterScreen.businessLicense s = None ->
  let o := RegisterScreen.handleRegister s w in
  world o = w
  /\ sent (world o) = sent w
  /\ uncaught o = None
  /\ RegisterScreen.licenseError (ui o)
     = "Business license is required for salon registration"
  /\ RegisterScreen.alerts (ui o) = RegisterScreen.alerts s
  /\ RegisterScreen.route (ui o) = RegisterScreen.route s
  /\ RegisterScreen.isLoading (ui o) = RegisterScreen.isLoading s.
Proof.
  intros s w Hrole Hlic o.
  assert (RegisterScreen.isSalon s = true) as Hs.
  { pose proof (run_roleInSync es RegisterScreen.initial w0) as H.
    unfold roleInSync in H. fold s in H. rewrite H by done.
    by rewrite Hrole. }
  destruct (handleRegister_stops_without_license s w Hs)
    as (Hw & Hu & Hl & Ha & Hr & Hi); [by rewrite Hlic|].
  fold o in Hw, Hu, Hl, Ha, Hr, Hi. rewrite Hw. done.
Qed.

(** The service function on its own does not validate: called for a salon
    without a licence it sends the JSON request. *)
Lemma register_without_license_sends_json email password w :
  sent (snd (AuthService.register email password "salon" None w))
  = sent w ++
    [mkRequest (ApiClient.API_URL +:+ "/auth/register") "POST"
       ApiClient.headers
       (JsonBody (VObj [("email", VStr email); ("password", VStr password);
                        ("role", VStr "salon")]))].
Proof.
  unfold AuthService.register. simpl.
  rewrite fetch_then_stateless; [done|]. auto with stateless.
Qed.

(** ** Filtering *)

Lemma assoc_set_eq k x o : Js.assoc k (Js.assoc_set k x o) = Some x.
Proof.
  induction o as [|[k' v] o IH]; simpl.
  - by rewrite String.eqb_refl.
  - destruct (String.eqb k k') eqn:E; simpl; rewrite E; done.
Qed.

Lemma assoc_set_ne k k' x o :
  k <> k' -> Js.assoc k' (Js.assoc_set k x o) = Js.assoc k' o.
Proof.
  intros Hne. induction o as [|[k1 v] o IH]; simpl.
  - destruct (String.eqb k' k) eqn:E; [|done].
    apply String.eqb_eq in E. congruence.
  - destruct (String.eqb k k1) eqn:E; simpl.
    + apply String.eqb_eq in E. subst k1.
      destruct (String.eqb k' k) eqn:E'; [|done].
      apply String.eqb_eq in E'. congruence.
    + by rewrite IH.
Qed.

Lemma assoc_del_eq k o : Js.assoc k (Js.assoc_del k o) = None.
Proof.
  induction o as [|[k' v] o IH]; simpl; [done|].
  destruct (String.eqb k k') eqn:E; simpl; [done|]. by rewrite E.
Qed.

Lemma assoc_del_ne k k' o :
  k <> k' -> Js.assoc k' (Js.assoc_del k o) = Js.assoc k' o.
Proof.
  intros Hne. induction o as [|[k1 v] o IH]; simpl; [done|].
  destruct (String.eqb k k1) eqn:E; simpl.
  - apply String.eqb_eq in E. subst k1.
    destruct (String.eqb k' k) eqn:E'; [|done].
    apply String.eqb_eq in E'. congruence.
  - by rewrite IH.
Qed.

(** A value with a truthy member is an object. *)
Lemma truthy_member_object v k :
  Js.truthy (Js.getOpt v k) = true -> exists o, v = VObj o.
Proof.
  unfold Js.getOpt. destruct v; simpl; try done. eauto.
Qed.

Lemma own_set_eq o k x : Js.own (Js.set (VObj o) k x) k = Some x.
Proof. apply assoc_set_eq. Qed.

Lemma own_set_ne v k k' x :
  k <> k' -> Js.own (Js.set v k x) k' = Js.own v k'.
Proof. intros H. destruct v; simpl; try done. by apply assoc_set_ne. Qed.

Lemma own_del_eq v k : Js.own (Js.del v k) k = None.
Proof. destruct v; simpl; try done. apply assoc_del_eq. Qed.

Lemma own_del_ne v k k' :
  k <> k' -> Js.own (Js.del v k) k' = Js.own v k'.
Proof. intros H. destruct v; simpl; try done. by apply assoc_del_ne. Qed.

Lemma orElse_string n : Js.orElse (VStr n) (VStr "") = VStr n.
Proof. by destruct n. Qed.

Lemma flatSalonOf_built Salon portfolio :
  let SalonProfile := Js.getOpt Salon "SalonProfile" in
  flatSalonOf Salon
    (VObj [("id", Js.getOpt Salon "id");
           ("name", Js.orElse (Js.getOpt SalonProfile "name") (VStr ""));
           ("address", Js.orElse (Js.getOpt SalonProfile "address") (VStr ""));
           ("phone", Js.getOpt SalonProfile "phone");
           ("description", Js.getOpt SalonProfile "description");
           ("portfolio", portfolio);
           ("rating", Js.getOpt Salon "rating")]).
Proof.
  unfold flatSalonOf. simpl. repeat split.
  - intros n Hn. unfold Js.getOpt at 1. rewrite Hn. simpl.
    by rewrite orElse_string.
  - intros Hn. unfold Js.getOpt at 1. by rewrite Hn.
  - intros a Ha. unfold Js.getOpt at 1. rewrite Ha. simpl.
    by rewrite orElse_string.
  - intros Ha. unfold Js.getOpt at 1. by rewrite Ha.
Qed.

(** The record after the image has been replaced keeps every other member. *)
Lemma own_after_image service image k :
  k <> "illustrationImage" ->
  Js.own (if Js.truthy image
          then Js.set service "illustrationImage"
                 (UserProfileService.getImageUri image)
          else service) k
  = Js.own service k.
Proof.
  intros Hk. destruct (Js.truthy image); [|done].
  apply own_set_ne. congruence.
Qed.

Lemma getOpt_after_image service image k :
  k <> "illustrationImage" ->
  Js.getOpt (if Js.truthy image
             then Js.set service "illustrationImage"
                    (UserProfileService.getImageUri image)
             else service) k
  = Js.getOpt service k.
Proof. intros Hk. unfold Js.getOpt. by rewrite own_after_image. Qed.

(** Whatever the callback returns is the record received, normalised. *)
Lemma processService_sound service w record w' :
  FilterService.processService service w = (Ok record, w') ->
  normalised service record.
Proof.
  unfold FilterService.processService, bind at 1, lift, Js.get.
  destruct (Js.is_nullish service) eqn:Hn; [done|].
  set (image := Js.getOpt service "illustrationImage").
  set (service1 := if Js.truthy image then _ else service).
  assert (forall k, k <> "illustrationImage" ->
            Js.own service1 k = Js.own service k) as Hown
    by (intros k Hk; by apply own_after_image).
  assert (Js.getOpt service1 "Salon" = Js.getOpt service "Salon") as HS
    by (by apply getOpt_after_image).
  rewrite HS.
  destruct (Js.truthy (Js.getOpt service "Salon")) eqn:Ht.
  - unfold bind at 1.
    match goal with
    | |- context [(if Js.is_nullish ?p then ?a else ?b) w] =>
        destruct ((if Js.is_nullish p then a else b) w) as [[pf|e] w1]
    end; [|done].
    unfold ret. intros [= <- <-].
    assert (exists o, service1 = VObj o) as [o Ho]
      by (apply (truthy_member_object _ "Salon"); by rewrite HS).
    split; [|split].
    + intros k H1 H2 H3.
      rewrite own_del_ne, own_set_ne by congruence. by apply Hown.
    + intros _. split; [apply own_del_eq|].
      eexists. split.
      * rewrite own_del_ne by done. rewrite Ho. apply own_set_eq.
      * rewrite <- HS. apply flatSalonOf_built.
    + intros Hf. congruence.
  - unfold ret. intros [= <- <-]. split; [|split].
    + intros k H1 _ _. by apply Hown.
    + intros Hf. congruence.
    + intros _. split; by apply Hown.
Qed.

Lemma mapM_ret {A B} (f : A -> B) l w :
  mapM (fun x => ret (f x)) l w = (Ok (map f l), w).
Proof.
  induction l as [|x l IH]; simpl; [done|].
  unfold bind, ret in *. simpl. by rewrite IH.
Qed.

Lemma mapM_sound {A B} (f : A -> M B) (R : A -> B -> Prop) l :
  (forall x w y w', f x w = (Ok y, w') -> R x y) ->
  forall w ys w', mapM f l w = (Ok ys, w') -> Forall2 R l ys.
Proof.
  intros Hf. induction l as [|x l IH]; simpl; intros w ys w'.
  - intros [= <- <-]. constructor.
  - unfold bind at 1. destruct (f x w) as [[y|e] w1] eqn:Hx; [|done].
    unfold bind at 1. destruct (mapM f l w1) as [[ys'|e] w2] eqn:Hl; [|done].
    intros [= <- <-]. constructor; eauto.
Qed.

Lemma mapM_total {A B} (f : A -> M B) (P : A -> bool) l w :
  (forall x, P x = true -> exists y, f x w = (Ok y, w)) ->
  forallb P l = true ->
  exists ys, mapM f l w = (Ok ys, w).
Proof.
  intros Hf. induction l as [|x l IH]; simpl; [eauto|].
  intros [Hx Hl]%andb_prop. destruct (Hf x Hx) as [y Hy].
  destruct (IH Hl) as [ys Hys]. exists (y :: ys).
  unfold bind. by rewrite Hy, Hys.
Qed.

(** On a well-formed record the callback returns. *)
Lemma processService_total service w :
  wellFormed service = true ->
  exists record, FilterService.processService service w = (Ok record, w).
Proof.
  unfold wellFormed. intros [Hn Hp]%andb_prop. apply negb_true_iff in Hn.
  unfold FilterService.processService, bind at 1, lift, Js.get. rewrite Hn.
  rewrite getOpt_after_image by done.
  destruct (Js.truthy (Js.getOpt service "Salon")); [|by eexists].
  destruct (Js.getOpt (Js.getOpt (Js.getOpt service "Salon") "SalonProfile")
              "portfolio") as [| | | | |l|] eqn:Hpf;
    try discriminate; simpl; unfold bind; simpl; try by eexists.
  rewrite mapM_ret. by eexists.
Qed.

Lemma processServices_sound data services w v w' :
  Js.own data "services" = Some (VArr services) ->
  FilterService.processServices data w = (Ok v, w') ->
  exists records, v = VArr records /\ Forall2 normalised services records.
Proof.
  intros Ho. unfold FilterService.processServices, Js.getOpt. rewrite Ho.
  assert (Js.truthy data = true) as -> by (by destruct data).
  simpl. unfold bind at 1.
  destruct (mapM FilterService.processService services w)
    as [[records|e] w1] eqn:Hm; [|done].
  intros [= <- <-]. exists records. split; [done|].
  eapply mapM_sound; [|exact Hm]. apply processService_sound.
Qed.

Lemma processServices_total data services w :
  Js.own data "services" = Some (VArr services) ->
  forallb wellFormed services = true ->
  exists records,
    FilterService.processServices data w = (Ok (VArr records), w).
Proof.
  intros Ho Hwf. unfold FilterService.processServices, Js.getOpt. rewrite Ho.
  assert (Js.truthy data = true) as -> by (by destruct data).
  simpl. unfold bind at 1.
  destruct (mapM_total FilterService.processService wellFormed services w)
    as [records ->]; [|done|by eexists].
  intros x Hx. by apply processService_total.
Qed.

Lemma tryCatch_rethrow {A} (m : M A) w : tryCatch m throw w = m w.
Proof. unfold tryCatch, throw. by destruct (m w) as [[a|e] w']. Qed.

(** [filterServices] once the backend has answered with a JSON body and a
    2xx status. *)
Lemma filterServices_answered filterParams w response data :
  server w (sent w) (filterRequest filterParams (storedToken w))
    = Some response ->
  ok response = true ->
  json response = Some data ->
  FilterService.filterServices filterParams w
  = FilterService.processServices data
      (afterRequest (filterRequest filterParams (storedToken w)) w).
Proof.
  intros Hs Hok Hj. unfold FilterService.filterServices.
  change (fun error => throw error) with (@throw value).
  rewrite tryCatch_rethrow, getToken_bind.
  fold (filterRequest filterParams (storedToken w)).
  unfold bind at 1, fetch. rewrite Hs.
  fold (afterRequest (filterRequest filterParams (storedToken w)) w).
  unfold bind at 1. rewrite (handleResponse_json _ data) by done.
  by rewrite Hok.
Qed.

(** C6. When the backend answers the filter request with a 2xx JSON body
    whose [services] member is an array: whatever [filterServices] returns
    is an array with one record for each record received, in the order
    received, each the record received with a truthy raw [Salon] replaced by
    a flat [salon] (name and address from the nested [SalonProfile], the
    empty string when missing; rating from the [Salon] record) and its other
    members unchanged; and it does return when no record is [null] and
    every portfolio present is an array. *)
Theorem filterServices_flattens_salons
    filterParams w response data (services : list value) :
  server w (sent w) (filterRequest filterParams (storedToken w))
    = Some response ->
  ok response = true ->
  json response = Some data ->
  Js.own data "services" = Some (VArr services) ->
  (forall v, fst (FilterService.filterServices filterParams w) = Ok v ->
     exists records, v = VArr records /\ Forall2 normalised services records)
  /\ (forallb wellFormed services = true ->
      exists records,
        fst (FilterService.filterServices filterParams w) = Ok (VArr records)
        /\ Forall2 normalised services records).
Proof.
  intros Hs Hok Hj Ho.
  rewrite (filterServices_answered _ _ response data) by done.
  set (w1 := afterRequest _ w).
  assert (forall v, fst (FilterService.processServices data w1) = Ok v ->
            exists records,
              v = VArr records /\ Forall2 normalised services records) as Hsound.
  { intros v Hv.
    destruct (FilterService.processServices data w1) as [r w2] eqn:E.
    simpl in Hv. subst r. by eapply processServices_sound. }
  split; [exact Hsound|].
  intros Hwf. destruct (processServices_total data services w1 Ho Hwf)
    as [records Hr].
  exists records. split; [by rewrite Hr|].
  destruct (Hsound (VArr records)) as (records' & [= <-] & HF); [by rewrite Hr|].
  done.
Qed.

(** ** Concrete runs *)

(** The round trip of the specification: two matching records come back as
    two records, [salon] filled in, the raw [Salon] gone. *)
Example filterServices_haircuts :
  fst (FilterService.filterServices Cases.byHaircut Cases.catalogue)
  = Ok (VArr
      [VObj [("id", VStr "s1"); ("name", VStr "Classic cut");
             ("category", VArr [VStr "Haircut"]); ("price", VNum 20);
             ("illustrationImage", VStr "http://img/cut.png");
             ("salon",
              VObj [("id", VStr "salon1"); ("name", VStr "Bella");
                    ("address", VStr "1 Main St"); ("phone", VUndefined);
                    ("description", VUndefined);
                    ("portfolio", VArr [VStr "http://img/p1.jpg"]);
                    ("rating", VNum 5)])];
       VObj [("id", VStr "s2"); ("name", VStr "Fade");
             ("category", VArr [VStr "Haircut"]); ("price", VNum 25);
             ("salon",
              VObj [("id", VStr "salon2"); ("name", VStr "");
                    ("address", VStr ""); ("phone", VUndefined);
                    ("description", VUndefined); ("portfolio", VArr []);
                    ("rating", VNum 4)])]]).
Proof. vm_compute. reflexivity. Qed.

(** A [null] record makes the callback throw: nothing is returned. *)
Example filterServices_null_record :
  fst (FilterService.filterServices Cases.byHaircut
         (Sample.fresh (Sample.answering
            (Sample.okJson (VObj [("services", VArr [VNull])])))))
  = Err (TypeError "Cannot read property 'illustrationImage' of null").
Proof. vm_compute. reflexivity. Qed.

(** ** The theorems at concrete inputs *)

Lemma handleRegister_salon_without_license_witness :
  RegisterScreen.role
    (fst (RegisterScreen.run [RegisterScreen.SelectRole "salon"]
            (RegisterScreen.initial, Sample.fresh Sample.offline))) = "salon"
  /\ RegisterScreen.businessLicense
       (fst (RegisterScreen.run [RegisterScreen.SelectRole "salon"]
               (RegisterScreen.initial, Sample.fresh Sample.offline))) = None
  /\ sent (world
             (RegisterScreen.handleRegister
                (fst (RegisterScreen.run [RegisterScreen.SelectRole "salon"]
                        (RegisterScreen.initial, Sample.fresh Sample.offline)))
                (snd (RegisterScreen.run [RegisterScreen.SelectRole "salon"]
                        (RegisterScreen.initial, Sample.fresh Sample.offline)))))
     = [].
Proof.
  split; [reflexivity|]. split; [reflexivity|].
  destruct (handleRegister_salon_without_license
              [RegisterScreen.SelectRole "salon"]
              (Sample.fresh Sample.offline)) as (_ & H & _);
    [reflexivity | reflexivity | exact H].
Defined.

Lemma profileCall_unauthenticated_or_bearer_witness :
  secure (Sample.fresh Cases.tokenServer) !! AuthService.TOKEN_KEY <> Some ""
  /\ match secure (Client.execAll [Client.Login "a@b.co" "secret" "consumer"]
                     (Sample.fresh Cases.tokenServer))
             !! AuthService.TOKEN_KEY with
     | None =>
         Client.profileCall Client.GetUserProfile
           (Client.execAll [Client.Login "a@b.co" "secret" "consumer"]
              (Sample.fresh Cases.tokenServer))
         = (Err (JsError "Not authenticated"),
            Client.execAll [Client.Login "a@b.co" "secret" "consumer"]
              (Sample.fresh Cases.tokenServer))
     | Some t =>
         exists rq,
           snd (Client.profileCall Client.GetUserProfile
                  (Client.execAll [Client.Login "a@b.co" "secret" "consumer"]
                     (Sample.fresh Cases.tokenServer)))
           = mkWorld
               (secure (Client.execAll [Client.Login "a@b.co" "secret" "consumer"]
                          (Sample.fresh Cases.tokenServer)))
               (sent (Client.execAll [Client.Login "a@b.co" "secret" "consumer"]
                        (Sample.fresh Cases.tokenServer)) ++ [rq])
               (server (Client.execAll [Client.Login "a@b.co" "secret" "consumer"]
                          (Sample.fresh Cases.tokenServer)))
           /\ header "Authorization" rq = Some ("Bearer " +:+ t)
     end.
Proof.
  assert (secure (Sample.fresh Cases.tokenServer) !! AuthService.TOKEN_KEY
          <> Some "") as H by (simpl; rewrite lookup_empty; discriminate).
  split; [exact H|].
  exact (profileCall_unauthenticated_or_bearer
           [Client.Login "a@b.co" "secret" "consumer"] Client.GetUserProfile
           (Sample.fresh Cases.tokenServer) H).
Defined.

Lemma filterServices_flattens_salons_witness :
  server Cases.catalogue (sent Cases.catalogue)
    (filterRequest Cases.byHaircut (storedToken Cases.catalogue))
    = Some (Sample.okJson Cases.haircuts)
  /\ ok (Sample.okJson Cases.haircuts) = true
  /\ json (Sample.okJson Cases.haircuts) = Some Cases.haircuts
  /\ Js.own Cases.haircuts "services"
     = Some (VArr [Cases.haircut1; Cases.haircut2])
  /\ forallb wellFormed [Cases.haircut1; Cases.haircut2] = true
  /\ exists records,
       fst (FilterService.filterServices Cases.byHaircut Cases.catalogue)
       = Ok (VArr records)
       /\ Forall2 normalised [Cases.haircut1; Cases.haircut2] records.
Proof.
  repeat (split; [reflexivity|]).
  apply (filterServices_flattens_salons Cases.byHaircut Cases.catalogue
           (Sample.okJson Cases.haircuts) Cases.haircuts
           [Cases.haircut1; Cases.haircut2]); reflexivity.
Defined.

Lemma saved_session_values_are_loaded_back_witness :
  forallb (fun c => negb (Client.touchesToken c)) Cases.readOnlyCalls = true
  /\ forallb (fun c => negb (Client.touchesUserType c)) Cases.readOnlyCalls
     = true
  /\ fst (AuthService.getToken
            (Client.execAll Cases.readOnlyCalls
               (snd (SecureStore.setItemAsync AuthService.TOKEN_KEY
                       (VStr "tok") Cases.catalogue))))
     = Ok (VStr "tok")
  /\ fst (AuthService.getUserType
            (Client.execAll Cases.readOnlyCalls
               (snd (AuthService.setUserType "salon" Cases.catalogue))))
     = Ok (VStr "salon").
Proof.
  split; [reflexivity|]. split; [reflexivity|].
  destruct (saved_session_values_are_loaded_back "tok" "salon"
              Cases.readOnlyCalls Cases.catalogue) as [Ht Hu].
  split; [apply Ht | apply Hu]; reflexivity.
Defined.

Lemma handleResponse_body_or_rejection_witness :
  json Cases.conflict = Some (VObj [("message", VStr "Email already exists")])
  /\ ok Cases.conflict = false
  /\ ApiClient.handleResponse Cases.conflict (Sample.fresh Sample.offline)
     = (Err (Rejected (VStr "Email already exists")),
        Sample.fresh Sample.offline).
Proof.
  split; [reflexivity|]. split; [reflexivity|].
  destruct (handleResponse_body_or_rejection Cases.conflict
              (VObj [("message", VStr "Email already exists")])
              (Sample.fresh Sample.offline)) as (_ & H & _); [reflexivity|].
  apply H; reflexivity.
Defined.

Lemma token_written_only_when_truthy_witness :
  (AuthService.login "a@b.co" "secret" "salon"
   = AuthService.login "a@b.co" "secret" "salon"
   \/ AuthService.login "a@b.co" "secret" "salon"
      = AuthService.verifyOTP "a@b.co" "secret" "salon")
  /\ AuthService.login "a@b.co" "secret" "salon"
       (Sample.fresh Cases.pendingServer)
     = (Ok (VObj [("message", VStr "pending approval")]),
        mkWorld (secure (Sample.fresh Cases.pendingServer))
          (sent (Sample.fresh Cases.pendingServer)
           ++ [loginRequest "a@b.co" "secret" "salon"])
          (server (Sample.fresh Cases.pendingServer))).
Proof.
  split; [left; reflexivity|].
  destruct (token_written_only_when_truthy "a@b.co" "secret" "salon"
              (AuthService.login "a@b.co" "secret" "salon")
              (Sample.fresh Cases.pendingServer)) as [_ H];
    [left; reflexivity|].
  destruct (H (loginRequest "a@b.co" "secret" "salon")
              (Sample.okJson (VObj [("message", VStr "pending approval")]))
              (VObj [("message", VStr "pending approval")]))
    as [Hbody _]; [reflexivity..|].
  apply Hbody; reflexivity.
Defined.

Lemma getImageUri_cases_witness :
  stringOrAbsent (Js.own (VObj [("url", VStr "http://img/a.png")]) "uri") = true
  /\ stringOrAbsent (Js.own (VObj [("url", VStr "http://img/a.png")]) "url")
     = true
  /\ stringOrAbsent (Js.own (VObj [("url", VStr "http://img/a.png")]) "path")
     = true
  /\ stringOrAbsent
       (Js.own (Js.getOpt (VObj [("url", VStr "http://img/a.png")]) "source")
          "uri") = true
  /\ Js.is_string
       (UserProfileService.getImageUri (VObj [("url", VStr "http://img/a.png")]))
     = true.
Proof.
  repeat (split; [reflexivity|]).
  destruct (getImageUri_cases (VObj [("url", VStr "http://img/a.png")]))
    as (_ & _ & _ & _ & _ & H).
  apply H; reflexivity.
Defined.

Lemma logout_clears_the_token_only_witness :
  "userType" <> "userToken"
  /\ secure (snd (AuthService.logout
                    (Sample.session "tok" "salon" Sample.offline)))
       !! "userToken" = None
  /\ secure (snd (AuthService.logout
                    (Sample.session "tok" "salon" Sample.offline)))
       !! "userType"
     = secure (Sample.session "tok" "salon" Sample.offline) !! "userType".
Proof.
  assert ("userType" <> "userToken") as Hne by discriminate.
  split; [exact Hne|].
  destruct (logout_clears_the_token_only
              (Sample.session "tok" "salon" Sample.offline))
    as (_ & Ht & Hk & _).
  split; [exact Ht | exact (Hk "userType" Hne)].
Defined.

(** * Further properties of the code *)

(** ** The regular-expression test *)

Lemma append_cons c s t : String c s +:+ t = String c (s +:+ t).
Proof. reflexivity. Qed.

Lemma append_nil_l s : "" +:+ s = s.
Proof. reflexivity. Qed.

Lemma append_nil_r s : s +:+ "" = s.
Proof. induction s as [|c s IH]; [done|]. by rewrite append_cons, IH. Qed.

Lemma append_assoc s t u : (s +:+ t) +:+ u = s +:+ (t +:+ u).
Proof. induction s as [|c s IH]; [done|]. by rewrite !append_cons, IH. Qed.

Lemma append_eq_nil s t : s +:+ t = "" -> s = "" /\ t = "".
Proof. destruct s; [done|]. rewrite append_cons. discriminate. Qed.

Lemma nullable_matches r : Regex.nullable r = true <-> matches r "".
Proof.
  induction r as [| |p|r1 IH1 r2 IH2|r1 IH1 r2 IH2|r IH]; simpl.
  - split; [done|]. inversion 1.
  - split; [constructor|done].
  - split; [done|]. inversion 1.
  - rewrite andb_true_iff, IH1, IH2. split.
    + intros [H1 H2]. change "" with ("" +:+ ""). by constructor.
    + inversion 1 as [| |? ? s1 s2 H1 H2| | | |]; subst.
      match goal with
      | Heq : _ +:+ _ = "" |- _ => apply append_eq_nil in Heq as [-> ->]
      end. done.
  - rewrite orb_true_iff, IH1, IH2. split.
    + intros [H|H]; [by apply MAltL | by apply MAltR].
    + inversion 1; subst; auto.
  - split; [constructor|done].
Qed.

(** A non-empty match of a star starts with a non-empty match of its body. *)
Lemma matches_star_cons r c s :
  matches (Regex.Star r) (String c s) ->
  exists s1 s2,
    s = s1 +:+ s2 /\ matches r (String c s1) /\ matches (Regex.Star r) s2.
Proof.
  intros H. remember (Regex.Star r) as r0 eqn:Hr.
  remember (String c s) as s0 eqn:Hs. revert c s Hs.
  induction H as [| | | | | |r' s1 s2 H1 _ H2 IH2]; intros c' s' Hs;
    try discriminate.
  injection Hr as ->. destruct s1 as [|c1 s1].
  - rewrite append_nil_l in Hs. by apply IH2.
  - rewrite append_cons in Hs. injection Hs as -> <-. eauto.
Qed.

Lemma deriv_matches c r s :
  matches (Regex.deriv c r) s <-> matches r (String c s).
Proof.
  revert s. induction r as [| |p|r1 IH1 r2 IH2|r1 IH1 r2 IH2|r IH];
    intros s; simpl.
  - split; inversion 1.
  - split; inversion 1.
  - destruct (p c) eqn:Hp; split.
    + inversion 1; subst. by constructor.
    + inversion 1; subst. constructor.
    + inversion 1.
    + inversion 1; subst. congruence.
  - assert (matches (Regex.Seq (Regex.deriv c r1) r2) s ->
            matches (Regex.Seq r1 r2) (String c s)) as Hleft.
    { inversion 1 as [| |? ? s1 s2 H1 H2| | | |]; subst.
      rewrite <- append_cons. constructor; [by apply IH1 | done]. }
    assert (matches (Regex.Seq r1 r2) (String c s) ->
            matches (Regex.Seq (Regex.deriv c r1) r2) s
            \/ (matches r1 "" /\ matches r2 (String c s))) as Hright.
    { inversion 1 as [| |? ? s1 s2 H1 H2| | | |]; subst.
      match goal with Heq : _ +:+ _ = String c s |- _ => rename Heq into Heq' end.
      destruct s1 as [|c1 s1].
      - rewrite append_nil_l in Heq'. subst s2. by right.
      - rewrite append_cons in Heq'. injection Heq' as -> <-.
        left. constructor; [by apply IH1 | done]. }
    destruct (Regex.nullable r1) eqn:Hn.
    + split.
      * inversion 1; subst; [by apply Hleft|].
        change (String c s) with ("" +:+ String c s).
        constructor; [by apply nullable_matches | by apply IH2].
      * intros [H | [_ H]]%Hright; [by apply MAltL|].
        apply MAltR. by apply IH2.
    + split; [exact Hleft|].
      intros [H | [H _]]%Hright; [done|].
      apply nullable_matches in H. congruence.
  - split.
    + inversion 1; subst; [apply MAltL; by apply IH1 | apply MAltR; by apply IH2].
    + inversion 1; subst; [apply MAltL; by apply IH1 | apply MAltR; by apply IH2].
  - split.
    + inversion 1 as [| |? ? s1 s2 H1 H2| | | |]; subst.
      rewrite <- append_cons. constructor; [by apply IH | done].
    + intros (s1 & s2 & -> & H1 & H2)%matches_star_cons.
      constructor; [by apply IH | done].
Qed.

(** The derivative test decides membership. *)
Lemma test_matches r s : Regex.test r s = true <-> matches r s.
Proof.
  revert r. induction s as [|c s IH]; intros r; simpl.
  - apply nullable_matches.
  - rewrite IH. apply deriv_matches.
Qed.

Lemma matches_seq r1 r2 s :
  matches (Regex.Seq r1 r2) s <->
  exists s1 s2, s = s1 +:+ s2 /\ matches r1 s1 /\ matches r2 s2.
Proof.
  split.
  - inversion 1; subst. eauto.
  - intros (s1 & s2 & -> & H1 & H2). by constructor.
Qed.

Lemma matches_class p s :
  matches (Regex.Class p) s <-> exists c, s = String c "" /\ p c = true.
Proof.
  split.
  - inversion 1; subst. eauto.
  - intros (c & -> & H). by constructor.
Qed.

Lemma matches_chr c s : matches (Regex.Chr c) s <-> s = String c "".
Proof.
  unfold Regex.Chr. rewrite matches_class. split.
  - intros (c' & -> & ->%Ascii.eqb_eq). done.
  - intros ->. exists c. by rewrite Ascii.eqb_refl.
Qed.

Lemma matches_star_class p s :
  matches (Regex.Star (Regex.Class p)) s <-> allChars p s = true.
Proof.
  split.
  - intros H. remember (Regex.Star (Regex.Class p)) as r eqn:Hr.
    induction H as [| | | | | |r' s1 s2 H1 _ H2 IH2]; try discriminate; [done|].
    injection Hr as ->. apply matches_class in H1 as (c & -> & Hc).
    rewrite append_cons, append_nil_l. simpl. rewrite Hc. by apply IH2.
  - induction s as [|c s IH]; simpl; [constructor|].
    intros [Hc Hs]%andb_prop.
    change (String c s) with (String c "" +:+ s).
    constructor; [by constructor | by apply IH].
Qed.

Lemma matches_plus_class p s :
  matches (Regex.Plus (Regex.Class p)) s <-> s <> "" /\ allChars p s = true.
Proof.
  unfold Regex.Plus. rewrite matches_seq. split.
  - intros (s1 & s2 & -> & (c & -> & Hc)%matches_class & H2%matches_star_class).
    rewrite append_cons, append_nil_l. simpl. by rewrite Hc, H2.
  - intros [Hne Hall]. destruct s as [|c s]; [done|].
    simpl in Hall. apply andb_prop in Hall as [Hc Hs].
    exists (String c ""), s. split; [done|].
    split; [by apply matches_class; eauto | by apply matches_star_class].
Qed.

(** The e-mail pattern accepts exactly the strings [local@domain.tld] whose
    three parts are non-empty and free of white space and of [@]. *)
Lemma emailRegex_shape s :
  Regex.test Regex.emailRegex s = true <-> emailShaped s.
Proof.
  rewrite test_matches. unfold Regex.emailRegex, emailShaped, emailPart.
  rewrite matches_seq. split.
  - intros (a & r1 & -> & Ha%matches_plus_class & H1).
    apply matches_seq in H1 as (at' & r2 & -> & ->%matches_chr & H2).
    apply matches_seq in H2 as (b & r3 & -> & Hb%matches_plus_class & H3).
    apply matches_seq in H3 as (dot & c & -> & ->%matches_chr
                                & Hc%matches_plus_class).
    exists a, b, c. done.
  - intros (a & b & c & -> & Ha & Hb & Hc).
    exists a, ("@" +:+ b +:+ "." +:+ c).
    split; [done|]. split; [by apply matches_plus_class|].
    apply matches_seq. exists "@", (b +:+ "." +:+ c).
    split; [done|]. split; [by apply matches_chr|].
    apply matches_seq. exists b, ("." +:+ c).
    split; [done|]. split; [by apply matches_plus_class|].
    apply matches_seq. exists ".", c.
    split; [done|]. split; [by apply matches_chr | by apply matches_plus_class].
Qed.

Lemma emailShaped_nonempty s : emailShaped s -> Str.is_empty s = false.
Proof.
  intros (a & b & c & -> & [Ha _] & _). by destruct a.
Qed.

(** X1. On both screens [validateEmail] passes exactly the addresses of the
    shape [local@domain.tld]: three non-empty parts without white space and
    without [@], separated by one [@] and a dot.  The empty address and every
    other string fail. *)
Theorem validateEmail_passes_exactly_shaped email s1 s2 :
  (fst (LoginScreen.validateEmail email s1) = true <-> emailShaped email)
  /\ (fst (RegisterScreen.validateEmail email s2) = true <-> emailShaped email).
Proof.
  unfold LoginScreen.validateEmail, RegisterScreen.validateEmail.
  destruct (Str.is_empty email) eqn:He; simpl.
  - split; (split; [done|]); intros H%emailShaped_nonempty; congruence.
  - destruct (Regex.test Regex.emailRegex email) eqn:Ht; simpl.
    + apply emailRegex_shape in Ht. done.
    + split; (split; [done|]); intros H%emailRegex_shape; congruence.
Qed.

(** ** The registration request *)

Lemma register_sends_one_request_aux email password role businessLicense w :
  exists rq,
    snd (AuthService.register email password role businessLicense w)
      = mkWorld (secure w) (sent w ++ [rq]) (server w)
    /\ rq_url rq = ApiClient.API_URL +:+ "/auth/register".
Proof.
  unfold AuthService.register.
  case_match; (eexists; split;
    [apply fetch_then_stateless; auto with stateless | done]).
Qed.

(** X2. [register] issues exactly one request, a POST to [/auth/register]
    without an [Authorization] header, and never touches the secure store.
    The request is multipart exactly when the role is "salon" and a
    non-empty licence URI is given; in every other case, a salon without a
    licence included, it is the JSON request with the e-mail, the password
    and the role. *)
Theorem register_sends_one_request email password role businessLicense w :
  exists rq,
    snd (AuthService.register email password role businessLicense w)
      = mkWorld (secure w) (sent w ++ [rq]) (server w)
    /\ rq_url rq = ApiClient.API_URL +:+ "/auth/register"
    /\ rq_method rq = "POST"
    /\ header "Authorization" rq = None
    /\ (isFormBody (rq_body rq) = true <->
        role = "salon"
        /\ exists license, businessLicense = Some license /\ license <> "")
    /\ (isFormBody (rq_body rq) = false ->
        rq_body rq = JsonBody (VObj [("email", VStr email);
                                     ("password", VStr password);
                                     ("role", VStr role)])).
Proof.
  unfold AuthService.register.
  destruct (String.eqb role "salon") eqn:Hr; simpl.
  - apply String.eqb_eq in Hr. subst role.
    destruct businessLicense as [[|c l]|]; simpl.
    + eexists. split; [apply fetch_then_stateless; auto with stateless|].
      simpl. repeat split; try done.
      intros (_ & license & [= <-] & Hne). done.
    + eexists. split; [apply fetch_then_stateless; auto with stateless|].
      simpl. repeat split; try done. by exists (String c l).
    + eexists. split; [apply fetch_then_stateless; auto with stateless|].
      simpl. repeat split; try done.
      intros (_ & license & [=] & _).
  - eexists. split; [apply fetch_then_stateless; auto with stateless|].
    simpl. repeat split; try done.
    intros (-> & _). done.
Qed.

(** ** Validation on the registration screen *)

Lemma register_validateEmail_fst email s :
  fst (RegisterScreen.validateEmail email s)
  = negb (Str.is_empty email) && Regex.test Regex.emailRegex email.
Proof.
  unfold RegisterScreen.validateEmail.
  destruct (Str.is_empty email); [done|].
  by destruct (Regex.test Regex.emailRegex email).
Qed.

Lemma register_validatePassword_fst password s :
  fst (RegisterScreen.validatePassword password s)
  = negb (Str.is_empty password) && negb (String.length password <? 6)%nat.
Proof.
  unfold RegisterScreen.validatePassword.
  destruct (Str.is_empty password); [done|].
  by destruct (String.length password <? 6)%nat.
Qed.

Lemma register_validateConfirm_fst pwd confirmPwd s :
  fst (RegisterScreen.validateConfirmPassword pwd confirmPwd s)
  = negb (negb (Str.is_empty pwd) && negb (Str.is_empty confirmPwd)
          && negb (String.eqb pwd confirmPwd)).
Proof.
  unfold RegisterScreen.validateConfirmPassword. by case_match.
Qed.

Lemma register_validateLicense_fst isSalon businessLicense s :
  fst (RegisterScreen.validateLicense isSalon businessLicense s)
  = negb (isSalon && negb (Js.truthy (Js.ofOption businessLicense))).
Proof.
  unfold RegisterScreen.validateLicense. by case_match.
Qed.

(** The four checks, as one Boolean. *)
Lemma registrationValid_checks s :
  registrationValid s <->
  (negb (Str.is_empty (RegisterScreen.email s))
   && Regex.test Regex.emailRegex (RegisterScreen.email s))
  && (negb (Str.is_empty (RegisterScreen.password s))
      && negb (String.length (RegisterScreen.password s) <? 6)%nat)
  && negb (negb (Str.is_empty (RegisterScreen.password s))
           && negb (Str.is_empty (RegisterScreen.confirmPassword s))
           && negb (String.eqb (RegisterScreen.password s)
                               (RegisterScreen.confirmPassword s)))
  && negb (RegisterScreen.isSalon s
           && negb (Js.truthy (Js.ofOption (RegisterScreen.businessLicense s))))
  = true.
Proof.
  unfold registrationValid.
  destruct s as [email password confirm role loading otp show license salon
                   e1 e2 e3 e4 e5 e6 al rt]; simpl.
  rewrite !andb_true_iff, !negb_true_iff, <- emailRegex_shape.
  rewrite Nat.ltb_ge. split.
  - intros (He & Hp & Hc & Hl). repeat split; try done.
    + destruct email; [|done]. by vm_compute in He.
    + destruct password; [simpl in Hp; lia | done].
    + destruct Hc as [-> | ->]; [by rewrite andb_false_r|].
      rewrite String.eqb_refl. by rewrite andb_false_r.
    + destruct salon; [|done]. destruct (Hl eq_refl) as (l & -> & Hne).
      by destruct l.
  - intros ((([_ He] & [_ Hp]) & Hc) & Hl). repeat split; try done.
    + destruct password as [|c p]; [simpl in Hp; lia|].
      destruct confirm as [|c' p']; [by left|]. right.
      simpl Str.is_empty in Hc. simpl negb at 1 2 in Hc.
      rewrite andb_true_l in Hc. apply negb_false_iff in Hc.
      by apply String.eqb_eq in Hc.
    + intros ->. simpl in Hl. apply negb_false_iff in Hl.
      destruct license as [l|]; [|done]. exists l. split; [done|].
      intros ->. done.
Qed.

Lemma tryRegister_world email password role businessLicense w :
  snd (RegisterScreen.tryRegister email password role businessLicense w)
  = snd (AuthService.register email password role businessLicense w).
Proof.
  unfold RegisterScreen.tryRegister, bind at 1.
  destruct (AuthService.register email password role businessLicense w)
    as [[response|e] w1]; [|done].
  simpl. assert (forall (m : M RegisterScreen.Alert), stateless m ->
                   snd (m w1) = w1) as Hst by (intros m Hm; apply Hm).
  apply Hst. auto 10 with stateless.
Qed.

(** The world [handleRegister] leaves: untouched when a check fails, the
    world after [register] otherwise. *)
Lemma handleRegister_world s w :
  world (RegisterScreen.handleRegister s w)
  = if fst (RegisterScreen.validateEmail (RegisterScreen.email s) s)
       && fst (RegisterScreen.validatePassword (RegisterScreen.password s) s)
       && fst (RegisterScreen.validateConfirmPassword
                 (RegisterScreen.password s) (RegisterScreen.confirmPassword s) s)
       && fst (RegisterScreen.validateLicense (RegisterScreen.isSalon s)
                 (RegisterScreen.businessLicense s) s)
    then snd (AuthService.register (RegisterScreen.email s)
                (RegisterScreen.password s) (RegisterScreen.role s)
                (RegisterScreen.businessLicense s) w)
    else w.
Proof.
  rewrite <- tryRegister_world.
  rewrite !register_validateEmail_fst, !register_validatePassword_fst,
    !register_validateConfirm_fst, !register_validateLicense_fst.
  unfold RegisterScreen.handleRegister.
  match goal with
  | |- context [RegisterScreen.validateEmail ?e ?s1] =>
      pose proof (register_validateEmail_fst e s1) as H1;
      destruct (RegisterScreen.validateEmail e s1) as [b1 s2]
  end.
  match goal with
  | |- context [RegisterScreen.validatePassword ?e ?s1] =>
      pose proof (register_validatePassword_fst e s1) as H2;
      destruct (RegisterScreen.validatePassword e s1) as [b2 s3]
  end.
  match goal with
  | |- context [RegisterScreen.validateConfirmPassword ?p ?c ?s1] =>
      pose proof (register_validateConfirm_fst p c s1) as H3;
      destruct (RegisterScreen.validateConfirmPassword p c s1) as [b3 s4]
  end.
  match goal with
  | |- context [RegisterScreen.validateLicense ?p ?c ?s1] =>
      pose proof (register_validateLicense_fst p c s1) as H4;
      destruct (RegisterScreen.validateLicense p c s1) as [b4 s5]
  end.
  simpl in H1, H2, H3, H4. rewrite <- H1, <- H2, <- H3, <- H4.
  destruct b1, b2, b3, b4; simpl; try done.
  destruct (RegisterScreen.tryRegister _ _ _ _ w) as [[a|e] w1]; simpl;
    [done|]. by case_match.
Qed.

(** X3. [handleRegister] sends the registration request exactly when the
    form is valid: the e-mail has the shape [local@domain.tld], the password
    has at least six characters, the confirmation is empty or equal to the
    password, and a salon has a licence attached.  A valid form leads to
    exactly one request, to [/auth/register], and leaves the store alone; an
    invalid one leaves the world as it was.  An empty confirmation is not an
    error. *)
Theorem handleRegister_sends_iff_valid s w :
  (registrationValid s ->
   exists rq,
     world (RegisterScreen.handleRegister s w)
       = mkWorld (secure w) (sent w ++ [rq]) (server w)
     /\ rq_url rq = ApiClient.API_URL +:+ "/auth/register")
  /\ (~ registrationValid s ->
      world (RegisterScreen.handleRegister s w) = w).
Proof.
  rewrite handleRegister_world.
  rewrite register_validateEmail_fst, register_validatePassword_fst,
    register_validateConfirm_fst, register_validateLicense_fst.
  pose proof (registrationValid_checks s) as Hv.
  match goal with
  | |- context [if ?b then _ else _] => destruct b eqn:Hb
  end.
  - split; [|intros Hn; exfalso; apply Hn; by apply Hv].
    intros _.
    destruct (register_sends_one_request_aux
                (RegisterScreen.email s) (RegisterScreen.password s)
                (RegisterScreen.role s) (RegisterScreen.businessLicense s) w)
      as (rq & Hw & Hu). eauto.
  - split; [|done]. intros H%Hv. congruence.
Qed.

Lemma handleRegister_sends_iff_valid_witness :
  registrationValid
    (fst (RegisterScreen.run
            [RegisterScreen.ChangeEmail "a@b.co";
             RegisterScreen.ChangePassword "secret1"]
            (RegisterScreen.initial, Sample.fresh Sample.offline)))
  /\ exists rq,
       world (RegisterScreen.handleRegister
                (fst (RegisterScreen.run
                        [RegisterScreen.ChangeEmail "a@b.co";
                         RegisterScreen.ChangePassword "secret1"]
                        (RegisterScreen.initial, Sample.fresh Sample.offline)))
                (Sample.fresh Sample.offline))
       = mkWorld (secure (Sample.fresh Sample.offline))
           (sent (Sample.fresh Sample.offline) ++ [rq])
           (server (Sample.fresh Sample.offline))
       /\ rq_url rq = ApiClient.API_URL +:+ "/auth/register".
Proof.
  assert (registrationValid
            (fst (RegisterScreen.run
                    [RegisterScreen.ChangeEmail "a@b.co";
                     RegisterScreen.ChangePassword "secret1"]
                    (RegisterScreen.initial, Sample.fresh Sample.offline))))
    as Hv.
  { apply registrationValid_checks. reflexivity. }
  split; [exact Hv|].
  destruct (handleRegister_sends_iff_valid
              (fst (RegisterScreen.run
                      [RegisterScreen.ChangeEmail "a@b.co";
                       RegisterScreen.ChangePassword "secret1"]
                      (RegisterScreen.initial, Sample.fresh Sample.offline)))
              (Sample.fresh Sample.offline)) as [H _].
  exact (H Hv).
Defined.

(** ** The verification code *)

Lemma tryVerifyOTP_world email otp role w :
  snd (RegisterScreen.tryVerifyOTP email otp role w)
  = snd (AuthService.verifyOTP email otp role w).
Proof.
  unfold RegisterScreen.tryVerifyOTP, bind at 1.
  destruct (AuthService.verifyOTP email otp role w) as [[data|e] w1]; [|done].
  simpl. by case_match.
Qed.

(** X4. [handleVerifyOTP] checks only the length of the code.  A code that is
    not six characters long is refused on the device: the code error is set,
    no alert is shown and the world is as before.  Any six characters,
    digits or not, are sent to [/auth/verify-otp] in exactly one request. *)
Theorem handleVerifyOTP_checks_length_only s w :
  (String.length (RegisterScreen.otp s) <> 6%nat ->
   world (RegisterScreen.handleVerifyOTP s w) = w
   /\ RegisterScreen.otpError (ui (RegisterScreen.handleVerifyOTP s w))
      = "Please enter a valid 6-digit verification code"
   /\ RegisterScreen.alerts (ui (RegisterScreen.handleVerifyOTP s w))
      = RegisterScreen.alerts s)
  /\ (String.length (RegisterScreen.otp s) = 6%nat ->
      sent (world (RegisterScreen.handleVerifyOTP s w))
      = sent w ++ [verifyRequest (RegisterScreen.email s)
                     (RegisterScreen.otp s) (RegisterScreen.role s)]).
Proof.
  unfold RegisterScreen.handleVerifyOTP. split.
  - intros Hlen. apply Nat.eqb_neq in Hlen. rewrite Hlen.
    by rewrite orb_true_r.
  - intros Hlen. assert (Str.is_empty (RegisterScreen.otp s) = false) as ->
      by (by destruct (RegisterScreen.otp s)).
    rewrite Hlen. simpl.
    pose proof (tryVerifyOTP_world (RegisterScreen.email s)
                  (RegisterScreen.otp s) (RegisterScreen.role s) w) as Hw.
    rewrite verifyOTP_exchange in Hw.
    destruct (RegisterScreen.tryVerifyOTP _ _ _ w) as [[a|e] w1];
      simpl in *; subst w1.
    + apply exchangeForToken_sent.
    + case_match; simpl; apply exchangeForToken_sent.
Qed.

Lemma handleVerifyOTP_checks_length_only_witness :
  String.length
    (RegisterScreen.otp (RegisterScreen.handleOtpChange "12345"
                           RegisterScreen.initial)) <> 6%nat
  /\ world (RegisterScreen.handleVerifyOTP
              (RegisterScreen.handleOtpChange "12345" RegisterScreen.initial)
              (Sample.fresh Sample.offline))
     = Sample.fresh Sample.offline.
Proof.
  assert (String.length
            (RegisterScreen.otp (RegisterScreen.handleOtpChange "12345"
                                   RegisterScreen.initial)) <> 6%nat) as H
    by (simpl; lia).
  split; [exact H|].
  destruct (handleVerifyOTP_checks_length_only
              (RegisterScreen.handleOtpChange "12345" RegisterScreen.initial)
              (Sample.fresh Sample.offline)) as [Hshort _].
  exact (proj1 (Hshort H)).
Defined.

(** ** The login screen *)

Lemma login_validateEmail_fst email s :
  fst (LoginScreen.validateEmail email s)
  = negb (Str.is_empty email) && Regex.test Regex.emailRegex email.
Proof.
  unfold LoginScreen.validateEmail.
  destruct (Str.is_empty email); [done|].
  by destruct (Regex.test Regex.emailRegex email).
Qed.

Lemma login_validateEmail_route email s :
  LoginScreen.route (snd (LoginScreen.validateEmail email s))
  = LoginScreen.route s.
Proof. unfold LoginScreen.validateEmail. by repeat case_match. Qed.

Lemma login_validatePassword_route password s :
  LoginScreen.route (snd (LoginScreen.validatePassword password s))
  = LoginScreen.route s.
Proof. unfold LoginScreen.validatePassword. by case_match. Qed.

Lemma catchLogin_route error s s' :
  LoginScreen.catchLogin error s = Ok s' ->
  LoginScreen.route s' = LoginScreen.route s.
Proof.
  unfold LoginScreen.catchLogin. repeat case_match; intros [= <-]; done.
Qed.

(** A successful exchange: either the body has no truthy token and nothing
    was stored, or its token is a non-empty string and was stored. *)
Lemma exchangeForToken_ok rq w data w1 :
  exchangeForToken rq w = (Ok data, w1) ->
  (Js.truthy (Js.getOpt data "token") = false /\ w1 = afterRequest rq w)
  \/ exists t,
       Js.getOpt data "token" = VStr t /\ Str.is_empty t = false
       /\ w1 = mkWorld (<[AuthService.TOKEN_KEY := t]> (secure w))
                 (sent w ++ [rq]) (server w).
Proof.
  rewrite exchangeForToken_cases.
  destruct (server w (sent w) rq) as [response|]; [|done].
  destruct (ApiClient.handleResponse _ _) as [[data'|e] w2]; [|done].
  unfold Js.get. destruct (Js.is_nullish data'); [done|].
  destruct (Js.truthy (Js.getOpt data' "token")) eqn:Ht.
  - destruct (Js.getOpt data' "token") eqn:Hg; try done.
    intros [= <- <-]. right. exists s. rewrite Hg. split; [done|].
    split; [|done]. simpl in Ht. by apply negb_true_iff in Ht.
  - intros [= <- <-]. by left.
Qed.

(** When the [try] block of [handleLogin] ends normally, both session
    values are in the store and the route is the one of the role. *)
Lemma tryLogin_ok email password role w r w' :
  LoginScreen.tryLogin email password role w = (Ok r, w') ->
  exists t,
    Str.is_empty t = false
    /\ w' = mkWorld (<["userType" := role]> (<["userToken" := t]> (secure w)))
              (sent w ++ [loginRequest email password role]) (server w)
    /\ ((role = "consumer" /\ r = "/(consumerTabs)")
        \/ (role = "salon" /\ r = "/salonTabs")).
Proof.
  unfold LoginScreen.tryLogin, bind at 1. rewrite login_exchange.
  destruct (exchangeForToken (loginRequest email password role) w)
    as [[data|e] w1] eqn:E; [|done].
  apply exchangeForToken_ok in E as [[Hf ->] | (t & Hg & Ht & ->)].
  - rewrite Hf, andb_false_r. done.
  - rewrite Hg. simpl. rewrite Ht. simpl.
    destruct (Js.truthy data); simpl; [|done].
    unfold bind. rewrite setUserType_spec. simpl.
    destruct (Js.strictEqStr _ role); simpl; [|done].
    destruct (String.eqb role "consumer") eqn:Hc.
    + apply String.eqb_eq in Hc. intros [= <- <-]. exists t. auto.
    + destruct (String.eqb role "salon") eqn:Hs; [|done].
      apply String.eqb_eq in Hs. intros [= <- <-]. exists t. auto.
Qed.

Lemma tryLogin_sent email password role w :
  sent (snd (LoginScreen.tryLogin email password role w))
  = sent w ++ [loginRequest email password role].
Proof.
  unfold LoginScreen.tryLogin, bind at 1. rewrite login_exchange.
  pose proof (exchangeForToken_sent (loginRequest email password role) w) as H.
  destruct (exchangeForToken (loginRequest email password role) w)
    as [[data|e] w1]; simpl in H; [|done].
  case_match; [|done]. unfold bind. rewrite setUserType_spec. simpl.
  repeat case_match; done.
Qed.

(** X5. [handleLogin] calls the backend exactly when the e-mail has the
    shape [local@domain.tld] and the password is not empty: then exactly one
    request, the login request, is sent; otherwise the world is as before
    and the screen stays where it is. *)
Theorem handleLogin_sends_iff_valid s w :
  (emailShaped (LoginScreen.email s) /\ LoginScreen.password s <> "" ->
   sent (world (LoginScreen.handleLogin s w))
   = sent w ++ [loginRequest (LoginScreen.email s) (LoginScreen.password s)
                  (LoginScreen.role s)])
  /\ (~ (emailShaped (LoginScreen.email s) /\ LoginScreen.password s <> "") ->
      world (LoginScreen.handleLogin s w) = w
      /\ LoginScreen.route (ui (LoginScreen.handleLogin s w))
         = LoginScreen.route s).
Proof.
  unfold LoginScreen.handleLogin.
  match goal with
  | |- context [LoginScreen.validateEmail ?e ?s1] =>
      pose proof (login_validateEmail_fst e s1) as H1;
      pose proof (login_validateEmail_route e s1) as R1;
      destruct (LoginScreen.validateEmail e s1) as [b1 s2]
  end.
  match goal with
  | |- context [LoginScreen.validatePassword ?e ?s1] =>
      pose proof (login_validatePassword_route e s1) as R2;
      assert (fst (LoginScreen.validatePassword e s1) = negb (Str.is_empty e))
        as H2 by (unfold LoginScreen.validatePassword; by case_match);
      destruct (LoginScreen.validatePassword e s1) as [b2 s3]
  end.
  simpl in H1, H2, R1, R2. subst b1 b2.
  destruct (Str.is_empty (LoginScreen.email s)) eqn:He; simpl.
  { split; [intros [H%emailShaped_nonempty _]; congruence|].
    intros _. split; [done|]. by rewrite R2, R1. }
  destruct (Regex.test Regex.emailRegex (LoginScreen.email s)) eqn:Ht; simpl.
  2:{ split; [intros [H%emailRegex_shape _]; congruence|].
      intros _. split; [done|]. by rewrite R2, R1. }
  destruct (Str.is_empty (LoginScreen.password s)) eqn:Hp; simpl.
  { apply is_empty_true in Hp. split; [intros [_ H]; done|].
    intros _. split; [done|]. by rewrite R2, R1. }
  split.
  - intros _.
    pose proof (tryLogin_sent (LoginScreen.email s) (LoginScreen.password s)
                  (LoginScreen.role s) w) as Hs.
    destruct (LoginScreen.tryLogin _ _ _ w) as [[r|e] w1]; simpl in *; [done|].
    by case_match.
  - intros Hn. exfalso. apply Hn. split; [by apply emailRegex_shape|].
    intros Hp'. rewrite Hp' in Hp. done.
Qed.

(** X6. [handleLogin] replaces the screen only with a session in the store:
    whenever it navigates, the target is the tab stack of the selected role,
    the store holds a non-empty token under [userToken] and the selected
    role under [userType], and no error is left uncaught. *)
Theorem handleLogin_navigates_only_with_session s w r :
  LoginScreen.route s = None ->
  LoginScreen.route (ui (LoginScreen.handleLogin s w)) = Some r ->
  (exists t,
     t <> ""
     /\ secure (world (LoginScreen.handleLogin s w)) !! "userToken" = Some t)
  /\ secure (world (LoginScreen.handleLogin s w)) !! "userType"
     = Some (LoginScreen.role s)
  /\ ((LoginScreen.role s = "consumer" /\ r = "/(consumerTabs)")
      \/ (LoginScreen.role s = "salon" /\ r = "/salonTabs"))
  /\ uncaught (LoginScreen.handleLogin s w) = None.
Proof.
  intros Hr0. unfold LoginScreen.handleLogin.
  match goal with
  | |- context [LoginScreen.validateEmail ?e ?s1] =>
      pose proof (login_validateEmail_route e s1) as R1;
      destruct (LoginScreen.validateEmail e s1) as [b1 s2]
  end.
  match goal with
  | |- context [LoginScreen.validatePassword ?e ?s1] =>
      pose proof (login_validatePassword_route e s1) as R2;
      destruct (LoginScreen.validatePassword e s1) as [b2 s3]
  end.
  simpl in R1, R2.
  destruct (negb b1 || negb b2); simpl.
  { rewrite R2, R1, Hr0. done. }
  destruct (LoginScreen.tryLogin _ _ _ w) as [[r'|e] w1] eqn:E; simpl.
  - apply tryLogin_ok in E as (t & Ht & -> & Hrole).
    intros [= <-]. simpl. split; [|split; [|split]].
    + exists t. split; [by intros ->|].
      by rewrite lookup_insert_ne, lookup_insert_eq.
    + by rewrite lookup_insert_eq.
    + done.
    + done.
  - destruct (LoginScreen.catchLogin e _) as [s'|e'] eqn:Hc; simpl.
    + apply catchLogin_route in Hc. simpl in Hc.
      rewrite Hc, R2, R1, Hr0. done.
    + rewrite R2, R1, Hr0. done.
Qed.

Lemma emailShaped_sample : emailShaped "a@b.co".
Proof. exists "a", "b", "co". repeat split; done. Qed.

Lemma handleLogin_sends_iff_valid_witness :
  (emailShaped (LoginScreen.email LoginCase.form)
   /\ LoginScreen.password LoginCase.form <> "")
  /\ sent (world (LoginScreen.handleLogin LoginCase.form
                    (Sample.fresh Sample.offline)))
     = sent (Sample.fresh Sample.offline)
       ++ [loginRequest (LoginScreen.email LoginCase.form)
             (LoginScreen.password LoginCase.form)
             (LoginScreen.role LoginCase.form)].
Proof.
  assert (emailShaped (LoginScreen.email LoginCase.form)
          /\ LoginScreen.password LoginCase.form <> "") as H
    by (split; [apply emailShaped_sample | discriminate]).
  split; [exact H|].
  exact (proj1 (handleLogin_sends_iff_valid LoginCase.form
                  (Sample.fresh Sample.offline)) H).
Defined.

Lemma handleLogin_navigates_only_with_session_witness :
  LoginScreen.route LoginCase.form = None
  /\ LoginScreen.route (ui consumerLogin) = Some "/(consumerTabs)"
  /\ secure (world consumerLogin) !! "userType" = Some "consumer".
Proof.
  split; [reflexivity|]. split; [reflexivity|].
  destruct (handleLogin_navigates_only_with_session LoginCase.form
              (Sample.fresh Cases.tokenServer) "/(consumerTabs)")
    as (_ & H & _); [reflexivity | reflexivity | exact H].
Defined.

(** X7. A successful answer without a usable token does not log in: when the
    backend answers the login request with a 2xx body whose [token] reads as
    falsy, [handleLogin] leaves the store as it was, does not navigate, and
    shows the general "Login failed" message. *)
Theorem handleLogin_without_token s w response data token :
  emailShaped (LoginScreen.email s) ->
  LoginScreen.password s <> "" ->
  server w (sent w)
    (loginRequest (LoginScreen.email s) (LoginScreen.password s)
                  (LoginScreen.role s)) = Some response ->
  ok response = true ->
  json response = Some data ->
  Js.get data "token" = Ok token ->
  Js.truthy token = false ->
  secure (world (LoginScreen.handleLogin s w)) = secure w
  /\ LoginScreen.route (ui (LoginScreen.handleLogin s w)) = LoginScreen.route s
  /\ LoginScreen.generalError (ui (LoginScreen.handleLogin s w))
     = VStr "Login failed. Please check your credentials and try again."
  /\ uncaught (LoginScreen.handleLogin s w) = None.
Proof.
  intros He Hp Hs Hok Hj Hg Ht.
  assert (Str.is_empty (LoginScreen.email s) = false) as He1
    by (by apply emailShaped_nonempty).
  apply emailRegex_shape in He.
  assert (Str.is_empty (LoginScreen.password s) = false) as Hp1
    by (destruct (LoginScreen.password s); done).
  assert (LoginScreen.tryLogin (LoginScreen.email s) (LoginScreen.password s)
            (LoginScreen.role s) w
          = (Err (JsError "Login failed. Please check your credentials."),
             afterRequest (loginRequest (LoginScreen.email s)
                             (LoginScreen.password s) (LoginScreen.role s)) w))
    as Htry.
  { unfold LoginScreen.tryLogin, bind at 1. rewrite login_exchange.
    rewrite (exchangeForToken_no_token _ _ response data token) by done.
    assert (Js.getOpt data "token" = token) as ->.
    { unfold Js.get in Hg. destruct (Js.is_nullish data); congruence. }
    by rewrite Ht, andb_false_r. }
  unfold LoginScreen.handleLogin, LoginScreen.validateEmail,
    LoginScreen.validatePassword.
  rewrite He1, He, Hp1. simpl. rewrite Htry. done.
Qed.

Lemma handleLogin_without_token_witness :
  emailShaped (LoginScreen.email LoginCase.form)
  /\ LoginScreen.password LoginCase.form <> ""
  /\ server (Sample.fresh Cases.pendingServer)
       (sent (Sample.fresh Cases.pendingServer))
       (loginRequest (LoginScreen.email LoginCase.form)
          (LoginScreen.password LoginCase.form)
          (LoginScreen.role LoginCase.form))
     = Some (Sample.okJson (VObj [("message", VStr "pending approval")]))
  /\ ok (Sample.okJson (VObj [("message", VStr "pending approval")])) = true
  /\ json (Sample.okJson (VObj [("message", VStr "pending approval")]))
     = Some (VObj [("message", VStr "pending approval")])
  /\ Js.get (VObj [("message", VStr "pending approval")]) "token"
     = Ok VUndefined
  /\ Js.truthy VUndefined = false
  /\ secure (world (LoginScreen.handleLogin LoginCase.form
                      (Sample.fresh Cases.pendingServer)))
     = secure (Sample.fresh Cases.pendingServer).
Proof.
  split; [apply emailShaped_sample|]. split; [discriminate|].
  repeat (split; [reflexivity|]).
  apply (handleLogin_without_token LoginCase.form
           (Sample.fresh Cases.pendingServer)
           (Sample.okJson (VObj [("message", VStr "pending approval")]))
           (VObj [("message", VStr "pending approval")]) VUndefined);
    try reflexivity; [apply emailShaped_sample | discriminate].
Defined.

(** ** Errors of the backend, as the screens show them *)

Lemma fetch_then_handleResponse rq w :
  bind (fetch rq) ApiClient.handleResponse w
  = match server w (sent w) rq with
    | Some response =>
        (fst (ApiClient.handleResponse response (afterRequest rq w)),
         afterRequest rq w)
    | None => (Err (TypeError "Network request failed"), afterRequest rq w)
    end.
Proof.
  unfold bind, fetch. destruct (server w (sent w) rq) as [response|]; [|done].
  fold (afterRequest rq w).
  pose proof (stateless_handleResponse response (afterRequest rq w)) as H.
  destruct (ApiClient.handleResponse response (afterRequest rq w)) as [r w1].
  simpl in *. by subst.
Qed.

Lemma register_cases email password role businessLicense w :
  exists rq,
    rq_url rq = ApiClient.API_URL +:+ "/auth/register"
    /\ AuthService.register email password role businessLicense w
       = match server w (sent w) rq with
         | Some response =>
             (fst (ApiClient.handleResponse response (afterRequest rq w)),
              afterRequest rq w)
         | None => (Err (TypeError "Network request failed"), afterRequest rq w)
         end.
Proof.
  unfold AuthService.register.
  case_match; (eexists; split; [|apply fetch_then_handleResponse]; done).
Qed.

Lemma includes_nonempty p s :
  Str.includes p s = true -> Str.is_empty p = false -> Str.is_empty s = false.
Proof. destruct s; [|done]. by destruct p. Qed.

(** A valid form gets past the checks. *)
Lemma handleRegister_valid s w :
  registrationValid s ->
  RegisterScreen.handleRegister s w
  = match RegisterScreen.tryRegister (RegisterScreen.email s)
            (RegisterScreen.password s) (RegisterScreen.role s)
            (RegisterScreen.businessLicense s) w with
    | (Ok a, w') =>
        mkOutcome (RegisterScreen.setIsLoading false
                     (RegisterScreen.alert a (registerSubmitting s))) w' None
    | (Err error, w') =>
        match RegisterScreen.catchRegister error (registerSubmitting s) with
        | Ok s' => mkOutcome (RegisterScreen.setIsLoading false s') w' None
        | Err e =>
            mkOutcome (RegisterScreen.setIsLoading false (registerSubmitting s))
              w' (Some e)
        end
    end.
Proof.
  intros Hv. apply registrationValid_checks in Hv.
  rewrite !andb_true_iff in Hv.
  destruct Hv as [[[[H1 H1'] [H2 H2']] H3] H4].
  apply negb_true_iff in H1, H2, H2'.
  unfold RegisterScreen.handleRegister, RegisterScreen.validateEmail,
    RegisterScreen.validatePassword, RegisterScreen.validateConfirmPassword,
    RegisterScreen.validateLicense.
  rewrite H1, H1', H2, H2'. simpl.
  apply negb_true_iff in H3. rewrite H2 in H3. simpl in H3. rewrite H3.
  apply negb_true_iff in H4. rewrite H4. simpl. done.
Qed.

Lemma tryRegister_rejected email password role license w response data m :
  (forall rq, rq_url rq = ApiClient.API_URL +:+ "/auth/register" ->
     server w (sent w) rq = Some response) ->
  ok response = false ->
  json response = Some data ->
  Js.own data "message" = Some (VStr m) ->
  Str.is_empty m = false ->
  exists rq,
    RegisterScreen.tryRegister email password role license w
    = (Err (Rejected (VStr m)), afterRequest rq w).
Proof.
  intros Hsrv Hok Hj Hm Hne. unfold RegisterScreen.tryRegister, bind at 1.
  destruct (register_cases email password role license w) as (rq & Hu & ->).
  rewrite (Hsrv rq Hu), (handleResponse_json _ data) by done.
  rewrite Hok, Hm. simpl. rewrite Hne. simpl. by exists rq.
Qed.

(** X8. An address that is already registered is reported on the e-mail
    field: when the form is valid and the backend refuses the registration
    with a message containing "already exists", [handleRegister] sets the
    e-mail error "An account with this email already exists", shows no
    alert, does not move on to the code entry and stores nothing. *)
Theorem handleRegister_reports_conflict s w response data m :
  registrationValid s ->
  (forall rq, rq_url rq = ApiClient.API_URL +:+ "/auth/register" ->
     server w (sent w) rq = Some response) ->
  ok response = false ->
  json response = Some data ->
  Js.own data "message" = Some (VStr m) ->
  Str.includes "already exists" m = true ->
  RegisterScreen.emailError (ui (RegisterScreen.handleRegister s w))
    = "An account with this email already exists"
  /\ RegisterScreen.alerts (ui (RegisterScreen.handleRegister s w))
     = RegisterScreen.alerts s
  /\ RegisterScreen.showOtpInput (ui (RegisterScreen.handleRegister s w))
     = RegisterScreen.showOtpInput s
  /\ secure (world (RegisterScreen.handleRegister s w)) = secure w
  /\ uncaught (RegisterScreen.handleRegister s w) = None.
Proof.
  intros Hv Hsrv Hok Hj Hm Hinc.
  assert (Str.is_empty m = false) as Hne by (by eapply includes_nonempty).
  destruct (tryRegister_rejected (RegisterScreen.email s)
              (RegisterScreen.password s) (RegisterScreen.role s)
              (RegisterScreen.businessLicense s) w response data m)
    as (rq & Htry); try done.
  rewrite handleRegister_valid, Htry by done.
  unfold RegisterScreen.catchRegister, errorMessageOf. simpl.
  rewrite Hinc. simpl. done.
Qed.

Lemma handleRegister_reports_conflict_witness :
  registrationValid validForm
  /\ (forall rq, rq_url rq = ApiClient.API_URL +:+ "/auth/register" ->
        server (Sample.fresh (Sample.answering Cases.conflict))
          (sent (Sample.fresh (Sample.answering Cases.conflict))) rq
        = Some Cases.conflict)
  /\ ok Cases.conflict = false
  /\ json Cases.conflict
     = Some (VObj [("message", VStr "Email already exists")])
  /\ Js.own (VObj [("message", VStr "Email already exists")]) "message"
     = Some (VStr "Email already exists")
  /\ Str.includes "already exists" "Email already exists" = true
  /\ RegisterScreen.emailError
       (ui (RegisterScreen.handleRegister validForm
              (Sample.fresh (Sample.answering Cases.conflict))))
     = "An account with this email already exists".
Proof.
  assert (registrationValid validForm) as Hv
    by (apply registrationValid_checks; reflexivity).
  split; [exact Hv|]. split; [intros rq _; reflexivity|].
  repeat (split; [reflexivity|]).
  apply (handleRegister_reports_conflict validForm
           (Sample.fresh (Sample.answering Cases.conflict)) Cases.conflict
           (VObj [("message", VStr "Email already exists")])
           "Email already exists");
    first [exact Hv | reflexivity | intros rq _; reflexivity].
Defined.

(** ** Sessions across calls *)

(** X9. [logout] ends the session for every later call: whatever the store
    held, after [logout] the device is not authenticated and each of the
    profile operations throws "Not authenticated" without sending
    anything. *)
Theorem logout_then_unauthenticated (c : Client.ProfileCall) (w : World) :
  AuthService.isAuthenticated (snd (AuthService.logout w))
    = (Ok false, snd (AuthService.logout w))
  /\ Client.profileCall c (snd (AuthService.logout w))
     = (Err (JsError "Not authenticated"), snd (AuthService.logout w)).
Proof.
  assert (secure (snd (AuthService.logout w)) !! AuthService.TOKEN_KEY = None)
    as Hnone by (simpl; apply lookup_delete_eq).
  split.
  - unfold AuthService.isAuthenticated, bind, SecureStore.getItemAsync.
    by rewrite Hnone.
  - pose proof (guarded_profileCall c (snd (AuthService.logout w))) as H.
    by rewrite Hnone in H.
Qed.

(** X10. A login opens the session for every later call: when the backend
    answers the login request with a 2xx body holding a non-empty string
    token, the device is authenticated afterwards and each of the profile
    operations sends exactly one request, carrying
    [Authorization: Bearer <that token>]. *)
Theorem login_then_bearer email password role w response data t
    (c : Client.ProfileCall) :
  server w (sent w) (loginRequest email password role) = Some response ->
  ok response = true ->
  json response = Some data ->
  Js.own data "token" = Some (VStr t) ->
  t <> "" ->
  let w1 := snd (AuthService.login email password role w) in
  fst (AuthService.isAuthenticated w1) = Ok true
  /\ exists rq,
       snd (Client.profileCall c w1)
         = mkWorld (secure w1) (sent w1 ++ [rq]) (server w1)
       /\ header "Authorization" rq = Some ("Bearer " +:+ t).
Proof.
  intros Hs Hok Hj Ho Hne w1.
  assert (Str.is_empty t = false) as Ht by (by destruct t).
  assert (secure w1 !! AuthService.TOKEN_KEY = Some t) as Hw1.
  { unfold w1. rewrite login_exchange.
    rewrite (exchangeForToken_saves _ _ response data t) by done.
    simpl. apply lookup_insert_eq. }
  split.
  - unfold AuthService.isAuthenticated, bind, SecureStore.getItemAsync.
    rewrite Hw1. simpl. by rewrite Ht.
  - pose proof (guarded_profileCall c w1) as H. by rewrite Hw1, Ht in H.
Qed.

Lemma login_then_bearer_witness :
  server (Sample.fresh Cases.tokenServer)
    (sent (Sample.fresh Cases.tokenServer))
    (loginRequest "a@b.co" "secret" "salon")
    = Some (Sample.okJson (VObj [("token", VStr "tok")]))
  /\ ok (Sample.okJson (VObj [("token", VStr "tok")])) = true
  /\ json (Sample.okJson (VObj [("token", VStr "tok")]))
     = Some (VObj [("token", VStr "tok")])
  /\ Js.own (VObj [("token", VStr "tok")]) "token" = Some (VStr "tok")
  /\ "tok" <> ""
  /\ fst (AuthService.isAuthenticated
            (snd (AuthService.login "a@b.co" "secret" "salon"
                    (Sample.fresh Cases.tokenServer)))) = Ok true.
Proof.
  repeat (split; [reflexivity|]). split; [discriminate|].
  destruct (login_then_bearer "a@b.co" "secret" "salon"
              (Sample.fresh Cases.tokenServer)
              (Sample.okJson (VObj [("token", VStr "tok")]))
              (VObj [("token", VStr "tok")]) "tok" Client.GetSalonProfile)
    as [H _]; first [reflexivity | discriminate | exact H].
Defined.

(** ** Browsing without a session *)

Lemma header_authHeaders w :
  List.find (fun h => String.eqb (fst h) "Authorization")
    (FilterService.authHeaders (storedToken w))
  = (fun b => ("Authorization", b)) <$> bearerOf w.
Proof.
  unfold FilterService.authHeaders, storedToken, bearerOf.
  destruct (secure w !! AuthService.TOKEN_KEY) as [t|]; simpl; [|done].
  by destruct (Str.is_empty t).
Qed.

(** X11. Filtering and searching need no session.  [filterServices] always
    sends exactly one request to [/services/filter], and [searchServices],
    for a keyword that is not blank, exactly one to [/services/search];
    neither touches the store.  The request carries
    [Authorization: Bearer <token>] when a non-empty token is stored and no
    [Authorization] header at all otherwise. *)
Theorem browsing_needs_no_token filterParams keyword w :
  (exists rq,
     snd (FilterService.filterServices filterParams w)
       = mkWorld (secure w) (sent w ++ [rq]) (server w)
     /\ rq_url rq = ApiClient.API_URL +:+ "/services/filter"
     /\ header "Authorization" rq = bearerOf w)
  /\ (Str.all_ws keyword = false ->
      exists rq,
        snd (FilterService.searchServices keyword w)
          = mkWorld (secure w) (sent w ++ [rq]) (server w)
        /\ rq_url rq = ApiClient.API_URL +:+ "/services/search"
        /\ header "Authorization" rq = bearerOf w).
Proof.
  split.
  - unfold FilterService.filterServices.
    change (fun error => throw error) with (@throw value).
    rewrite tryCatch_rethrow, getToken_bind.
    eexists. split; [apply fetch_then_stateless; auto 10 with stateless|].
    split; [done|]. unfold header. simpl rq_headers.
    rewrite header_authHeaders. by destruct (bearerOf w).
  - intros Hk. unfold FilterService.searchServices.
    rewrite searchServices_guard, Hk.
    change (fun error => throw error) with (@throw value).
    rewrite tryCatch_rethrow, getToken_bind.
    eexists. split; [apply fetch_then_stateless; auto 10 with stateless|].
    split; [done|]. unfold header. simpl rq_headers.
    rewrite header_authHeaders. by destruct (bearerOf w).
Qed.

Lemma browsing_needs_no_token_witness :
  Str.all_ws "hair" = false
  /\ exists rq,
       snd (FilterService.searchServices "hair" (Sample.fresh Sample.offline))
         = mkWorld (secure (Sample.fresh Sample.offline))
             (sent (Sample.fresh Sample.offline) ++ [rq])
             (server (Sample.fresh Sample.offline))
       /\ rq_url rq = ApiClient.API_URL +:+ "/services/search"
       /\ header "Authorization" rq = bearerOf (Sample.fresh Sample.offline).
Proof.
  split; [reflexivity|].
  apply (proj2 (browsing_needs_no_token Cases.byHaircut "hair"
                  (Sample.fresh Sample.offline))).
  reflexivity.
Defined.

(** ** Bodies without services, and the images of the records *)

Lemma searchServices_answered keyword w response data :
  Str.all_ws keyword = false ->
  server w (sent w) (searchRequest keyword (storedToken w)) = Some response ->
  ok response = true ->
  json response = Some data ->
  FilterService.searchServices keyword w
  = FilterService.processServices data
      (afterRequest (searchRequest keyword (storedToken w)) w).
Proof.
  intros Hk Hs Hok Hj. unfold FilterService.searchServices.
  rewrite searchServices_guard, Hk.
  change (fun error => throw error) with (@throw value).
  rewrite tryCatch_rethrow, getToken_bind.
  fold (searchRequest keyword (storedToken w)).
  unfold bind at 1, fetch. rewrite Hs.
  fold (afterRequest (searchRequest keyword (storedToken w)) w).
  unfold bind at 1. rewrite (handleResponse_json _ data) by done.
  by rewrite Hok.
Qed.

Lemma processServices_without_services data w :
  Js.truthy (Js.getOpt data "services") = false ->
  FilterService.processServices data w = (Ok (VArr []), w).
Proof.
  intros H. unfold FilterService.processServices.
  by rewrite H, andb_false_r.
Qed.

(** X12. A successful body without services is an empty result, not an
    error: when the backend answers with a 2xx JSON body whose [services]
    member is missing, [null] or otherwise falsy (the body may even be
    [null] or a number), [filterServices] returns the empty array, and so
    does [searchServices] for a keyword that is not blank. *)
Theorem no_services_is_empty_result filterParams keyword w response data :
  ok response = true ->
  json response = Some data ->
  Js.truthy (Js.getOpt data "services") = false ->
  (server w (sent w) (filterRequest filterParams (storedToken w))
     = Some response ->
   fst (FilterService.filterServices filterParams w) = Ok (VArr []))
  /\ (Str.all_ws keyword = false ->
      server w (sent w) (searchRequest keyword (storedToken w))
        = Some response ->
      fst (FilterService.searchServices keyword w) = Ok (VArr [])).
Proof.
  intros Hok Hj Hf. split.
  - intros Hs. rewrite (filterServices_answered _ _ response data) by done.
    by rewrite processServices_without_services.
  - intros Hk Hs. rewrite (searchServices_answered _ _ response data) by done.
    by rewrite processServices_without_services.
Qed.

Lemma no_services_is_empty_result_witness :
  ok (Sample.okJson VNull) = true
  /\ json (Sample.okJson VNull) = Some VNull
  /\ Js.truthy (Js.getOpt VNull "services") = false
  /\ server (Sample.fresh (Sample.answering (Sample.okJson VNull)))
       (sent (Sample.fresh (Sample.answering (Sample.okJson VNull))))
       (filterRequest Cases.byHaircut
          (storedToken (Sample.fresh (Sample.answering (Sample.okJson VNull)))))
     = Some (Sample.okJson VNull)
  /\ fst (FilterService.filterServices Cases.byHaircut
            (Sample.fresh (Sample.answering (Sample.okJson VNull))))
     = Ok (VArr []).
Proof.
  repeat (split; [reflexivity|]).
  apply (proj1 (no_services_is_empty_result Cases.byHaircut "hair"
                  (Sample.fresh (Sample.answering (Sample.okJson VNull)))
                  (Sample.okJson VNull) VNull eq_refl eq_refl eq_refl)).
  reflexivity.
Defined.

Lemma processService_images service w record w' :
  FilterService.processService service w = (Ok record, w') ->
  imagesNormalised service record.
Proof.
  unfold FilterService.processService, bind at 1, lift, Js.get.
  destruct (Js.is_nullish service) eqn:Hn; [done|].
  set (image := Js.getOpt service "illustrationImage").
  set (service1 := if Js.truthy image then _ else service).
  assert (Js.truthy image = true ->
          Js.own service1 "illustrationImage"
          = Some (UserProfileService.getImageUri image)) as Himg1.
  { intros Ht. unfold service1. rewrite Ht.
    destruct (truthy_member_object _ _ Ht) as [o ->]. apply own_set_eq. }
  assert (Js.truthy image = false ->
          Js.own service1 "illustrationImage"
          = Js.own service "illustrationImage") as Himg2.
  { intros Ht. unfold service1. by rewrite Ht. }
  assert (Js.getOpt service1 "Salon" = Js.getOpt service "Salon") as HS
    by (by apply getOpt_after_image).
  rewrite HS. unfold imagesNormalised. fold image.
  destruct (Js.truthy (Js.getOpt service "Salon")) eqn:Ht.
  - set (portfolio := Js.getOpt (Js.getOpt (Js.getOpt service "Salon")
                                   "SalonProfile") "portfolio").
    unfold bind at 1.
    assert (exists o, service1 = VObj o) as [o Ho]
      by (apply (truthy_member_object _ "Salon"); by rewrite HS).
    destruct (Js.is_nullish portfolio) eqn:Hp.
    + unfold ret. intros [= <- <-]. split; [|split].
      * intros Hi. rewrite own_del_ne, own_set_ne by done. by apply Himg1.
      * intros Hi. rewrite own_del_ne, own_set_ne by done. by apply Himg2.
      * intros _. eexists. split.
        { rewrite own_del_ne by done. rewrite Ho. apply own_set_eq. }
        split; [|done]. intros l Hl. rewrite Hl in Hp. done.
    + unfold bind at 1.
      destruct portfolio as [| | | | |l|] eqn:Hpf; try done.
      simpl arrayMap. rewrite mapM_ret. unfold ret.
      intros [= <- <-]. split; [|split].
      * intros Hi. rewrite own_del_ne, own_set_ne by done. by apply Himg1.
      * intros Hi. rewrite own_del_ne, own_set_ne by done. by apply Himg2.
      * intros _. eexists. split.
        { rewrite own_del_ne by done. rewrite Ho. apply own_set_eq. }
        split; [|done]. intros l' [= <-]. done.
  - unfold ret. intros [= <- <-]. split; [|split]; [done..|]. done.
Qed.

(** X13. The images of a filter result are plain URIs.  When the backend
    answers the filter request with a 2xx JSON body whose [services] member
    is an array, then in whatever [filterServices] returns, record by record
    and in order, a truthy [illustrationImage] has been replaced by its
    [getImageUri], and the [portfolio] of the flat [salon] is the profile's
    portfolio with [getImageUri] applied to each entry, the empty array when
    the profile has no portfolio. *)
Theorem filterServices_normalises_images
    filterParams w response data (services : list value) v :
  server w (sent w) (filterRequest filterParams (storedToken w))
    = Some response ->
  ok response = true ->
  json response = Some data ->
  Js.own data "services" = Some (VArr services) ->
  fst (FilterService.filterServices filterParams w) = Ok v ->
  exists records,
    v = VArr records /\ Forall2 imagesNormalised services records.
Proof.
  intros Hs Hok Hj Ho.
  rewrite (filterServices_answered _ _ response data) by done.
  set (w1 := afterRequest _ w).
  unfold FilterService.processServices, Js.getOpt. rewrite Ho.
  assert (Js.truthy data = true) as -> by (by destruct data).
  simpl. unfold bind at 1.
  destruct (mapM FilterService.processService services w1)
    as [[records|e] w2] eqn:Hm; [|done].
  simpl. intros [= <-]. exists records. split; [done|].
  eapply mapM_sound; [|exact Hm]. apply processService_images.
Qed.

Lemma filterServices_normalises_images_witness :
  server Cases.catalogue (sent Cases.catalogue)
    (filterRequest Cases.byHaircut (storedToken Cases.catalogue))
    = Some (Sample.okJson Cases.haircuts)
  /\ ok (Sample.okJson Cases.haircuts) = true
  /\ json (Sample.okJson Cases.haircuts) = Some Cases.haircuts
  /\ Js.own Cases.haircuts "services"
     = Some (VArr [Cases.haircut1; Cases.haircut2])
  /\ exists v records,
       fst (FilterService.filterServices Cases.byHaircut Cases.catalogue)
         = Ok v
       /\ v = VArr records
       /\ Forall2 imagesNormalised [Cases.haircut1; Cases.haircut2] records.
Proof.
  repeat (split; [reflexivity|]).
  destruct (FilterService.filterServices Cases.byHaircut Cases.catalogue)
    as [[v|e] w'] eqn:E; [|vm_compute in E; discriminate].
  exists v.
  destruct (filterServices_normalises_images Cases.byHaircut Cases.catalogue
              (Sample.okJson Cases.haircuts) Cases.haircuts
              [Cases.haircut1; Cases.haircut2] v)
    as (records & Hv & HF); try reflexivity; [by rewrite E|].
  exists records. split; [reflexivity|]. split; [exact Hv | exact HF].
Defined.

(** ** What the profile reads return *)

Lemma mapM_portfolioItem_strings items w :
  forallb Js.is_string items = true ->
  mapM SalonProfileService.portfolioItem items w = (Ok items, w).
Proof.
  induction items as [|x items IH]; simpl; [done|].
  intros [Hx Hi]%andb_prop. unfold bind.
  destruct x; try discriminate. simpl. unfold ret at 1. by rewrite IH.
Qed.

Lemma Forall_filter_truthy (l : list value) :
  Forall (fun x => Js.truthy x = true) (List.filter Js.truthy l).
Proof.
  induction l as [|x l IH]; simpl; [constructor|].
  destruct (Js.truthy x) eqn:E; [by constructor | done].
Qed.

Lemma filter_length_le (l : list value) :
  (length (List.filter Js.truthy l) <= length l)%nat.
Proof.
  induction l as [|x l IH]; simpl; [done|].
  destruct (Js.truthy x); simpl; lia.
Qed.

Lemma mapM_length {A B} (f : A -> M B) l w ys w' :
  mapM f l w = (Ok ys, w') -> length ys = length l.
Proof.
  revert w ys w'. induction l as [|x l IH]; simpl; intros w ys w'.
  - by intros [= <- <-].
  - unfold bind at 1. destruct (f x w) as [[y|e] w1]; [|done].
    unfold bind at 1. destruct (mapM f l w1) as [[ys'|e] w2] eqn:E; [|done].
    intros [= <- <-]. simpl. f_equal. by eapply IH.
Qed.

(** The body of a guarded read once the backend has answered. *)
Lemma getSalonProfile_answered w t response data :
  secure w !! AuthService.TOKEN_KEY = Some t ->
  t <> "" ->
  (forall rq, rq_url rq = ApiClient.API_URL +:+ "/salon-profile" ->
     server w (sent w) rq = Some response) ->
  ok response = true ->
  json response = Some data ->
  exists w1,
    SalonProfileService.getSalonProfile w
    = (let portfolio := Js.getOpt data "portfolio" in
       if Js.truthy data && Js.truthy portfolio then
         items <- arrayMap portfolio SalonProfileService.portfolioItem ;;
         ret (Js.set data "portfolio" (VArr (List.filter Js.truthy items)))
       else ret data)%js w1.
Proof.
  intros Htok Hne Hsrv Hok Hj. unfold SalonProfileService.getSalonProfile.
  rewrite getToken_bind. unfold storedToken. rewrite Htok. simpl.
  assert (Str.is_empty t = false) as -> by (by destruct t). simpl.
  unfold bind at 1, fetch. rewrite Hsrv by done.
  unfold bind at 1. rewrite (handleResponse_json _ data) by done.
  rewrite Hok. eexists. reflexivity.
Qed.

(** X14. [getSalonProfile] cleans the portfolio it returns.  With a session
    and a 2xx JSON answer whose [portfolio] is an array: whatever is
    returned has a portfolio without falsy entries (no empty strings), not
    longer than the one received, and its other members are as received;
    and when every entry received is a string, the call returns and the
    portfolio is the received one with the empty strings dropped, in
    order. *)
Theorem getSalonProfile_cleans_portfolio w t response data items :
  secure w !! AuthService.TOKEN_KEY = Some t ->
  t <> "" ->
  (forall rq, rq_url rq = ApiClient.API_URL +:+ "/salon-profile" ->
     server w (sent w) rq = Some response) ->
  ok response = true ->
  json response = Some data ->
  Js.own data "portfolio" = Some (VArr items) ->
  (forall r, fst (SalonProfileService.getSalonProfile w) = Ok r ->
     (exists l,
        Js.own r "portfolio" = Some (VArr l)
        /\ Forall (fun x => Js.truthy x = true) l
        /\ (length l <= length items)%nat)
     /\ (forall k, k <> "portfolio" -> Js.own r k = Js.own data k))
  /\ (forallb Js.is_string items = true ->
      exists r,
        fst (SalonProfileService.getSalonProfile w) = Ok r
        /\ Js.own r "portfolio" = Some (VArr (List.filter Js.truthy items))).
Proof.
  intros Htok Hne Hsrv Hok Hj Hp.
  destruct (getSalonProfile_answered w t response data) as [w1 ->]; try done.
  unfold Js.getOpt. rewrite Hp. simpl.
  destruct data as [| | | | | |o]; try discriminate. simpl.
  split.
  - intros r. unfold bind at 1.
    destruct (mapM SalonProfileService.portfolioItem items w1)
      as [[ys|e] w2] eqn:E; [|done].
    simpl. intros [= <-]. split.
    + eexists. split; [apply assoc_set_eq|].
      split; [apply Forall_filter_truthy|].
      etrans; [apply filter_length_le|]. by rewrite (mapM_length _ _ _ _ _ E).
    + intros k Hk. by apply assoc_set_ne.
  - intros Hstr. unfold bind at 1.
    rewrite mapM_portfolioItem_strings by done.
    eexists. split; [reflexivity|]. apply assoc_set_eq.
Qed.

Lemma normalizeIllustration_sound service w record w' :
  SalonServiceService.normalizeIllustration service w = (Ok record, w') ->
  illustrationFlattened service record.
Proof.
  unfold SalonServiceService.normalizeIllustration, bind, lift, Js.get.
  destruct (Js.is_nullish service); [done|].
  unfold illustrationFlattened.
  destruct (Js.truthy (Js.getOpt service "illustrationImage")
            && Js.isObject (Js.getOpt service "illustrationImage")) eqn:E.
  - unfold ret. intros [= <- <-]. split; [|split]; [..|done].
    + intros k Hk. apply own_set_ne. congruence.
    + intros _. apply andb_prop in E as [E _].
      destruct (truthy_member_object _ _ E) as [o ->]. apply own_set_eq.
  - unfold ret. intros [= <- <-]. done.
Qed.

(** X15. [getSalonServices] keeps the list it receives.  With a session and
    a 2xx JSON answer: a body that is an array comes back, if at all, as an
    array of the same length and order in which an illustration that is an
    object has been replaced by its [uri], [url] or [path] (the first
    truthy one, else the empty string) and nothing else has changed; a body
    that is not an array is returned as it is. *)
Theorem getSalonServices_keeps_the_list w t response data :
  secure w !! AuthService.TOKEN_KEY = Some t ->
  t <> "" ->
  (forall rq, rq_url rq = ApiClient.API_URL +:+ "/salon-profile/services" ->
     server w (sent w) rq = Some response) ->
  ok response = true ->
  json response = Some data ->
  (forall services r,
     data = VArr services ->
     fst (SalonServiceService.getSalonServices w) = Ok r ->
     exists records,
       r = VArr records /\ Forall2 illustrationFlattened services records)
  /\ ((forall services, data <> VArr services) ->
      fst (SalonServiceService.getSalonServices w) = Ok data).
Proof.
  intros Htok Hne Hsrv Hok Hj.
  assert (exists w1,
            SalonServiceService.getSalonServices w
            = (match data with
               | VArr _ =>
                   l <- arrayMap data SalonServiceService.normalizeIllustration ;;
                   ret (VArr l)
               | _ => ret data
               end)%js w1) as [w1 ->].
  { unfold SalonServiceService.getSalonServices.
    rewrite getToken_bind. unfold storedToken. rewrite Htok. simpl.
    assert (Str.is_empty t = false) as -> by (by destruct t). simpl.
    unfold bind at 1, fetch. rewrite Hsrv by done.
    unfold bind at 1. rewrite (handleResponse_json _ data) by done.
    rewrite Hok. eexists. reflexivity. }
  split.
  - intros services r ->. simpl. unfold bind at 1.
    destruct (mapM SalonServiceService.normalizeIllustration services w1)
      as [[ys|e] w2] eqn:E; [|done].
    simpl. intros [= <-]. exists ys. split; [done|].
    eapply mapM_sound; [|exact E]. apply normalizeIllustration_sound.
  - intros Hna. destruct data; try done. by destruct (Hna l).
Qed.

Lemma getSalonProfile_cleans_portfolio_witness :
  secure (salonSession salonProfileBody) !! AuthService.TOKEN_KEY = Some "tok"
  /\ "tok" <> ""
  /\ (forall rq, rq_url rq = ApiClient.API_URL +:+ "/salon-profile" ->
        server (salonSession salonProfileBody)
          (sent (salonSession salonProfileBody)) rq
        = Some (Sample.okJson salonProfileBody))
  /\ ok (Sample.okJson salonProfileBody) = true
  /\ json (Sample.okJson salonProfileBody) = Some salonProfileBody
  /\ Js.own salonProfileBody "portfolio"
     = Some (VArr [VStr "http://img/a.jpg"; VStr ""; VStr "http://img/b.jpg"])
  /\ forallb Js.is_string
       [VStr "http://img/a.jpg"; VStr ""; VStr "http://img/b.jpg"] = true
  /\ exists r,
       fst (SalonProfileService.getSalonProfile (salonSession salonProfileBody))
         = Ok r
       /\ Js.own r "portfolio"
          = Some (VArr (List.filter Js.truthy
                          [VStr "http://img/a.jpg"; VStr "";
                           VStr "http://img/b.jpg"])).
Proof.
  assert (secure (salonSession salonProfileBody) !! AuthService.TOKEN_KEY
          = Some "tok") as Htok by (vm_compute; reflexivity).
  assert ("tok" <> "") as Hne by discriminate.
  assert (forall rq, rq_url rq = ApiClient.API_URL +:+ "/salon-profile" ->
            server (salonSession salonProfileBody)
              (sent (salonSession salonProfileBody)) rq
            = Some (Sample.okJson salonProfileBody)) as Hsrv
    by (intros rq _; reflexivity).
  split; [exact Htok|]. split; [exact Hne|]. split; [exact Hsrv|].
  repeat (split; [reflexivity|]).
  apply (proj2 (getSalonProfile_cleans_portfolio
                  (salonSession salonProfileBody) "tok"
                  (Sample.okJson salonProfileBody) salonProfileBody
                  [VStr "http://img/a.jpg"; VStr ""; VStr "http://img/b.jpg"]
                  Htok Hne Hsrv eq_refl eq_refl eq_refl)).
  reflexivity.
Defined.

Lemma getSalonServices_keeps_the_list_witness :
  secure (salonSession serviceList) !! AuthService.TOKEN_KEY = Some "tok"
  /\ "tok" <> ""
  /\ (forall rq, rq_url rq = ApiClient.API_URL +:+ "/salon-profile/services" ->
        server (salonSession serviceList) (sent (salonSession serviceList)) rq
        = Some (Sample.okJson serviceList))
  /\ ok (Sample.okJson serviceList) = true
  /\ json (Sample.okJson serviceList) = Some serviceList
  /\ fst (SalonServiceService.getSalonServices (salonSession serviceList))
     = Ok (VArr [VObj [("id", VStr "s1");
                       ("illustrationImage", VStr "http://img/cut.png")];
                 VObj [("id", VStr "s2");
                       ("illustrationImage", VStr "http://img/fade.png")]])
  /\ exists records,
       VArr [VObj [("id", VStr "s1");
                   ("illustrationImage", VStr "http://img/cut.png")];
             VObj [("id", VStr "s2");
                   ("illustrationImage", VStr "http://img/fade.png")]]
       = VArr records
       /\ Forall2 illustrationFlattened
            [VObj [("id", VStr "s1");
                   ("illustrationImage",
                    VObj [("url", VStr "http://img/cut.png")])];
             VObj [("id", VStr "s2");
                   ("illustrationImage", VStr "http://img/fade.png")]]
            records.
Proof.
  assert (secure (salonSession serviceList) !! AuthService.TOKEN_KEY
          = Some "tok") as Htok by (vm_compute; reflexivity).
  assert (fst (SalonServiceService.getSalonServices (salonSession serviceList))
          = Ok (VArr [VObj [("id", VStr "s1");
                            ("illustrationImage", VStr "http://img/cut.png")];
                      VObj [("id", VStr "s2");
                            ("illustrationImage", VStr "http://img/fade.png")]]))
    as Hrun by (vm_compute; reflexivity).
  assert ("tok" <> "") as Hne by discriminate.
  assert (forall rq,
            rq_url rq = ApiClient.API_URL +:+ "/salon-profile/services" ->
            server (salonSession serviceList) (sent (salonSession serviceList)) rq
            = Some (Sample.okJson serviceList)) as Hsrv
    by (intros rq _; reflexivity).
  split; [exact Htok|]. split; [exact Hne|]. split; [exact Hsrv|].
  repeat (split; [reflexivity|]).
  apply (proj1 (getSalonServices_keeps_the_list
                  (salonSession serviceList) "tok"
                  (Sample.okJson serviceList) serviceList
                  Htok Hne Hsrv eq_refl eq_refl) _ _ eq_refl Hrun).
Defined.

(** ** The debugging fetch *)

(** X16. [enhancedFetch] never passes on the backend's error message.  For
    every answer with a status outside 2xx, whatever its body (JSON with a
    message, JSON without, [null], or no JSON at all), it rejects with the
    error "HTTP error <status>" carrying that status: the error built from
    the body's [message] is thrown inside the [try] that also guards the
    JSON parsing, and is replaced by its [catch].  A 2xx answer gives the
    parsed body, or "Invalid JSON response" when the body is not JSON. *)
Theorem enhancedFetch_hides_the_message rq w response :
  server w (sent w) rq = Some response ->
  (ok response = false ->
   UserProfileFetch.enhancedFetch rq w
   = (Err (UserProfileFetch.httpError
             ("HTTP error " +:+ pretty (status response))
             (status response) None),
      mkWorld (secure w) (sent w ++ [rq]) (server w)))
  /\ (ok response = true ->
      UserProfileFetch.enhancedFetch rq w
      = (match json response with
         | Some data => Ok data
         | None => Err (JsError "Invalid JSON response")
         end,
         mkWorld (secure w) (sent w ++ [rq]) (server w))).
Proof.
  intros Hs.
  assert (UserProfileFetch.enhancedFetch rq w
          = (if ok response then
               match json response with
               | Some data => Ok data
               | None => Err (JsError "Invalid JSON response")
               end
             else Err (UserProfileFetch.httpError
                         ("HTTP error " +:+ pretty (status response))
                         (status response) None),
             mkWorld (secure w) (sent w ++ [rq]) (server w))) as ->.
  { unfold UserProfileFetch.enhancedFetch.
    change (fun error => throw error) with (@throw value).
    rewrite tryCatch_rethrow.
    unfold bind, fetch, tryCatch, ApiClient.responseJson, lift, ret, throw.
    rewrite Hs.
    destruct (json response) as [data|], (ok response); simpl; try done.
    by destruct (Js.get data "message"). }
  split; intros ->; done.
Qed.

Lemma enhancedFetch_hides_the_message_witness :
  server (Sample.fresh (Sample.answering Cases.conflict))
    (sent (Sample.fresh (Sample.answering Cases.conflict)))
    (loginRequest "a@b.co" "secret" "salon")
    = Some Cases.conflict
  /\ ok Cases.conflict = false
  /\ UserProfileFetch.enhancedFetch (loginRequest "a@b.co" "secret" "salon")
       (Sample.fresh (Sample.answering Cases.conflict))
     = (Err (UserProfileFetch.httpError
               ("HTTP error " +:+ pretty (status Cases.conflict))
               (status Cases.conflict) None),
        mkWorld (secure (Sample.fresh (Sample.answering Cases.conflict)))
          (sent (Sample.fresh (Sample.answering Cases.conflict))
           ++ [loginRequest "a@b.co" "secret" "salon"])
          (server (Sample.fresh (Sample.answering Cases.conflict)))).
Proof.
  split; [reflexivity|]. split; [reflexivity|].
  apply (proj1 (enhancedFetch_hides_the_message
                  (loginRequest "a@b.co" "secret" "salon")
                  (Sample.fresh (Sample.answering Cases.conflict))
                  Cases.conflict eq_refl)).
  reflexivity.
Defined.

(** ** Where the app opens *)

Lemma launch_cases w :
  RootLayout.launch w
  = (Some (match secure w !! "userToken" with
           | Some t =>
               if Str.is_empty t then "/(auth)/login"
               else match secure w !! "userType" with
                    | Some "user" => "/(user)/index"
                    | Some "salon" => "/salonTabs"
                    | _ => "/(auth)/login"
                    end
           | None => "/(auth)/login"
           end), w).
Proof.
  unfold RootLayout.launch, RootLayout.checkAuth, AuthService.isAuthenticated,
    bind, SecureStore.getItemAsync, ret.
  change AuthService.TOKEN_KEY with "userToken".
  destruct (secure w !! "userToken") as [t|]; simpl; [|done].
  destruct (Str.is_empty t); simpl; [done|].
  unfold AuthService.getUserType, tryCatch, SecureStore.getItemAsync,
    RootLayout.redirect. simpl.
  destruct (secure w !! "userType") as [u|]; simpl; [|done].
  destruct (String.eqb u "user") eqn:E1.
  { apply String.eqb_eq in E1. by subst. }
  destruct (String.eqb u "salon") eqn:E2.
  { apply String.eqb_eq in E2. by subst. }
  f_equal. f_equal.
  apply String.eqb_neq in E1, E2. repeat case_match; congruence.
Qed.

(** X17. After logging out the app opens on the login screen.  Whatever the
    store held, [handleLogout] replaces the screen with the login screen,
    and a cold start afterwards redirects to the login screen too, although
    the role tag is still stored; opening the app sends nothing and stores
    nothing. *)
Theorem logout_then_launch_opens_login (w : World) :
  fst (fst (Dashboard.handleLogout w)) = Some "/(auth)/login"
  /\ RootLayout.launch (snd (Dashboard.handleLogout w))
     = (Some "/(auth)/login", snd (Dashboard.handleLogout w))
  /\ secure (snd (Dashboard.handleLogout w)) !! "userType"
     = secure w !! "userType".
Proof.
  unfold Dashboard.handleLogout. simpl. split; [done|]. split.
  - rewrite launch_cases. simpl. by rewrite lookup_delete_eq.
  - by rewrite lookup_delete_ne.
Qed.

(** X18. Where a successful login leads on the next cold start.  When
    [handleLogin] has navigated, the store holds the selected role, which is
    "consumer" or "salon".  The root layout sends the tag "salon" to
    [/salonTabs], but knows the consumer side only under the tag "user": a
    consumer who has just logged in is redirected to the login screen when
    the app is opened again. *)
Theorem launch_after_login s w r :
  LoginScreen.route s = None ->
  LoginScreen.route (ui (LoginScreen.handleLogin s w)) = Some r ->
  fst (RootLayout.launch (world (LoginScreen.handleLogin s w)))
  = Some (if String.eqb (LoginScreen.role s) "salon"
          then "/salonTabs" else "/(auth)/login").
Proof.
  intros Hr0. unfold LoginScreen.handleLogin.
  match goal with
  | |- context [LoginScreen.validateEmail ?e ?s1] =>
      pose proof (login_validateEmail_route e s1) as R1;
      destruct (LoginScreen.validateEmail e s1) as [b1 s2]
  end.
  match goal with
  | |- context [LoginScreen.validatePassword ?e ?s1] =>
      pose proof (login_validatePassword_route e s1) as R2;
      destruct (LoginScreen.validatePassword e s1) as [b2 s3]
  end.
  simpl in R1, R2.
  destruct (negb b1 || negb b2); simpl.
  { rewrite R2, R1, Hr0. done. }
  destruct (LoginScreen.tryLogin _ _ _ w) as [[r'|e] w1] eqn:E; simpl.
  - apply tryLogin_ok in E as (t & Ht & -> & Hrole).
    intros _. rewrite launch_cases. simpl.
    rewrite lookup_insert_ne, lookup_insert_eq by done.
    rewrite Ht, lookup_insert_eq.
    by destruct Hrole as [[-> _] | [-> _]].
  - destruct (LoginScreen.catchLogin e _) as [s'|e'] eqn:Hc; simpl.
    + apply catchLogin_route in Hc. simpl in Hc.
      rewrite Hc, R2, R1, Hr0. done.
    + rewrite R2, R1, Hr0. done.
Qed.

Lemma launch_after_login_witness :
  LoginScreen.route LoginCase.form = None
  /\ LoginScreen.route (ui consumerLogin) = Some "/(consumerTabs)"
  /\ fst (RootLayout.launch (world consumerLogin)) = Some "/(auth)/login".
Proof.
  split; [reflexivity|]. split; [reflexivity|].
  apply (launch_after_login LoginCase.form (Sample.fresh Cases.tokenServer)
           "/(consumerTabs)"); reflexivity.
Defined.

(** ** Selecting categories *)

Lemma NoDup_snoc_In (l : list string) x :
  List.NoDup l -> ~ List.In x l -> List.NoDup (l ++ [x]).
Proof.
  induction 1 as [|y l Hy Hl IH]; simpl; intros Hx.
  - constructor; [by intros [] | constructor].
  - constructor.
    + rewrite List.in_app_iff. simpl. intros [H | [H | []]]; [done|].
      subst. apply Hx. by left.
    + apply IH. intros H. apply Hx. by right.
Qed.

Lemma existsb_eqb_In c (cs : list string) :
  existsb (String.eqb c) cs = true <-> List.In c cs.
Proof.
  rewrite List.existsb_exists. split.
  - intros (x & Hx & ->%String.eqb_eq). done.
  - intros H. exists c. by rewrite String.eqb_refl.
Qed.

(** X19. [toggleCategory] flips one category and nothing else: afterwards
    the category is selected exactly if it was not before, every other
    category is selected exactly if it was, a selection without repetitions
    stays without repetitions, and the category error is cleared.  A newly
    selected category goes to the end of the list. *)
Theorem toggleCategory_flips_one category (categories : list string) :
  let categories' := fst (ServicesScreen.toggleCategory category categories) in
  (List.In category categories' <-> ~ List.In category categories)
  /\ (forall c, c <> category ->
        (List.In c categories' <-> List.In c categories))
  /\ (List.NoDup categories -> List.NoDup categories')
  /\ (~ List.In category categories ->
      categories' = categories ++ [category])
  /\ snd (ServicesScreen.toggleCategory category categories) = "".
Proof.
  unfold ServicesScreen.toggleCategory. simpl.
  destruct (existsb (String.eqb category) categories) eqn:E.
  - apply existsb_eqb_In in E. split; [|split; [|split; [|split]]].
    + split; [|done].
      intros [_ Hf]%List.filter_In. by rewrite String.eqb_refl in Hf.
    + intros c Hc. rewrite List.filter_In. split; [by intros [H _]|].
      intros H. split; [done|]. by apply negb_true_iff, String.eqb_neq.
    + apply List.NoDup_filter.
    + done.
    + done.
  - assert (~ List.In category categories) as Hn.
    { intros H%existsb_eqb_In. congruence. }
    split; [|split; [|split; [|split]]].
    + split; [done|]. intros _. apply List.in_app_iff. right. by left.
    + intros c Hc. rewrite List.in_app_iff. simpl. split; [|by left].
      intros [H | [H | []]]; [done | congruence].
    + intros H. by apply NoDup_snoc_In.
    + done.
    + done.
Qed.

Lemma toggleCategory_flips_one_witness :
  List.NoDup ["Haircut"; "Facial"]
  /\ List.NoDup (fst (ServicesScreen.toggleCategory "Haircut"
                        ["Haircut"; "Facial"])).
Proof.
  assert (List.NoDup ["Haircut"; "Facial"]) as H.
  { constructor; [|constructor; [by intros [] | constructor]].
    intros [H | []]. discriminate. }
  split; [exact H|].
  destruct (toggleCategory_flips_one "Haircut" ["Haircut"; "Facial"])
    as (_ & _ & Hnd & _).
  exact (Hnd H).
Defined.

(** ** Phone numbers on the profile forms *)

Lemma matches_eps s : matches Regex.Eps s <-> s = "".
Proof. split; [by inversion 1 | intros ->; constructor]. Qed.

Lemma matches_alt r1 r2 s :
  matches (Regex.Alt r1 r2) s <-> matches r1 s \/ matches r2 s.
Proof.
  split.
  - inversion 1; subst; auto.
  - intros [H|H]; [by apply MAltL | by apply MAltR].
Qed.

Lemma matches_class_seq p r s :
  matches (Regex.Seq (Regex.Class p) r) s <->
  exists c s', s = String c s' /\ p c = true /\ matches r s'.
Proof.
  rewrite matches_seq. split.
  - intros (s1 & s2 & -> & (c & -> & Hc)%matches_class & H2). eauto.
  - intros (c & s' & -> & Hc & H). exists (String c ""), s'.
    split; [done|]. split; [apply matches_class; eauto | done].
Qed.

Lemma matches_upTo p m s :
  matches (SalonProfileScreen.UpTo m (Regex.Class p)) s <->
  allChars p s = true /\ (String.length s <= m)%nat.
Proof.
  revert s. induction m as [|m IH]; intros s; simpl.
  - rewrite matches_eps. split.
    + intros ->. simpl. split; [done | lia].
    + intros [_ H]. destruct s; [done | simpl in H; lia].
  - rewrite matches_alt, matches_eps, matches_class_seq. split.
    + intros [-> | (c & s' & -> & Hc & [Ha Hl]%IH)]; simpl.
      * split; [done | lia].
      * rewrite Hc, Ha. split; [done | lia].
    + intros [Ha Hl]. destruct s as [|c s']; [by left|]. right.
      simpl in Ha, Hl. apply andb_prop in Ha as [Hc Ha].
      exists c, s'. split; [done|]. split; [done|]. apply IH.
      split; [done | lia].
Qed.

Lemma matches_repeat_upTo p n m s :
  matches (Regex.Seq (SalonProfileScreen.Repeat n (Regex.Class p))
                     (SalonProfileScreen.UpTo m (Regex.Class p))) s <->
  allChars p s = true /\ (n <= String.length s <= n + m)%nat.
Proof.
  revert s. induction n as [|n IH]; intros s; simpl.
  - rewrite matches_seq. split.
    + intros (s1 & s2 & -> & ->%matches_eps & [Ha Hl]%matches_upTo).
      rewrite append_nil_l. split; [done | lia].
    + intros [Ha Hl]. exists "", s. split; [done|].
      split; [constructor|]. apply matches_upTo. split; [done | lia].
  - assert (matches (Regex.Seq
                       (Regex.Seq (Regex.Class p)
                          (SalonProfileScreen.Repeat n (Regex.Class p)))
                       (SalonProfileScreen.UpTo m (Regex.Class p))) s
            <-> matches (Regex.Seq (Regex.Class p)
                           (Regex.Seq
                              (SalonProfileScreen.Repeat n (Regex.Class p))
                              (SalonProfileScreen.UpTo m (Regex.Class p)))) s)
      as ->.
    { rewrite !matches_seq. split.
      - intros (s12 & s3 & -> & (s1 & s2 & -> & H1 & H2)%matches_seq & H3).
        exists s1, (s2 +:+ s3). rewrite append_assoc. split; [done|].
        split; [done|]. apply matches_seq. eauto.
      - intros (s1 & s23 & -> & H1 & (s2 & s3 & -> & H2 & H3)%matches_seq).
        exists (s1 +:+ s2), s3. rewrite append_assoc. split; [done|].
        split; [|done]. apply matches_seq. eauto. }
    rewrite matches_class_seq. split.
    + intros (c & s' & -> & Hc & [Ha Hl]%IH). simpl. rewrite Hc, Ha.
      split; [done | lia].
    + intros [Ha Hl]. destruct s as [|c s']; [simpl in Hl; lia|].
      simpl in Ha, Hl. apply andb_prop in Ha as [Hc Ha].
      exists c, s'. split; [done|]. split; [done|]. apply IH.
      split; [done | lia].
Qed.

(** The phone pattern accepts exactly an optional [+] followed by ten to
    fifteen digits. *)
Lemma phoneRegex_shape s :
  Regex.test SalonProfileScreen.phoneRegex s = true <-> phoneShaped s.
Proof.
  rewrite test_matches. unfold SalonProfileScreen.phoneRegex, phoneShaped.
  rewrite matches_seq. split.
  - intros (sign & digits & -> & Hsign%matches_alt & Hd%matches_repeat_upTo).
    exists sign, digits. split; [done|]. split.
    + destruct Hsign as [->%matches_eps | ->%matches_chr]; auto.
    + destruct Hd as [Ha Hl]. split; [done | lia].
  - intros (sign & digits & -> & Hsign & Ha & Hl).
    exists sign, digits. split; [done|]. split.
    + apply matches_alt. destruct Hsign as [-> | ->];
        [left; constructor | right; by apply matches_chr].
    + apply matches_repeat_upTo. split; [done | lia].
Qed.

Lemma phoneShaped_nonempty s : phoneShaped s -> Str.is_empty s = false.
Proof.
  intros (sign & digits & -> & _ & _ & Hl).
  destruct sign; [|done]. rewrite append_nil_l.
  destruct digits; [simpl in Hl; lia | done].
Qed.

Lemma trim_blank s : Str.is_empty (Str.trim s) = Str.all_ws s.
Proof.
  destruct (Str.all_ws s) eqn:E.
  - apply trim_empty_iff in E. by rewrite E.
  - destruct (Str.is_empty (Str.trim s)) eqn:E'; [|done].
    apply is_empty_true, trim_empty_iff in E'. congruence.
Qed.

(** X20. What the profile forms accept.  The salon form is valid exactly
    when the name and the address are not blank and the trimmed phone is an
    optional [+] followed by ten to fifteen digits.  The consumer form is
    valid exactly when the full name is not blank and the phone is blank or
    has that shape: there the phone is optional. *)
Theorem profile_forms_accept name address fullName phone :
  (fst (SalonProfileScreen.validateForm name address phone) = true <->
   Str.all_ws name = false /\ Str.all_ws address = false
   /\ phoneShaped (Str.trim phone))
  /\ (fst (fst (ConsumerProfileScreen.validateForm fullName phone)) = true <->
      Str.all_ws fullName = false
      /\ (Str.all_ws phone = true \/ phoneShaped (Str.trim phone))).
Proof.
  unfold SalonProfileScreen.validateForm, ConsumerProfileScreen.validateForm.
  simpl. rewrite !trim_blank. split.
  - rewrite !andb_true_iff, !negb_true_iff, phoneRegex_shape. split.
    + intros [[Hn Ha] [_ Hp]]. done.
    + intros (Hn & Ha & Hp). repeat split; try done.
      apply phoneShaped_nonempty in Hp. by rewrite trim_blank in Hp.
  - rewrite andb_true_iff, !negb_true_iff, andb_false_iff, !negb_false_iff.
    rewrite phoneRegex_shape. tauto.
Qed.

Example phoneRegex_accepts :
  Regex.test SalonProfileScreen.phoneRegex "+84912345678" = true
  /\ Regex.test SalonProfileScreen.phoneRegex "0912345678" = true
  /\ Regex.test SalonProfileScreen.phoneRegex "091234567" = false
  /\ Regex.test SalonProfileScreen.phoneRegex "0912 345 678" = false.
Proof. repeat split; vm_compute; reflexivity. Qed.

(** ** The portfolio on the salon profile screen *)

Lemma filter_index_above (l : list string) i k :
  (i < k)%nat ->
  map snd (List.filter (fun p : nat * string => negb (fst p =? i)%nat)
             (imap (fun j x => (j + k, x)%nat) l)) = l.
Proof.
  revert k. induction l as [|x l IH]; intros k Hk; [done|].
  simpl. assert ((k =? i)%nat = false) as -> by (apply Nat.eqb_neq; lia).
  simpl. f_equal.
  rewrite (imap_ext _ (fun j x => (j + S k, x)%nat)).
  - apply IH. lia.
  - intros j y _. simpl. f_equal. lia.
Qed.

Lemma removeImage_offset (l : list string) i k :
  map snd (List.filter (fun p : nat * string => negb (fst p =? i + k)%nat)
             (imap (fun j x => (j + k, x)%nat) l))
  = take i l ++ drop (S i) l.
Proof.
  revert i k. induction l as [|x l IH]; intros i k; [by destruct i|].
  simpl. destruct i as [|i]; simpl.
  - rewrite Nat.eqb_refl. simpl.
    rewrite (imap_ext _ (fun j x => (j + S k, x)%nat)).
    + rewrite filter_index_above by lia. by rewrite drop_0.
    + intros j y _. simpl. f_equal. lia.
  - assert ((k =? S (i + k))%nat = false) as -> by (apply Nat.eqb_neq; lia).
    simpl. f_equal.
    rewrite (imap_ext _ (fun j x => (j + S k, x)%nat)).
    + replace (S (i + k)) with (i + S k)%nat by lia. apply IH.
    + intros j y _. simpl. f_equal. lia.
Qed.

(** X21. [removeImage] takes out the image at the given position and only
    that one: the result is the images before it followed by the images
    after it, so the order of the others is kept, one image less is left,
    and a position past the end changes nothing. *)
Theorem removeImage_takes_one_out (index : nat) (portfolioImages : list string) :
  SalonProfileScreen.removeImage index portfolioImages
    = take index portfolioImages ++ drop (S index) portfolioImages
  /\ ((index < length portfolioImages)%nat ->
      S (length (SalonProfileScreen.removeImage index portfolioImages))
      = length portfolioImages)
  /\ ((length portfolioImages <= index)%nat ->
      SalonProfileScreen.removeImage index portfolioImages = portfolioImages).
Proof.
  assert (SalonProfileScreen.removeImage index portfolioImages
          = take index portfolioImages ++ drop (S index) portfolioImages) as ->.
  { unfold SalonProfileScreen.removeImage.
    rewrite (imap_ext _ (fun j x => (j + 0, x)%nat)).
    - pose proof (removeImage_offset portfolioImages index 0) as H.
      by rewrite Nat.add_0_r in H.
    - intros j y _. simpl. f_equal. lia. }
  split; [done|]. split.
  - intros H. rewrite length_app, length_take, length_drop. lia.
  - intros H. rewrite take_ge, drop_ge by lia. by rewrite app_nil_r.
Qed.

Lemma removeImage_takes_one_out_witness :
  (1 < length ["a.jpg"; "b.jpg"; "c.jpg"])%nat
  /\ S (length (SalonProfileScreen.removeImage 1 ["a.jpg"; "b.jpg"; "c.jpg"]))
     = length ["a.jpg"; "b.jpg"; "c.jpg"].
Proof.
  assert ((1 < length ["a.jpg"; "b.jpg"; "c.jpg"])%nat) as H by (simpl; lia).
  split; [exact H|].
  exact (proj1 (proj2 (removeImage_takes_one_out 1 ["a.jpg"; "b.jpg"; "c.jpg"]))
           H).
Defined.



(** ** Answers without a JSON body *)

Ltac not_json_case Htok Ht Hsrv Hj :=
  rewrite getToken_bind; unfold storedToken; rewrite Htok; simpl;
  rewrite Ht; simpl;
  unfold bind, fetch; rewrite Hsrv;
  rewrite handleResponse_not_json by exact Hj; reflexivity.

(** X23. A profile operation fails on any answer that is not JSON, even a
    successful one.  With a session, when the backend answers with a body
    that does not parse as JSON (an empty 204 answer to a delete, say),
    each of the thirteen profile operations rejects with the parse error
    after its single request, whatever the status, and stores nothing. *)
Theorem profileCall_needs_json_body (c : Client.ProfileCall) w t response :
  secure w !! AuthService.TOKEN_KEY = Some t ->
  t <> "" ->
  (forall rq, server w (sent w) rq = Some response) ->
  json response = None ->
  fst (Client.profileCall c w) = Err (SyntaxError "JSON Parse error")
  /\ secure (snd (Client.profileCall c w)) = secure w
  /\ length (sent (snd (Client.profileCall c w))) = S (length (sent w)).
Proof.
  intros Htok Hne Hsrv Hj.
  assert (Str.is_empty t = false) as Ht by (by destruct t).
  split.
  - destruct c; simpl;
      [ unfold UserProfileService.createUserProfile
      | unfold UserProfileService.getUserProfile
      | unfold UserProfileService.updateUserProfile
      | unfold UserProfileService.deleteUserProfile
      | unfold SalonProfileService.createSalonProfile
      | unfold SalonProfileService.getSalonProfile
      | unfold SalonProfileService.updateSalonProfile
      | unfold SalonProfileService.deleteSalonProfile
      | unfold SalonServiceService.createSalonService
      | unfold SalonServiceService.getSalonServices
      | unfold SalonServiceService.getSalonService
      | unfold SalonServiceService.updateSalonService
      | unfold SalonServiceService.deleteSalonService ];
      not_json_case Htok Ht Hsrv Hj.
  - pose proof (guarded_profileCall c w) as H. rewrite Htok, Ht in H.
    destruct H as (rq & -> & _). simpl. split; [done|].
    rewrite length_app. simpl. lia.
Qed.

Lemma profileCall_needs_json_body_witness :
  secure (Sample.session "tok" "consumer"
            (Sample.answering (mkResponse 204 "No Content" None)))
    !! AuthService.TOKEN_KEY = Some "tok"
  /\ "tok" <> ""
  /\ (forall rq,
        server (Sample.session "tok" "consumer"
                  (Sample.answering (mkResponse 204 "No Content" None)))
          (sent (Sample.session "tok" "consumer"
                   (Sample.answering (mkResponse 204 "No Content" None)))) rq
        = Some (mkResponse 204 "No Content" None))
  /\ json (mkResponse 204 "No Content" None) = None
  /\ ok (mkResponse 204 "No Content" None) = true
  /\ fst (Client.profileCall Client.DeleteUserProfile
            (Sample.session "tok" "consumer"
               (Sample.answering (mkResponse 204 "No Content" None))))
     = Err (SyntaxError "JSON Parse error").
Proof.
  assert (secure (Sample.session "tok" "consumer"
                    (Sample.answering (mkResponse 204 "No Content" None)))
            !! AuthService.TOKEN_KEY = Some "tok") as Htok
    by (vm_compute; reflexivity).
  assert ("tok" <> "") as Hne by discriminate.
  assert (forall rq,
            server (Sample.session "tok" "consumer"
                      (Sample.answering (mkResponse 204 "No Content" None)))
              (sent (Sample.session "tok" "consumer"
                       (Sample.answering (mkResponse 204 "No Content" None))))
              rq
            = Some (mkResponse 204 "No Content" None)) as Hsrv
    by (intros rq; reflexivity).
  split; [exact Htok|]. split; [exact Hne|]. split; [exact Hsrv|].
  split; [reflexivity|]. split; [reflexivity|].
  exact (proj1 (profileCall_needs_json_body Client.DeleteUserProfile _ "tok"
                  (mkResponse 204 "No Content" None) Htok Hne Hsrv eq_refl)).
Defined.

(** ** File names of uploads *)

Lemma includes_slash_cons c s :
  Str.includes "/" (String c s)
  = Ascii.eqb "/"%char c || Str.includes "/" s.
Proof.
  cbn [Str.includes Str.startsWith]. by destruct (Ascii.eqb "/"%char c).
Qed.

Lemma lastSegment_no_slash s : Str.includes "/" (Str.lastSegment s) = false.
Proof.
  induction s as [|c s IH]; [done|].
  cbn [Str.lastSegment]. destruct (Str.includes "/" (String c s)) eqn:E; done.
Qed.

Lemma lastSegment_suffix s :
  exists prefix,
    s = prefix +:+ Str.lastSegment s
    /\ (prefix = "" \/ Str.endsWith "/" prefix = true).
Proof.
  induction s as [|c s IH]; [by exists ""; auto|].
  cbn [Str.lastSegment]. destruct (Str.includes "/" (String c s)) eqn:E.
  - destruct IH as (prefix & Hs & Hp). exists (String c prefix).
    split; [by rewrite append_cons, <- Hs|]. right.
    destruct Hp as [-> | Hp].
    + rewrite append_nil_l in Hs.
      rewrite includes_slash_cons in E.
      assert (Str.includes "/" s = false) as Hn
        by (rewrite Hs; apply lastSegment_no_slash).
      rewrite Hn, orb_false_r in E. apply Ascii.eqb_eq in E. by subst.
    + revert Hp. unfold Str.endsWith, Str.rev. simpl.
      generalize (String c ""). intros acc.
      assert (forall p a1 a2,
                Str.startsWith "/" (Str.rev_acc p a1) = true ->
                p <> "" ->
                Str.startsWith "/" (Str.rev_acc p a2) = true) as Hacc.
      { induction p as [|d p IHp]; [done|]. intros a1 a2 H _.
        simpl in *. destruct p as [|d' p']; [done|].
        by apply (IHp (String d a1)). }
      intros Hp. destruct prefix as [|d p]; [done|].
      by apply (Hacc _ "").
  - exists "". auto.
Qed.

(** X24. The name given to an uploaded file is what follows the last slash
    of its URI: it contains no slash, the URI is some prefix (empty, or
    ending in a slash) followed by it, and when nothing follows the last
    slash the fallback name is used, so that the name is never empty. *)
Theorem fileName_is_last_segment uri fallback :
  fallback <> "" ->
  fileName uri fallback <> ""
  /\ (Str.lastSegment uri <> "" -> fileName uri fallback = Str.lastSegment uri)
  /\ (Str.lastSegment uri = "" -> fileName uri fallback = fallback)
  /\ Str.includes "/" (Str.lastSegment uri) = false
  /\ exists prefix,
       uri = prefix +:+ Str.lastSegment uri
       /\ (prefix = "" \/ Str.endsWith "/" prefix = true).
Proof.
  intros Hf. unfold fileName.
  split; [|split; [|split; [|split]]].
  - destruct (Str.lastSegment uri); done.
  - destruct (Str.lastSegment uri); done.
  - by intros ->.
  - apply lastSegment_no_slash.
  - apply lastSegment_suffix.
Qed.

Lemma fileName_is_last_segment_witness :
  "license.jpg" <> ""
  /\ fileName "file:///data/cache/permit.png" "license.jpg" = "permit.png".
Proof.
  assert ("license.jpg" <> "") as H by discriminate.
  split; [exact H|].
  destruct (fileName_is_last_segment "file:///data/cache/permit.png"
              "license.jpg" H) as (_ & Hl & _).
  rewrite Hl; [reflexivity | discriminate].
Defined.

(** ** The face image of a consumer profile *)

Lemma getUserProfile_answered w t response data :
  secure w !! AuthService.TOKEN_KEY = Some t ->
  t <> "" ->
  (forall rq, rq_url rq = ApiClient.API_URL +:+ "/user-profile" ->
     server w (sent w) rq = Some response) ->
  ok response = true ->
  json response = Some data ->
  exists w1,
    UserProfileService.getUserProfile w
    = (let faceImage := Js.getOpt data "faceImage" in
       if Js.truthy data && Js.truthy faceImage && Js.isObject faceImage
       then Ok (Js.set data "faceImage" (uriUrlPath faceImage))
       else Ok data, w1).
Proof.
  intros Htok Hne Hsrv Hok Hj. unfold UserProfileService.getUserProfile.
  rewrite getToken_bind. unfold storedToken. rewrite Htok. simpl.
  assert (Str.is_empty t = false) as -> by (by destruct t). simpl.
  unfold bind at 1, fetch. rewrite Hsrv by done.
  unfold bind at 1. rewrite (handleResponse_json _ data) by done.
  rewrite Hok. eexists.
  destruct (Js.truthy data && Js.truthy (Js.getOpt data "faceImage")
            && Js.isObject (Js.getOpt data "faceImage")); reflexivity.
Qed.

Lemma uriUrlPath_getImageUri image :
  Js.isObject image = true ->
  Js.truthy image = true ->
  Js.truthy (Js.getOpt image "source") = false ->
  uriUrlPath image = UserProfileService.getImageUri image.
Proof.
  intros Hobj Ht Hs. unfold uriUrlPath, UserProfileService.getImageUri.
  rewrite Ht, Hobj, Hs. simpl.
  assert (Js.is_string image = false) as -> by (by destruct image).
  unfold Js.orElse.
  destruct (Js.truthy (Js.getOpt image "uri")) eqn:E1;
    [by rewrite !E1|].
  destruct (Js.truthy (Js.getOpt image "url")) eqn:E2;
    [by rewrite !E2|].
  destruct (Js.truthy (Js.getOpt image "path")) eqn:E3; by rewrite ?E3.
Qed.

(** X25. [getUserProfile] and the face image.  With a session and a 2xx
    JSON answer the call always returns; every member other than
    [faceImage] is as received; a [faceImage] that is not a truthy object
    (absent, [null], a string, a number) leaves the body exactly as
    received; a [faceImage] that is an object is replaced by its first
    truthy member among [uri], [url] and [path], the empty string when
    there is none, which is what [getImageUri] gives for it unless the
    object has a truthy [source]. *)
Theorem getUserProfile_flattens_face_image w t response data :
  secure w !! AuthService.TOKEN_KEY = Some t ->
  t <> "" ->
  (forall rq, rq_url rq = ApiClient.API_URL +:+ "/user-profile" ->
     server w (sent w) rq = Some response) ->
  ok response = true ->
  json response = Some data ->
  exists r,
    fst (UserProfileService.getUserProfile w) = Ok r
    /\ (forall k, k <> "faceImage" -> Js.own r k = Js.own data k)
    /\ (Js.truthy (Js.getOpt data "faceImage")
        && Js.isObject (Js.getOpt data "faceImage") = false ->
        r = data)
    /\ (Js.truthy (Js.getOpt data "faceImage")
        && Js.isObject (Js.getOpt data "faceImage") = true ->
        Js.own r "faceImage" = Some (uriUrlPath (Js.getOpt data "faceImage"))
        /\ (Js.truthy (Js.getOpt (Js.getOpt data "faceImage") "source")
            = false ->
            Js.own r "faceImage"
            = Some (UserProfileService.getImageUri
                      (Js.getOpt data "faceImage")))).
Proof.
  intros Htok Hne Hsrv Hok Hj.
  destruct (getUserProfile_answered w t response data) as [w1 ->]; try done.
  cbv zeta.
  destruct (Js.truthy (Js.getOpt data "faceImage")) eqn:Ht.
  - destruct (truthy_member_object _ _ Ht) as [o ->]. simpl.
    destruct (Js.isObject (Js.getOpt (VObj o) "faceImage")) eqn:Hobj; simpl.
    + eexists. split; [reflexivity|].
      split; [by intros k Hk; apply assoc_set_ne|].
      split; [done|]. intros _.
      split; [apply assoc_set_eq|].
      intros Hs. etrans; [apply assoc_set_eq|].
      by rewrite uriUrlPath_getImageUri.
    + eexists. split; [reflexivity|]. done.
  - rewrite andb_false_r. simpl.
    eexists. split; [reflexivity|]. done.
Qed.

Lemma getUserProfile_flattens_face_image_witness :
  let data :=
    VObj [("fullName", VStr "An");
          ("faceImage", VObj [("path", VStr "/uploads/an.png")])] in
  let w :=
    Sample.session "tok" "consumer" (Sample.answering (Sample.okJson data)) in
  secure w !! AuthService.TOKEN_KEY = Some "tok"
  /\ "tok" <> ""
  /\ (forall rq, rq_url rq = ApiClient.API_URL +:+ "/user-profile" ->
        server w (sent w) rq = Some (Sample.okJson data))
  /\ ok (Sample.okJson data) = true
  /\ json (Sample.okJson data) = Some data
  /\ exists r,
       fst (UserProfileService.getUserProfile w) = Ok r
       /\ Js.own r "faceImage" = Some (VStr "/uploads/an.png")
       /\ Js.own r "fullName" = Some (VStr "An").
Proof.
  intros data w.
  assert (secure w !! AuthService.TOKEN_KEY = Some "tok") as Htok
    by (vm_compute; reflexivity).
  assert ("tok" <> "") as Hne by discriminate.
  assert (forall rq, rq_url rq = ApiClient.API_URL +:+ "/user-profile" ->
            server w (sent w) rq = Some (Sample.okJson data)) as Hsrv
    by (intros rq _; reflexivity).
  split; [exact Htok|]. split; [exact Hne|]. split; [exact Hsrv|].
  split; [reflexivity|]. split; [reflexivity|].
  destruct (getUserProfile_flattens_face_image w "tok" (Sample.okJson data)
              data Htok Hne Hsrv eq_refl eq_refl)
    as (r & Hr & Hk & _ & Hobj).
  exists r. split; [exact Hr|]. split.
  - destruct (Hobj eq_refl) as [-> _]. reflexivity.
  - rewrite Hk by discriminate. reflexivity.
Defined.
